(** * Openlyst-more-builds: resolution and normalisation engine

    A shallow embedding of the Python build scripts
    ([build.py], [build_altstore_repo.py], [build_fdroid_repo.py],
    [build_homebrew_tap.py], [build_winget_repo.py]) and the properties
    of their download resolvers, identifier sanitisers, version-code
    deriver, screenshot processor and batch loops.

    Layout: first the fragment of the Python runtime the scripts rely
    on (JSON values, exceptions, [str] and [dict] primitives), then one
    module per source file, then the lemmas and theorems. *)

From Stdlib Require Import ZArith NArith String Ascii List Bool Lia.
Import ListNotations.

Local Open Scope string_scope.
Local Open Scope list_scope.

(* ================================================================= *)
(** ** Python values and exceptions *)

(** What [json] decoding hands to the scripts.  A [dict] is kept as an
    association list in insertion order, because the fallback scans of
    the resolvers iterate [.items()]; lookup takes the first binding.
    JSON numbers are represented by integers. *)
#[warnings="-register-all"]
Inductive value : Type :=
| VNone
| VBool (b : bool)
| VInt (n : Z)
| VStr (s : string)
| VList (l : list value)
| VDict (d : list (string * value)).

(** The exception classes the modelled statements can raise. *)
Inductive exn : Type :=
| AttributeError
| TypeError
| KeyError
| IndexError
| ValueError
| OSError.

(** A computation either returns or raises. *)
Inductive result (A : Type) : Type :=
| Ok (a : A)
| Raise (e : exn).

Arguments Ok {A} a.
Arguments Raise {A} e.

Definition bind {A B : Type} (r : result A) (k : A -> result B) : result B :=
  match r with
  | Ok a => k a
  | Raise e => Raise e
  end.

Notation "x <- c1 ;; c2" := (bind c1 (fun x => c2))
  (at level 61, c1 at next level, right associativity).

(** [try: c  except: return h], with a handler that cannot raise. *)
Definition try_except {A : Type} (c : result A) (h : exn -> A) : A :=
  match c with
  | Ok a => a
  | Raise e => h e
  end.

(** [try: c  except Exception as e: h], where the handler itself runs
    statements that may raise. *)
Definition try_catch {A : Type} (c : result A) (h : exn -> result A) : result A :=
  match c with
  | Ok a => Ok a
  | Raise e => h e
  end.

(** Exit status of [exit(main())]: the returned code, or 1 when an
    exception reaches the top level. *)
Definition process_exit (r : result Z) : Z :=
  match r with
  | Ok c => c
  | Raise _ => 1%Z
  end.

(** Truth value of an object, as tested by [if x:] and [not x]. *)
Definition truthy (v : value) : bool :=
  match v with
  | VNone => false
  | VBool b => b
  | VInt n => negb (n =? 0)%Z
  | VStr s => negb (s =? "")
  | VList l => match l with [] => false | _ => true end
  | VDict d => match d with [] => false | _ => true end
  end.

(* ================================================================= *)
(** ** Characters and [str] methods

    Text is modelled over the ASCII alphabet, on which the regular
    expressions of the scripts ([[^a-zA-Z0-9]], [[^\d.]]) and the
    [str] methods below have the classes defined here.  The type
    [ascii] has 8 bits: a character above 127 stands for none of
    Python's and counts as uncased, not alphanumeric and not white
    space.  A statement that depends on how [str.title] treats other
    characters is made for ASCII text ([is_ascii_text]). *)

Definition code (c : ascii) : N := N_of_ascii c.

Definition in_range (lo hi : N) (c : ascii) : bool :=
  ((lo <=? code c) && (code c <=? hi))%N.

Definition is_digit (c : ascii) : bool := in_range 48 57 c.
Definition is_upper (c : ascii) : bool := in_range 65 90 c.
Definition is_lower (c : ascii) : bool := in_range 97 122 c.
Definition is_alpha (c : ascii) : bool := is_upper c || is_lower c.
Definition is_alnum (c : ascii) : bool := is_alpha c || is_digit c.

(** [str.isspace] on one ASCII character: TAB..CR, FS..US and space. *)
Definition is_space (c : ascii) : bool :=
  in_range 9 13 c || in_range 28 32 c.

Definition to_upper (c : ascii) : ascii :=
  if is_lower c then ascii_of_N (code c - 32) else c.
Definition to_lower (c : ascii) : ascii :=
  if is_upper c then ascii_of_N (code c + 32) else c.

Fixpoint str_filter (keep : ascii -> bool) (s : string) : string :=
  match s with
  | EmptyString => EmptyString
  | String c r => if keep c then String c (str_filter keep r) else str_filter keep r
  end.

Fixpoint str_map (f : ascii -> ascii) (s : string) : string :=
  match s with
  | EmptyString => EmptyString
  | String c r => String (f c) (str_map f r)
  end.

Fixpoint str_forall (p : ascii -> bool) (s : string) : bool :=
  match s with
  | EmptyString => true
  | String c r => p c && str_forall p r
  end.

(** The text holds ASCII characters only. *)
Definition is_ascii_text (s : string) : bool :=
  str_forall (fun c => (code c <? 128)%N) s.

(** [str.lower()] *)
Definition lower (s : string) : string := str_map to_lower s.

(** [str.title()]: a cased character is upper-cased when the previous
    character is not cased and lower-cased when it is. *)
Fixpoint title_from (previous_is_cased : bool) (s : string) : string :=
  match s with
  | EmptyString => EmptyString
  | String c r =>
      if is_lower c then
        String (if previous_is_cased then c else to_upper c) (title_from true r)
      else if is_upper c then
        String (if previous_is_cased then to_lower c else c) (title_from true r)
      else String c (title_from false r)
  end.

Definition title (s : string) : string := title_from false s.

(** [str.startswith(p)] *)
Fixpoint startswith (p s : string) : bool :=
  match p, s with
  | EmptyString, _ => true
  | String a p', String b s' => Ascii.eqb a b && startswith p' s'
  | String _ _, EmptyString => false
  end.

(** [p in s] for two strings: [p] occurs as a substring of [s]. *)
Fixpoint contains (p s : string) : bool :=
  startswith p s ||
  match s with
  | EmptyString => false
  | String _ s' => contains p s'
  end.

(** [str.lstrip()], [str.rstrip()] and [str.strip()] without argument. *)
Fixpoint lstrip (s : string) : string :=
  match s with
  | EmptyString => EmptyString
  | String c r => if is_space c then lstrip r else s
  end.

Fixpoint rstrip (s : string) : string :=
  match s with
  | EmptyString => EmptyString
  | String c r =>
      match rstrip r with
      | EmptyString => if is_space c then EmptyString else String c EmptyString
      | r' => String c r'
      end
  end.

Definition strip (s : string) : string := rstrip (lstrip s).

(** [s.split(sep)] for a one-character separator: never the empty list. *)
Fixpoint split (sep : ascii) (s : string) : list string :=
  match s with
  | EmptyString => [EmptyString]
  | String c r =>
      if Ascii.eqb c sep then EmptyString :: split sep r
      else match split sep r with
           | h :: t => String c h :: t
           | [] => [String c EmptyString]
           end
  end.

(** [sep.join(parts)] *)
Fixpoint join (sep : string) (parts : list string) : string :=
  match parts with
  | [] => EmptyString
  | [p] => p
  | p :: rest => (p ++ sep ++ join sep rest)%string
  end.

(** [s.replace(' ', '-')] for single characters. *)
Definition replace_char (a b : ascii) (s : string) : string :=
  str_map (fun c => if Ascii.eqb c a then b else c) s.

(** [int(s)] on a string: decimal digits only (the scripts call it on
    text already reduced to digits); anything else, and the empty
    string, is a [ValueError], and so is a string of more digits than
    the interpreter converts ([sys.int_info.default_max_str_digits]). *)
Definition max_str_digits : N := 4300.

Fixpoint digits_value (acc : Z) (s : string) : option Z :=
  match s with
  | EmptyString => Some acc
  | String c r =>
      if is_digit c
      then digits_value (acc * 10 + Z.of_N (code c - 48)) r
      else None
  end.

Definition int (s : string) : result Z :=
  match s with
  | EmptyString => Raise ValueError
  | _ => match digits_value 0 s with
         | Some n =>
             if (max_str_digits <? N.of_nat (String.length s))%N
             then Raise ValueError
             else Ok n
         | None => Raise ValueError
         end
  end.

(* ================================================================= *)
(** ** Paths

    A [pathlib] path on a POSIX system: its root ("", "/" or "//") and
    its components.  The operator [/] with a string on the right parses
    the string into components, dropping the empty ones and ".", and
    starts again from the string when it is absolute. *)

Record path : Type := { path_root : string; path_parts : list string }.

Definition segment_root (s : string) : string :=
  if startswith "//" s && negb (startswith "///" s) then "//"
  else if startswith "/" s then "/"
  else "".

Definition segment_parts (s : string) : list string :=
  filter (fun c => negb (c =? "") && negb (c =? ".")) (split "/" s).

(** [p / s] *)
Definition path_join (p : path) (s : string) : path :=
  if segment_root s =? "" then
    {| path_root := path_root p; path_parts := path_parts p ++ segment_parts s |}
  else
    {| path_root := segment_root s; path_parts := segment_parts s |}.

(** [p / x] for an arbitrary object [x]: only a string can be joined. *)
Definition path_join_value (p : path) (x : value) : result path :=
  match x with
  | VStr s => Ok (path_join p s)
  | _ => Raise TypeError
  end.

(* ================================================================= *)
(** ** [dict] and container primitives *)

Fixpoint lookup (k : string) (d : list (string * value)) : option value :=
  match d with
  | [] => None
  | (k', v) :: rest => if k' =? k then Some v else lookup k rest
  end.

Definition keys (d : list (string * value)) : list string := map fst d.

(** [obj.get(k, default)]: only a [dict] has the method. *)
Definition get (obj : value) (k : string) (default : value) : result value :=
  match obj with
  | VDict d => Ok (match lookup k d with Some v => v | None => default end)
  | _ => Raise AttributeError
  end.

(** [obj[k]] with a string key. *)
Definition getitem (obj : value) (k : string) : result value :=
  match obj with
  | VDict d => match lookup k d with Some v => Ok v | None => Raise KeyError end
  | _ => Raise TypeError
  end.

Definition is_str_eq (k : string) (v : value) : bool :=
  match v with
  | VStr s => s =? k
  | _ => false
  end.

(** [k in obj] with a string [k]: key of a dict, element of a list,
    substring of a string; the other objects are not iterable. *)
Definition py_in (k : string) (obj : value) : result bool :=
  match obj with
  | VDict d => Ok (match lookup k d with Some _ => true | None => false end)
  | VList l => Ok (existsb (is_str_eq k) l)
  | VStr s => Ok (contains k s)
  | _ => Raise TypeError
  end.

(** [obj.items()] *)
Definition items (obj : value) : result (list (string * value)) :=
  match obj with
  | VDict d => Ok d
  | _ => Raise AttributeError
  end.

(** [obj.get(k, default)] where the default is itself an expression
    that may raise: the method is looked up first, then the arguments
    are evaluated. *)
Definition get_with (obj : value) (k : string) (default : result value)
  : result value :=
  match obj with
  | VDict d =>
      dflt <- default ;;
      Ok (match lookup k d with Some v => v | None => dflt end)
  | _ => Raise AttributeError
  end.

(** A method of [str] called on an arbitrary object ([name.title()],
    [name.lower()], [desc.replace(..)]). *)
Definition as_str (obj : value) : result string :=
  match obj with
  | VStr s => Ok s
  | _ => Raise AttributeError
  end.

(** [str(x)]: a string is itself; the printed form of any other object
    is left to [show]. *)
Definition py_str (show : value -> string) (x : value) : string :=
  match x with
  | VStr s => s
  | _ => show x
  end.

(* ================================================================= *)
(** ** Probe loops of the download resolvers

    The resolvers of [build_homebrew_tap.py], [build_winget_repo.py]
    and [build.py] are written with the same three loops; each is
    modelled once.  A loop that [return]s yields the returned object,
    one that falls through yields [VNone]. *)

(** [for k in ks: if k in obj and obj[k]: return obj[k]] *)
Fixpoint probe_keys (obj : value) (ks : list string) : result value :=
  match ks with
  | [] => Ok VNone
  | k :: rest =>
      has <- py_in k obj ;;
      if has then
        x <- getitem obj k ;;
        if truthy x then Ok x else probe_keys obj rest
      else probe_keys obj rest
  end.

(** [for package_type in package_types:
       if package_type in pd:
         pkg_data = pd[package_type]
         if isinstance(pkg_data, dict):
           for arch in ['x86_64', 'arm64']: ...
         elif isinstance(pkg_data, str) and <direct_ok>: return pkg_data]
    The test on a direct string differs between the scripts. *)
Fixpoint probe_packages (direct_ok : string -> bool) (pd : value)
    (package_types : list string) : result value :=
  match package_types with
  | [] => Ok VNone
  | package_type :: rest =>
      has <- py_in package_type pd ;;
      if has then
        pkg_data <- getitem pd package_type ;;
        match pkg_data with
        | VDict _ =>
            r <- probe_keys pkg_data ["x86_64"; "arm64"] ;;
            if truthy r then Ok r else probe_packages direct_ok pd rest
        | VStr s =>
            if direct_ok s then Ok pkg_data
            else probe_packages direct_ok pd rest
        | _ => probe_packages direct_ok pd rest
        end
      else probe_packages direct_ok pd rest
  end.

Definition nonempty (s : string) : bool := negb (s =? "").

(** [isinstance(v, str) and v.startswith('http')] *)
Definition is_http (v : value) : bool :=
  match v with
  | VStr s => startswith "http" s
  | _ => false
  end.

(** [for arch_key, arch_value in value.items(): ...] *)
Fixpoint scan_leaves (entries : list (string * value)) : value :=
  match entries with
  | [] => VNone
  | (_, arch_value) :: rest =>
      if is_http arch_value then arch_value else scan_leaves rest
  end.

(** The fallback [for key, value in platform_downloads.items(): ...] *)
Fixpoint scan_items (entries : list (string * value)) : value :=
  match entries with
  | [] => VNone
  | (_, v) :: rest =>
      match v with
      | VDict inner =>
          match scan_leaves inner with
          | VNone => scan_items rest
          | found => found
          end
      | _ => if is_http v then v else scan_items rest
      end
  end.

(** First candidate that is present. *)
Definition or_else {A : Type} (a b : option A) : option A :=
  match a with
  | Some _ => a
  | None => b
  end.

(** [for k in ks: if k in d and d[k]: return d[k]] on an object known
    to be a [dict]. *)
Fixpoint probe_dict (d : list (string * value)) (ks : list string) : value :=
  match ks with
  | [] => VNone
  | k :: rest =>
      match lookup k d with
      | Some x => if truthy x then x else probe_dict d rest
      | None => probe_dict d rest
      end
  end.

(* ================================================================= *)
(** ** The batch loop of the stand-alone scripts

    [main] of [build_fdroid_repo.py], [build_homebrew_tap.py] and
    [build_winget_repo.py] run the same loop around their generator;
    [get_app_versions] is the catalog client (an external
    collaborator) and [emit] the generator call turned into the
    condition of the [if].  The loop of [build_fdroid_repo.py] also
    collects the entries of its index and is written out in
    [Fdroid.main_loop].

    The file system is an external collaborator as well: [mkdir] and
    [write_file] in the modules below tell, for a path, whether the
    directory can be created and whether the file can be opened and
    written, and with which exception they fail. *)

Section Batch.

Variable get_app_versions : value -> list value.
Variable emit : value -> list value -> result bool.

Fixpoint batch_loop (apps : list value) (generated_count failed_count : Z)
  : result (Z * Z) :=
  match apps with
  | [] => Ok (generated_count, failed_count)
  | app :: rest =>
      slug <- get app "slug" VNone ;;
      if negb (truthy slug) then
        batch_loop rest generated_count (failed_count + 1)%Z
      else
        ok <- emit app (get_app_versions slug) ;;
        if ok then batch_loop rest (generated_count + 1)%Z failed_count
        else batch_loop rest generated_count (failed_count + 1)%Z
  end.

(** The last statements of [main]. *)
Definition exit_code (generated_count failed_count : Z) : Z :=
  if (generated_count =? 0)%Z then 1%Z
  else if (0 <? failed_count)%Z then 0%Z
  else 0%Z.

(** What [main] does around the loop: [setup] is the construction of
    the generator, which creates its output directory before the
    catalog is fetched, and [publish] the writing of the info file
    between the loop and the exit decision. *)
Variable setup : result unit.
Variable publish : result unit.

Definition batch_main (apps : list value) : result Z :=
  _ <- setup ;;
  match apps with
  | [] => Ok 1%Z
  | _ =>
      counts <- batch_loop apps 0%Z 0%Z ;;
      _ <- publish ;;
      Ok (exit_code (fst counts) (snd counts))
  end.

(** Applications for which the generator reported success. *)
Definition written (app : value) : bool :=
  match get app "slug" VNone with
  | Ok slug =>
      truthy slug &&
      match emit app (get_app_versions slug) with
      | Ok true => true
      | _ => false
      end
  | Raise _ => false
  end.

Definition written_count (apps : list value) : nat :=
  List.length (filter written apps).

(** The loop runs to its end on [apps]: every entry is a mapping and
    no exception leaves the generator. *)
Definition isolated (app : value) : Prop :=
  exists slug, get app "slug" VNone = Ok slug /\
    (truthy slug = true ->
     exists ok, emit app (get_app_versions slug) = Ok ok).

End Batch.

(* ================================================================= *)
(** ** build_fdroid_repo.py *)

Module Fdroid.

(** [FDroidMetadataGenerator.sanitize_package_id] *)
Definition sanitize_package_id (bundle_id name : value) : result value :=
  if truthy bundle_id && negb (is_str_eq "unknown" bundle_id) then Ok bundle_id
  else
    n <- as_str name ;;
    Ok (VStr ("ink.openlyst." ++ str_filter is_alnum (lower n))).

(** [FDroidMetadataGenerator.get_android_download_url] *)
Definition get_android_download_url (version : value) : result value :=
  downloads <- get version "downloads" (VDict []) ;;
  android_downloads <- get downloads "Android" (VDict []) ;;
  if negb (truthy android_downloads) then Ok VNone
  else
    has <- py_in "apk" android_downloads ;;
    if has then
      apk <- getitem android_downloads "apk" ;;
      if truthy apk then Ok apk else Ok VNone
    else Ok VNone.

(** [re.sub(r'[^\d.]', '', version_str)]; on ASCII text the class
    [\d] is [0-9]. *)
Definition clean_version (version_str : string) : string :=
  str_filter (fun c => is_digit c || Ascii.eqb c ".") version_str.

(** [while len(parts) < 3: parts.append('0')] *)
Definition pad_parts (parts : list string) : list string :=
  parts ++ repeat "0" (3 - List.length parts).

(** [int(p) if p else 0] *)
Definition component (p : string) : result Z :=
  if p =? "" then Ok 0%Z else int p.

(** The first three components, as read inside the [try] block. *)
Definition version_components (version_str : string) : result (Z * Z * Z) :=
  let parts := pad_parts (split "." (clean_version version_str)) in
  major <- component (nth 0 parts "") ;;
  minor <- component (nth 1 parts "") ;;
  patch <- component (nth 2 parts "") ;;
  Ok (major, minor, patch).

Definition version_to_code_try (version_str : value) : result Z :=
  match version_str with
  | VStr s =>
      mmp <- version_components s ;;
      let '(major, minor, patch) := mmp in
      Ok (major * 10000 + minor * 100 + patch)%Z
  | _ => Raise TypeError   (* re.sub on something that is not a string *)
  end.

(** [FDroidMetadataGenerator.version_to_code] *)
Definition version_to_code (version_str : value) : Z :=
  try_except (version_to_code_try version_str) (fun _ => 1%Z).

Section Emitter.

(** The environment of the generator: [str] on objects other than
    strings (the f-string of the file name formats the package
    identifier), the output directory given on the command line, the
    file system, and the clock read for the index. *)
Variable show : value -> string.
Variable output_dir : path.
Variable mkdir : path -> result unit.
Variable write_file : path -> result unit.
Variable timestamp : Z.

Definition metadata_dir : path := path_join output_dir "metadata".
Definition repo_dir : path := path_join output_dir "repo".

(** [self.metadata_dir / f"{package_id}.yml"] *)
Definition metadata_file (package_id : value) : path :=
  path_join metadata_dir (py_str show package_id ++ ".yml").

(** [FDroidMetadataGenerator.generate_metadata_file], with
    [calculate_info] off (its default). *)
Definition generate_metadata_file (app : value) (versions : list value)
    (package_id : value) : result bool :=
  match versions with
  | [] => Ok false
  | latest_version :: _ =>
      download_url <- get_android_download_url latest_version ;;
      if negb (truthy download_url) then
        _ <- getitem app "name" ;; Raise ValueError
      else
        _ <- get_with app "subtitle" (getitem app "name") ;;
        _ <- get_with app "localizedDescription"
               (get app "subtitle" (VStr "OpenLyst application")) ;;
        _ <- get app "slug" (VStr "") ;;
        _ <- getitem app "name" ;;
        _ <- getitem latest_version "version" ;;
        _ <- write_file (metadata_file package_id) ;;
        Ok true
  end.

(** [FDroidMetadataGenerator.generate_metadata_for_app] *)
Definition generate_metadata_for_app (app : value) (versions : list value)
  : result value :=
  match versions with
  | [] => _ <- get app "name" (VStr "Unknown") ;; Ok VNone
  | latest_version :: _ =>
      app_platforms <- get latest_version "platforms" (VList []) ;;
      supported <- py_in "Android" app_platforms ;;
      if negb supported then
        _ <- get app "name" (VStr "Unknown") ;; Ok VNone
      else
        try_catch
          (bundle_id <- get app "bundleIdentifier" (VStr "") ;;
           name <- getitem app "name" ;;
           package_id <- sanitize_package_id bundle_id name ;;
           done <- generate_metadata_file app versions package_id ;;
           if done then
             summary <- get_with app "subtitle" (getitem app "name") ;;
             description <- get_with app "localizedDescription"
                              (get app "subtitle" (VStr "OpenLyst application")) ;;
             Ok (VDict [("packageName", package_id);
                        ("name", name);
                        ("summary", summary);
                        ("description", description);
                        ("license", VStr "Unknown");
                        ("categories", VList [VStr "System"; VStr "Internet"]);
                        ("authorName", VStr "OpenLyst");
                        ("webSite", VStr "https://openlyst.ink")])
           else Ok VNone)
          (fun _ => _ <- get app "name" (VStr "Unknown") ;; Ok VNone)
  end.

(** The condition [if app_info:] on the result of the generator. *)
Definition generated (app : value) (versions : list value) : result bool :=
  app_info <- generate_metadata_for_app app versions ;;
  Ok (truthy app_info).

(** Only a hashable object can be the key of a [dict]. *)
Definition hashable (v : value) : bool :=
  match v with
  | VList _ | VDict _ => false
  | _ => true
  end.

(** Equality of two hashable keys: [True == 1] and [False == 0]. *)
Definition key_number (v : value) : option Z :=
  match v with
  | VBool b => Some (if b then 1 else 0)%Z
  | VInt n => Some n
  | _ => None
  end.

Definition key_eqb (a b : value) : bool :=
  match a, b with
  | VNone, VNone => true
  | VStr s, VStr t => s =? t
  | _, _ =>
      match key_number a, key_number b with
      | Some m, Some n => (m =? n)%Z
      | _, _ => false
      end
  end.

(** [d[k] = v] on a [dict] whose keys are arbitrary hashable objects. *)
Fixpoint dict_set (k v : value) (d : list (value * value))
  : list (value * value) :=
  match d with
  | [] => [(k, v)]
  | (k', v') :: rest =>
      if key_eqb k' k then (k', v) :: rest else (k', v') :: dict_set k v rest
  end.

(** [{app['packageName']: [app] for app in app_infos
      if 'packageName' in app}] *)
Fixpoint index_packages (app_infos : list value) (packages : list (value * value))
  : result (list (value * value)) :=
  match app_infos with
  | [] => Ok packages
  | app :: rest =>
      has <- py_in "packageName" app ;;
      if has then
        package_name <- getitem app "packageName" ;;
        if hashable package_name
        then index_packages rest (dict_set package_name (VList [app]) packages)
        else Raise TypeError
      else index_packages rest packages
  end.

(** [FDroidMetadataGenerator.generate_repository_index]: the ['repo']
    object and the ['packages'] mapping. *)
Definition generate_repository_index (app_infos : list value)
  : result (value * list (value * value)) :=
  let repo :=
    VDict [("name", VStr "OpenLyst F-Droid Repository");
           ("description",
            VStr "Free and open source Android applications from OpenLyst");
           ("website", VStr "https://openlyst.ink");
           ("address",
            VStr "https://raw.githubusercontent.com/HttpAnimation/Openlyst-more-builds/main/fdroid-repo");
           ("timestamp", VInt timestamp);
           ("version", VInt 20001);
           ("maxage", VInt 1);
           ("icon", VStr "icon.png")] in
  packages <- index_packages app_infos [] ;;
  Ok (repo, packages).

Section Main.

Variable get_app_versions : value -> list value.

(** The loop of [main], which also collects the entries of the
    index. *)
Fixpoint main_loop (apps : list value) (generated_count failed_count : Z)
    (app_infos : list value) : result (Z * Z * list value) :=
  match apps with
  | [] => Ok (generated_count, failed_count, app_infos)
  | app :: rest =>
      slug <- get app "slug" VNone ;;
      if negb (truthy slug) then
        main_loop rest generated_count (failed_count + 1)%Z app_infos
      else
        app_info <- generate_metadata_for_app app (get_app_versions slug) ;;
        if truthy app_info then
          main_loop rest (generated_count + 1)%Z failed_count
            (app_infos ++ [app_info])
        else main_loop rest generated_count (failed_count + 1)%Z app_infos
  end.

(** [main]: the construction of the generator, the loop, the index,
    the info file and the exit decision. *)
Definition main (apps : list value) : result Z :=
  _ <- mkdir metadata_dir ;;
  _ <- mkdir repo_dir ;;
  match apps with
  | [] => Ok 1%Z
  | _ =>
      state <- main_loop apps 0%Z 0%Z [] ;;
      let '(generated_count, failed_count, app_infos) := state in
      _ <- match app_infos with
           | [] => Ok tt
           | _ =>
               _ <- generate_repository_index app_infos ;;
               write_file (path_join output_dir "index.json")
           end ;;
      _ <- write_file (path_join output_dir "repo-info.json") ;;
      Ok (exit_code generated_count failed_count)
  end.

End Main.

End Emitter.

End Fdroid.

(* ================================================================= *)
(** ** build_homebrew_tap.py *)

Module Homebrew.

(** [HomebrewFormulaGenerator.sanitize_class_name]; [sanitized[0]]
    is an [IndexError] on the empty string. *)
Definition sanitize_class_name (name : string) : result string :=
  let sanitized := str_filter is_alnum (title name) in
  match sanitized with
  | EmptyString => Raise IndexError
  | String c _ =>
      if negb (is_alpha c) then Ok ("App" ++ sanitized)%string else Ok sanitized
  end.

(** [HomebrewFormulaGenerator.get_download_url_for_platform] *)
Definition get_download_url_for_platform (version : value) (platform : string)
  : result value :=
  downloads <- get version "downloads" (VDict []) ;;
  platform_downloads <- get downloads platform (VDict []) ;;
  if negb (truthy platform_downloads) then Ok VNone
  else
    r <- (if platform =? "macOS" then
            probe_keys platform_downloads ["universal"; "arm64"; "x86_64"]
          else if platform =? "Linux" then
            probe_packages nonempty platform_downloads
              ["appimage"; "zip"; "deb"; "rpm"]
          else if platform =? "Windows" then
            probe_packages nonempty platform_downloads ["zip"; "exe"; "msi"]
          else Ok VNone) ;;
    if truthy r then Ok r
    else
      entries <- items platform_downloads ;;
      Ok (scan_items entries).

Section Emitter.

(** [urlparse(u).path] and [Path(p).suffix] come from [urllib] and
    [pathlib]; [urlparse] raises on some malformed hosts.  Then the
    output directory given on the command line and the file system. *)
Variable urlparse_path : string -> result string.
Variable path_suffix : string -> string.
Variable output_dir : path.
Variable mkdir : path -> result unit.
Variable write_file : path -> result unit.

Definition formula_dir : path := path_join output_dir "Formula".

Definition mem (x : string) (l : list string) : bool :=
  existsb (String.eqb x) l.

(** [HomebrewFormulaGenerator.generate_formula_content], with
    [calculate_sha256] off (its default).  The result keeps the
    formula kind and the class name of the generated text. *)
Definition generate_formula_content (app version : value) (platform : string)
  : result (string * string) :=
  name <- getitem app "name" ;;
  n <- as_str name ;;
  class_name <- sanitize_class_name n ;;
  download_url <- get_download_url_for_platform version platform ;;
  if negb (truthy download_url) then Raise ValueError
  else
    u <- as_str download_url ;;
    url_path <- urlparse_path u ;;
    let file_extension := lower (path_suffix url_path) in
    formula_type <-
      (if mem file_extension [".dmg"; ".pkg"] then
         (* generate_cask_install *)
         _ <- getitem app "bundleIdentifier" ;; Ok "cask"
       else if mem file_extension [".zip"; ".tar.gz"; ".tgz"] then Ok "formula"
       else if mem file_extension [".app"] then Ok "cask"
       else Ok "formula") ;;
    _ <- get app "website" (VStr "https://openlyst.ink") ;;
    subtitle <- get_with app "subtitle" (get app "name" (VStr "")) ;;
    _ <- as_str subtitle ;;
    _ <- getitem version "version" ;;
    Ok (formula_type, class_name).

(** [self.formula_dir / f"{class_name.lower()}.rb"] *)
Definition formula_path (class_name : string) : path :=
  path_join formula_dir (lower class_name ++ ".rb").

(** [HomebrewFormulaGenerator.generate_formula] *)
Definition generate_formula (app : value) (versions : list value)
    (platform : string) : result bool :=
  match versions with
  | [] => _ <- get app "name" (VStr "Unknown") ;; Ok false
  | latest_version :: _ =>
      app_platforms <- get latest_version "platforms" (VList []) ;;
      supported <- py_in platform app_platforms ;;
      if negb supported then
        _ <- get app "name" (VStr "Unknown") ;; Ok false
      else
        try_catch
          (_ <- generate_formula_content app latest_version platform ;;
           name <- getitem app "name" ;;
           n <- as_str name ;;
           class_name <- sanitize_class_name n ;;
           _ <- write_file (formula_path class_name) ;;
           Ok true)
          (fun _ => _ <- get app "name" (VStr "Unknown") ;; Ok false)
  end.

(** [main] for the selected [platform]: the construction of the
    generator, the loop, [tap-info.json] and the exit decision. *)
Definition main (get_app_versions : value -> list value) (platform : string)
    (apps : list value) : result Z :=
  batch_main get_app_versions
    (fun app versions => generate_formula app versions platform)
    (mkdir formula_dir)
    (write_file (path_join output_dir "tap-info.json"))
    apps.

End Emitter.

End Homebrew.

(* ================================================================= *)
(** ** build_winget_repo.py *)

Module Winget.

(** [WingetManifestGenerator.sanitize_package_id] *)
Definition sanitize_package_id (name publisher : string) : string :=
  let clean_name := str_filter is_alnum (title name) in
  let clean_publisher := str_filter is_alnum publisher in
  (clean_publisher ++ "." ++ clean_name)%string.

(** The default of the [publisher] argument. *)
Definition default_publisher : string := "OpenLyst".

(** [WingetManifestGenerator.get_windows_download_url] *)
Definition get_windows_download_url (version : value) : result value :=
  downloads <- get version "downloads" (VDict []) ;;
  windows_downloads <- get downloads "Windows" (VDict []) ;;
  if negb (truthy windows_downloads) then Ok VNone
  else
    probe_packages (startswith "http") windows_downloads
      ["exe"; "msi"; "msix"; "zip"].

(** [str.endswith] *)
Fixpoint endswith (suffix s : string) : bool :=
  (s =? suffix) ||
  match s with
  | EmptyString => false
  | String _ r => endswith suffix r
  end.

(** The publisher and package-name components computed by
    [WingetManifestGenerator.create_manifest_directory]. *)
Definition manifest_components (package_id : string) : string * string :=
  let parts := split "." package_id in
  let publisher :=
    if (1 <? List.length parts)%nat then nth 0 parts "" else "OpenLyst" in
  let package_name :=
    if (1 <? List.length parts)%nat then join "." (tl parts)
    else nth 0 parts "" in
  (publisher, package_name).

Section Emitter.

(** [urlparse(u).path], the output directory given on the command
    line and the file system. *)
Variable urlparse_path : string -> result string.
Variable output_dir : path.
Variable mkdir : path -> result unit.
Variable write_file : path -> result unit.

Definition manifests_dir : path := path_join output_dir "manifests".

(** [WingetManifestGenerator.create_manifest_directory]: the
    directory [manifests_dir / publisher / package_name / version],
    once created.  The [/] of [pathlib] rejects a version that is not
    a string. *)
Definition create_manifest_directory (package_id : string) (version : value)
  : result path :=
  let '(publisher, package_name) := manifest_components package_id in
  manifest_dir <-
    path_join_value (path_join (path_join manifests_dir publisher) package_name)
      version ;;
  _ <- mkdir manifest_dir ;;
  Ok manifest_dir.

(** [WingetManifestGenerator.determine_installer_type] *)
Definition determine_installer_type (download_url : value) : result string :=
  u <- as_str download_url ;;
  p <- urlparse_path u ;;
  let url_path := lower p in
  if endswith ".msi" url_path then Ok "msi"
  else if endswith ".msix" url_path then Ok "msix"
  else if endswith ".exe" url_path then Ok "exe"
  else if endswith ".zip" url_path then Ok "zip"
  else Ok "exe".

(** [WingetManifestGenerator.generate_version_manifest], with
    [calculate_hash] off (its default). *)
Definition generate_version_manifest (app version : value) (package_id : string)
  : result value :=
  download_url <- get_windows_download_url version ;;
  if negb (truthy download_url) then
    _ <- getitem app "name" ;; Raise ValueError
  else
    installer_type <- determine_installer_type download_url ;;
    package_version <- getitem version "version" ;;
    let installer :=
      [("Architecture", VStr "x64");
       ("InstallerType", VStr installer_type);
       ("InstallerUrl", download_url)] ++
      (if installer_type =? "exe" then
         [("InstallerSwitches",
           VDict [("Silent", VStr "/S"); ("SilentWithProgress", VStr "/S")])]
       else []) in
    Ok (VDict [("PackageIdentifier", VStr package_id);
               ("PackageVersion", package_version);
               ("ManifestType", VStr "version");
               ("ManifestVersion", VStr "1.4.0");
               ("Installers", VList [VDict installer])]).

(** [WingetManifestGenerator.generate_default_locale_manifest] *)
Definition generate_default_locale_manifest (app : value) (package_id : string)
  : result value :=
  package_version <- get app "version" (VStr "1.0.0") ;;
  name <- getitem app "name" ;;
  short <- get_with app "subtitle" (getitem app "name") ;;
  description <- get_with app "localizedDescription"
                   (get_with app "subtitle" (getitem app "name")) ;;
  Ok (VDict [("PackageIdentifier", VStr package_id);
             ("PackageVersion", package_version);
             ("PackageLocale", VStr "en-US");
             ("ManifestType", VStr "defaultLocale");
             ("ManifestVersion", VStr "1.4.0");
             ("Publisher", VStr "OpenLyst");
             ("PackageName", name);
             ("License", VStr "Open Source");
             ("ShortDescription", short);
             ("Description", description);
             ("PackageUrl", VStr "https://openlyst.ink");
             ("Tags", VList [VStr "opensource"; VStr "free"; VStr "openlyst"])]).

(** [WingetManifestGenerator.generate_installer_manifest] *)
Definition generate_installer_manifest (app : value) (package_id : string)
  : result value :=
  package_version <- get app "version" (VStr "1.0.0") ;;
  Ok (VDict [("PackageIdentifier", VStr package_id);
             ("PackageVersion", package_version);
             ("ManifestType", VStr "installer");
             ("ManifestVersion", VStr "1.4.0")]).

(** [{**app, 'version': version_str}] *)
Definition with_version (app version_str : value) : result value :=
  match app with
  | VDict d =>
      Ok (VDict (match lookup "version" d with
                 | Some _ =>
                     map (fun kv => if fst kv =? "version"
                                    then (fst kv, version_str) else kv) d
                 | None => d ++ [("version", version_str)]
                 end))
  | _ => Raise TypeError
  end.

(** [WingetManifestGenerator.generate_manifests]: the three
    manifests that are written, or no manifest.  The first lookups
    stand before the [try]. *)
Definition generate_manifests (app : value) (versions : list value)
  : result bool :=
  match versions with
  | [] => _ <- get app "name" (VStr "Unknown") ;; Ok false
  | latest_version :: _ =>
      app_platforms <- get latest_version "platforms" (VList []) ;;
      supported <- py_in "Windows" app_platforms ;;
      if negb supported then
        _ <- get app "name" (VStr "Unknown") ;; Ok false
      else
        try_catch
          (name <- getitem app "name" ;;
           n <- as_str name ;;
           let package_id := sanitize_package_id n default_publisher in
           version_str <- getitem latest_version "version" ;;
           manifest_dir <- create_manifest_directory package_id version_str ;;
           _ <- generate_version_manifest app latest_version package_id ;;
           app_with_version <- with_version app version_str ;;
           _ <- generate_default_locale_manifest app_with_version package_id ;;
           _ <- generate_installer_manifest app_with_version package_id ;;
           _ <- write_file (path_join manifest_dir (package_id ++ ".installer.yaml")) ;;
           _ <- write_file (path_join manifest_dir (package_id ++ ".locale.en-US.yaml")) ;;
           _ <- write_file (path_join manifest_dir (package_id ++ ".yaml")) ;;
           Ok true)
          (fun _ => _ <- get app "name" (VStr "Unknown") ;; Ok false)
  end.

(** [main]: the construction of the generator, the loop,
    [repo-info.json] and the exit decision. *)
Definition main (get_app_versions : value -> list value) (apps : list value)
  : result Z :=
  batch_main get_app_versions generate_manifests
    (mkdir manifests_dir)
    (write_file (path_join output_dir "repo-info.json"))
    apps.

End Emitter.

End Winget.

(* ================================================================= *)
(** ** build_altstore_repo.py *)

Module AltStore.

(** [AltStoreRepoBuilder.extract_ipa_url] *)
Definition extract_ipa_url (version : value) : option string :=
  match version with
  | VDict v =>
      let primary :=
        match lookup "downloads" v with
        | Some (VDict downloads) =>
            match lookup "iOS" downloads with
            | Some (VStr ios_download) =>
                if nonempty (strip ios_download)
                then Some (strip ios_download) else None
            | _ => None
            end
        | _ => None
        end in
      let fallback :=
        match lookup "platformInstall" v with
        | Some (VDict platform_install) =>
            match lookup "iOS" platform_install with
            | Some (VStr ios_install) =>
                if nonempty (strip ios_install) && startswith "http" ios_install
                then Some (strip ios_install) else None
            | _ => None
            end
        | _ => None
        end in
      let last :=
        match lookup "downloadURL" v with
        | Some (VStr download_url) =>
            if nonempty download_url && startswith "http" (strip download_url)
            then Some (strip download_url) else None
        | _ => None
        end in
      or_else primary (or_else fallback last)
  | _ => None
  end.

(** One turn of the loop of [_process_screenshots]:
    [result.append(..)] when the entry qualifies. *)
Definition add_shot (result : list value) (shot : value) : list value :=
  match shot with
  | VStr _ => result ++ [shot]
  | VDict d =>
      match lookup "imageURL" d with
      | Some image_url => result ++ [image_url]
      | None => result
      end
  | _ => result
  end.

(** [AltStoreRepoBuilder._process_screenshots] *)
Definition _process_screenshots (screenshots : value) : list value :=
  let result :=
    match screenshots with
    | VList shots => fold_left add_shot shots []
    | _ => []
    end in
  firstn 10 result.

(** The set literal of [_map_category]. *)
Definition valid_categories : list string :=
  ["developer"; "entertainment"; "games"; "lifestyle";
   "other"; "photo-video"; "social"; "utilities"].

(** [AltStoreRepoBuilder._map_category] *)
Definition _map_category (show : value -> string) (category : value) : string :=
  let category := replace_char " " "-" (lower (py_str show category)) in
  if existsb (String.eqb category) valid_categories then category else "other".

(** A list comprehension whose element expression may raise. *)
Fixpoint traverse {A B : Type} (f : A -> result B) (l : list A)
  : result (list B) :=
  match l with
  | [] => Ok []
  | x :: rest => y <- f x ;; ys <- traverse f rest ;; Ok (y :: ys)
  end.

Section Emitter.

(** The environment of the builder: [str] on objects other than
    strings, the versions endpoint (the client lets every exception
    but [RequestException] through), [get_file_size] (an [int] or
    [None]), the clock read at the i-th turn of the versions loop,
    [urljoin] and the base URL given on the command line. *)
Variable show : value -> string.
Variable get_app_versions : value -> result (list value).
Variable get_file_size : string -> value.
Variable now : nat -> string.
Variable urljoin : string -> string -> result string.
Variable base_repo_url : string.

Definition get_or (d : list (string * value)) (k : string) (default : value)
  : value :=
  match lookup k d with Some v => v | None => default end.

(** The dictionary built for one version in [build_app_entry]. *)
Definition altstore_version (i : nat) (version_data : list (string * value))
    (ipa_url : string) : value :=
  let size := get_file_size ipa_url in
  let entry :=
    [("version", VStr (py_str show (get_or version_data "version" (VStr "1.0"))));
     ("buildVersion",
      VStr (py_str show (get_or version_data "buildVersion" (VStr "1"))));
     ("date", VStr (py_str show (get_or version_data "date" (VStr (now i)))));
     ("downloadURL", VStr ipa_url)] in
  let entry := if truthy size then entry ++ [("size", size)] else entry in
  let description := get_or version_data "localizedDescription" VNone in
  let entry :=
    match description with
    | VStr d =>
        if nonempty d then entry ++ [("localizedDescription", description)]
        else entry
    | _ => entry
    end in
  VDict entry.

(** One turn of the loop over [versions[:10]]. *)
Definition add_version (altstore_versions : list value)
    (turn : nat * value) : list value :=
  let (i, version_data) := turn in
  match version_data with
  | VDict d =>
      match extract_ipa_url version_data with
      | Some ipa_url =>
          if nonempty ipa_url
          then altstore_versions ++ [altstore_version i d ipa_url]
          else altstore_versions
      | None => altstore_versions
      end
  | _ => altstore_versions
  end.

Definition enumerate {A : Type} (l : list A) : list (nat * A) :=
  combine (seq 0 (List.length l)) l.

(** [AltStoreRepoBuilder.build_app_entry]: the entry, or [VNone]. *)
Definition build_app_entry (app slug : value) : value :=
  try_except
    (versions <- get_app_versions slug ;;
     match versions with
     | [] => Ok VNone
     | _ =>
         let altstore_versions :=
           fold_left add_version (enumerate (firstn 10 versions)) [] in
         match altstore_versions with
         | [] => Ok VNone
         | _ =>
             name <- get app "name" (VStr "Unknown App") ;;
             bundle <- get app "bundleIdentifier" slug ;;
             developer <- get app "developerName" (VStr "OpenLyst Developer") ;;
             subtitle <- get app "subtitle" (VStr "An app from OpenLyst") ;;
             description <-
               get_with app "localizedDescription"
                 (get app "description" (VStr "A free and open source app")) ;;
             icon <- get app "iconURL" (VStr "") ;;
             tint <- get app "tintColor" (VStr "#dc2626") ;;
             category <- get app "category" (VStr "other") ;;
             let app_entry :=
               [("name", VStr (py_str show name));
                ("bundleIdentifier", VStr (py_str show bundle));
                ("developerName", VStr (py_str show developer));
                ("subtitle", VStr (py_str show subtitle));
                ("localizedDescription", VStr (py_str show description));
                ("iconURL", VStr (py_str show icon));
                ("tintColor", VStr (py_str show tint));
                ("category", VStr (_map_category show category));
                ("versions", VList altstore_versions)] in
             shots <- get app "screenshots" VNone ;;
             if truthy shots then
               screenshots <- getitem app "screenshots" ;;
               Ok (VDict (app_entry ++
                          [("screenshots",
                            VList (_process_screenshots screenshots))]))
             else Ok (VDict app_entry)
         end
     end)
    (fun _ => VNone).

(** One turn of the loop of [build_repository]. *)
Definition add_app (app_entries : list value) (app : value)
  : result (list value) :=
  slug <- get app "slug" VNone ;;
  if negb (truthy slug) then Ok app_entries
  else
    let app_entry := build_app_entry app slug in
    if truthy app_entry then Ok (app_entries ++ [app_entry])
    else Ok app_entries.

Fixpoint app_loop (apps : list value) (app_entries : list value)
  : result (list value) :=
  match apps with
  | [] => Ok app_entries
  | app :: rest =>
      app_entries <- add_app app_entries app ;;
      app_loop rest app_entries
  end.

(** [AltStoreRepoBuilder.build_repository] on the list [apps] returned
    by [get_all_apps]: the document written to [apps.json] when the
    method returns [True], [None] when it returns [False].  After the
    loop the variable [app] is the last element of [apps].  Creating
    the directory and writing the files are taken to succeed. *)
Definition build_repository (apps : list value) : option value :=
  try_except
    (match apps with
     | [] => Ok None
     | _ =>
         app_entries <- app_loop apps [] ;;
         match app_entries with
         | [] => Ok None
         | _ =>
             name <- get (last apps VNone) "name" (VStr "OpenLyst iOS Apps") ;;
             icon <- urljoin base_repo_url "icon.png" ;;
             header <- urljoin base_repo_url "header.png" ;;
             featured <-
               traverse (fun app => getitem app "bundleIdentifier")
                 (firstn 5 app_entries) ;;
             let repository :=
               VDict
                 [("name", name);
                  ("subtitle", VStr "Free and open source iOS applications");
                  ("description",
                   VStr "A curated collection of free and open source iOS applications from OpenLyst.");
                  ("iconURL", VStr icon);
                  ("headerURL", VStr header);
                  ("website", VStr "https://openlyst.ink");
                  ("tintColor", VStr "#dc2626");
                  ("featuredApps", VList featured);
                  ("apps", VList app_entries);
                  ("news", VList [])] in
             _ <- urljoin base_repo_url "apps.json" ;;
             Ok (Some repository)
         end
     end)
    (fun _ => None).

End Emitter.

End AltStore.

(* ================================================================= *)
(** ** build.py *)

Module Build.

(** [sanitize_name] *)
Definition sanitize_name (name style : string) : string :=
  if style =? "class" then
    let sanitized := str_filter is_alnum (title name) in
    match sanitized with
    | String c _ =>
        if negb (is_alpha c) then ("App" ++ sanitized)%string else sanitized
    | EmptyString => sanitized
    end
  else if style =? "package" then
    str_filter (fun c => is_alnum c || Ascii.eqb c ".") (lower name)
  else if style =? "filename" then
    str_filter (fun c => is_alnum c || Ascii.eqb c "_" || Ascii.eqb c "-")
      (replace_char " " "-" (lower name))
  else name.

Module AltStoreBuilder.

(** [AltStoreBuilder.extract_ipa_url]: the same statements as in
    [build_altstore_repo.py]. *)
Definition extract_ipa_url (version : value) : option string :=
  AltStore.extract_ipa_url version.

(** [AltStoreBuilder._process_screenshots] *)
Definition add_shot (result : list value) (shot : value) : list value :=
  match shot with
  | VStr _ => result ++ [shot]
  | VDict d =>
      match lookup "imageURL" d with
      | Some image_url => result ++ [image_url]
      | None => result
      end
  | _ => result
  end.

Definition _process_screenshots (screenshots : value) : list value :=
  let result :=
    match screenshots with
    | VList shots => fold_left add_shot shots []
    | _ => []
    end in
  firstn 10 result.

(** [AltStoreBuilder._map_category], with the same set literal. *)
Definition _map_category (show : value -> string) (category : value) : string :=
  let category := replace_char " " "-" (lower (py_str show category)) in
  if existsb (String.eqb category) AltStore.valid_categories
  then category else "other".

End AltStoreBuilder.

Module FDroidBuilder.

(** [FDroidBuilder.extract_apk_url] *)
Definition extract_apk_url (version : value) : value :=
  match version with
  | VDict v =>
      let from_downloads :=
        match lookup "downloads" v with
        | Some (VDict downloads) =>
            match lookup "Android" downloads with
            | Some (VStr android_download) =>
                if nonempty (strip android_download)
                then VStr (strip android_download) else VNone
            | Some (VDict android_download) =>
                probe_dict android_download
                  ["apk"; "universal"; "arm64"; "arm"; "x86_64"; "x86"]
            | _ => VNone
            end
        | _ => VNone
        end in
      match from_downloads with
      | VNone =>
          match lookup "downloadURL" v with
          | Some (VStr download_url) =>
              if nonempty download_url && startswith "http" (strip download_url)
              then VStr (strip download_url) else VNone
          | _ => VNone
          end
      | found => found
      end
  | _ => VNone
  end.

(** The dict literal of [_map_fdroid_category]. *)
Definition category_map : list (string * string) :=
  [("entertainment", "Multimedia");
   ("games", "Games");
   ("lifestyle", "System");
   ("photo-video", "Multimedia");
   ("social", "Internet");
   ("utilities", "System");
   ("developer", "Development");
   ("other", "System")].

Fixpoint assoc (k : string) (table : list (string * string)) : option string :=
  match table with
  | [] => None
  | (k', v) :: rest => if k' =? k then Some v else assoc k rest
  end.

(** [FDroidBuilder._map_fdroid_category] *)
Definition _map_fdroid_category (show : value -> string) (category : value)
  : string :=
  let category := replace_char " " "-" (lower (py_str show category)) in
  match assoc category category_map with
  | Some c => c
  | None => "System"
  end.

End FDroidBuilder.

Module HomebrewBuilder.

(** [HomebrewBuilder.get_download_url_for_platform] *)
Definition get_download_url_for_platform (version : value) (platform : string)
  : result value :=
  downloads <- get version "downloads" (VDict []) ;;
  platform_downloads <- get downloads platform (VDict []) ;;
  if negb (truthy platform_downloads) then Ok VNone
  else
    r <- (if platform =? "macOS" then
            probe_keys platform_downloads ["universal"; "arm64"; "x86_64"]
          else if platform =? "Linux" then
            probe_packages nonempty platform_downloads
              ["appimage"; "zip"; "deb"; "rpm"]
          else Ok VNone) ;;
    if truthy r then Ok r
    else
      entries <- items platform_downloads ;;
      Ok (scan_items entries).

Section Emitter.

(** [urlparse(u).path], the output directory given on the command
    line and the file system. *)
Variable urlparse_path : string -> result string.
Variable output_dir : path.
Variable write_file : path -> result unit.

Definition formula_dir : path := path_join output_dir "Formula".

(** [HomebrewBuilder.generate_formula_content], with
    [calculate_sha256] off (its default): the class name of the
    generated text.  The file extension only selects a comment. *)
Definition generate_formula_content (app version : value) (platform : string)
  : result string :=
  name <- getitem app "name" ;;
  n <- as_str name ;;
  let class_name := sanitize_name n "class" in
  download_url <- get_download_url_for_platform version platform ;;
  if negb (truthy download_url) then Raise ValueError
  else
    u <- as_str download_url ;;
    _ <- urlparse_path u ;;
    _ <- get app "website" (VStr "https://openlyst.ink") ;;
    subtitle <- get_with app "subtitle" (get app "name" (VStr "")) ;;
    _ <- as_str subtitle ;;
    _ <- getitem version "version" ;;
    Ok class_name.

(** [self.formula_dir / f"{class_name.lower()}{suffix}.rb"], where
    the suffix is "-linux" for the platform "Linux". *)
Definition formula_path (class_name platform : string) : path :=
  let suffix := if platform =? "Linux" then "-linux" else "" in
  path_join formula_dir (lower class_name ++ suffix ++ ".rb").

(** [HomebrewBuilder.generate_formula] *)
Definition generate_formula (app : value) (versions : list value)
    (platform : string) : result bool :=
  match versions with
  | [] => _ <- get app "name" (VStr "Unknown") ;; Ok false
  | latest_version :: _ =>
      app_platforms <- get latest_version "platforms" (VList []) ;;
      supported <- py_in platform app_platforms ;;
      if negb supported then
        _ <- get app "name" (VStr "Unknown") ;; Ok false
      else
        try_catch
          (_ <- generate_formula_content app latest_version platform ;;
           name <- getitem app "name" ;;
           n <- as_str name ;;
           let class_name := sanitize_name n "class" in
           _ <- write_file (formula_path class_name platform) ;;
           Ok true)
          (fun _ => _ <- get app "name" (VStr "Unknown") ;; Ok false)
  end.


End Emitter.

End HomebrewBuilder.

(** The set of targets selected by [--target]. *)
Definition parse_targets (target : string) : list string :=
  if lower target =? "all" then ["altstore"; "fdroid"; "homebrew"]
  else map (fun t => lower (strip t)) (split "," target).

Definition selected (t : string) (targets : list string) : bool :=
  existsb (String.eqb t) targets.

(** The platform builds run for the homebrew target. *)
Definition homebrew_results (platform : string) (homebrew_build : string -> bool)
  : list bool :=
  (if existsb (String.eqb platform) ["macOS"; "both"]
   then [homebrew_build "macOS"] else []) ++
  (if existsb (String.eqb platform) ["Linux"; "both"]
   then [homebrew_build "Linux"] else []).

(** [main]: the arguments [--target] and [--platform], and what the
    [build] method of each builder returns (each returns a bool and
    catches every exception).  The result is the exit code. *)
Definition main (target platform : string) (altstore_build fdroid_build : bool)
    (homebrew_build : string -> bool) : Z :=
  let targets := parse_targets target in
  let results :=
    (if selected "altstore" targets then [("altstore", altstore_build)] else []) ++
    (if selected "fdroid" targets then [("fdroid", fdroid_build)] else []) ++
    (if selected "homebrew" targets
     then [("homebrew",
            existsb (fun b => b) (homebrew_results platform homebrew_build))]
     else []) in
  let all_success := forallb (fun r => snd r) results in
  if all_success then 0%Z else 1%Z.

End Build.

(* ================================================================= *)
(** ** Orders and reference behaviour used in the statements *)

(** Strict lexicographic order on (major, minor, patch). *)
Definition lex_lt (a b : Z * Z * Z) : Prop :=
  let '(a1, a2, a3) := a in
  let '(b1, b2, b3) := b in
  (a1 < b1 \/ (a1 = b1 /\ (a2 < b2 \/ (a2 = b2 /\ a3 < b3))))%Z.

(** The class-identifier grammar: empty, or a letter followed by
    letters and digits. *)
Definition class_identifier (s : string) : Prop :=
  s = "" \/
  exists c r, s = String c r /\ is_alpha c = true /\ str_forall is_alnum r = true.

(** What the screenshot processor keeps of one entry: a string as it
    is, the ['imageURL'] value of a mapping that has the key, nothing
    otherwise. *)
Definition kept_shot (shot : value) : list value :=
  match shot with
  | VStr _ => [shot]
  | VDict d =>
      match lookup "imageURL" d with
      | Some image_url => [image_url]
      | None => []
      end
  | _ => []
  end.

(** The screenshot processor in the words of its description: the
    kept entries in order, cut to the first 10; nothing when the
    input is not a list. *)
Definition screenshots_spec (screenshots : value) : list value :=
  match screenshots with
  | VList shots => firstn 10 (flat_map kept_shot shots)
  | _ => []
  end.

(** An outcome of a resolver that a caller can use: nothing, or an
    object that is true. *)
Definition usable (r : value) : Prop := r = VNone \/ truthy r = true.

(** A non-empty string, or nothing. *)
Definition url_or_absent (r : value) : Prop :=
  r = VNone \/ exists s, r = VStr s /\ s <> "".

Definition is_url (v : value) : bool :=
  match v with
  | VStr _ => true
  | _ => false
  end.

(** A package entry of the download tree: a URL, or a mapping from
    architecture to URL. *)
Definition is_variant (v : value) : bool :=
  match v with
  | VStr _ => true
  | VDict a => forallb (fun kv => is_url (snd kv)) a
  | _ => false
  end.

(** The platform subtree in the shape the desktop resolvers read it:
    a mapping whose entries are package entries, those under the three
    macOS architecture keys being URLs when the platform is macOS. *)
Definition platform_tree (platform : string) (pd : value) : bool :=
  match pd with
  | VDict d =>
      forallb
        (fun kv =>
           if (platform =? "macOS")
              && existsb (String.eqb (fst kv)) ["universal"; "arm64"; "x86_64"]
           then is_url (snd kv) else is_variant (snd kv)) d
  | _ => false
  end.

(** A version record whose download tree has that shape for
    [platform]: no ['downloads'], or a mapping in which [platform] is
    missing, false, or a platform subtree. *)
Definition downloads_shape (platform : string) (version : value) : bool :=
  match version with
  | VDict v =>
      match lookup "downloads" v with
      | None => true
      | Some (VDict downloads) =>
          match lookup platform downloads with
          | None => true
          | Some pd => negb (truthy pd) || platform_tree platform pd
          end
      | Some _ => false
      end
  | _ => false
  end.

(** Two looked-up bindings that are the same, or the empty string on
    one side and no binding on the other. *)
Definition same_or_empty (o o' : option value) : Prop :=
  o = o' \/ (o = Some (VStr "") /\ o' = None).

(** [d'] is the mapping [d] without some of its bindings to the empty
    string. *)
Inductive drop_empty : list (string * value) -> list (string * value) -> Prop :=
| drop_nil : drop_empty [] []
| drop_keep kv d d' : drop_empty d d' -> drop_empty (kv :: d) (kv :: d')
| drop_here k d d' : drop_empty d d' -> drop_empty ((k, VStr "") :: d) d'.

(** The same for a platform subtree: the package entries that are
    mappings may lose bindings to the empty string as well. *)
Inductive drop_empty_tree
  : list (string * value) -> list (string * value) -> Prop :=
| tree_nil : drop_empty_tree [] []
| tree_keep kv d d' : drop_empty_tree d d' -> drop_empty_tree (kv :: d) (kv :: d')
| tree_here k d d' : drop_empty_tree d d' -> drop_empty_tree ((k, VStr "") :: d) d'
| tree_inner k a a' d d' :
    NoDup (keys a) -> drop_empty a a' -> drop_empty_tree d d' ->
    drop_empty_tree ((k, VDict a) :: d) ((k, VDict a') :: d').

(** [v[k1][k2]] when [v[k1]] is a mapping. *)
Definition lookup2 (k1 k2 : string) (v : list (string * value)) : option value :=
  match lookup k1 v with
  | Some (VDict d) => lookup k2 d
  | _ => None
  end.

(** Looked-up package entries of two related platform subtrees. *)
Definition same_entry (o o' : option value) : Prop :=
  same_or_empty o o' \/
  exists a a', o = Some (VDict a) /\ o' = Some (VDict a') /\
               forall k, same_or_empty (lookup k a) (lookup k a').

(** The statements of the two Homebrew resolvers that follow the
    lookups, as a function of the platform subtree. *)
Definition homebrew_probes (windows : bool) (platform : string) (pd : value)
  : result value :=
  r <- (if platform =? "macOS" then
          probe_keys pd ["universal"; "arm64"; "x86_64"]
        else if platform =? "Linux" then
          probe_packages nonempty pd ["appimage"; "zip"; "deb"; "rpm"]
        else if windows && (platform =? "Windows") then
          probe_packages nonempty pd ["zip"; "exe"; "msi"]
        else Ok VNone) ;;
  if truthy r then Ok r
  else entries <- items pd ;; Ok (scan_items entries).

(** The probe chain of [extract_ipa_url] on the three values it looks
    up: [downloads['iOS']], [platformInstall['iOS']], [downloadURL]. *)
Definition ipa_probes (ios_download ios_install download_url : option value)
  : option string :=
  or_else
    (match ios_download with
     | Some (VStr s) => if nonempty (strip s) then Some (strip s) else None
     | _ => None
     end)
    (or_else
       (match ios_install with
        | Some (VStr s) =>
            if nonempty (strip s) && startswith "http" s
            then Some (strip s) else None
        | _ => None
        end)
       (match download_url with
        | Some (VStr s) =>
            if nonempty s && startswith "http" (strip s)
            then Some (strip s) else None
        | _ => None
        end)).

(** Version records used as concrete inputs. *)
Definition version_fields (downloads : list (string * value))
  : list (string * value) :=
  [("version", VStr "1.0");
   ("platforms", VList [VStr "Android"; VStr "macOS"; VStr "Windows"]);
   ("downloads", VDict downloads)].

Definition version_of (downloads : list (string * value)) : value :=
  VDict (version_fields downloads).

Definition windows_subtree : list (string * value) :=
  [("msi", VStr "");
   ("exe", VDict [("x86_64", VStr "https://x/a.exe")])].

Definition macos_subtree : list (string * value) :=
  [("arm64", VStr "https://x/a"); ("universal", VStr "https://x/u")].

Definition macos_both : value :=
  version_of [("macOS", VDict macos_subtree)].

Definition macos_nested : value :=
  version_of [("macOS", VDict [("universal",
                                VDict [("x86_64", VStr "https://x/u")])])].

Definition windows_direct : value :=
  version_of [("Windows", VStr "https://x/setup.exe")].

Definition windows_exe : value :=
  version_of [("Windows", VDict windows_subtree)].

Definition android_direct : value :=
  version_of [("Android", VStr "https://x/app.apk")].

Definition android_padded : value :=
  version_of [("Android", VStr " https://x/app.apk")].

Definition android_nested : value :=
  version_of [("Android", VDict [("apk", VStr "https://x/a.apk")])].

(** A small catalog: one application with artifacts for every
    platform, one without artifact, one whose newest version has an
    artifact but no ['version'] field, and one whose version list
    starts with something that is not a mapping. *)
Definition app_of (slug name : string) : value :=
  VDict [("slug", VStr slug); ("name", VStr name)].

Definition full_version : value :=
  version_of [("Android", VDict [("apk", VStr "https://x/a.apk")]);
              ("Windows", VDict windows_subtree);
              ("macOS", VDict macos_subtree)].

Definition unversioned : value :=
  VDict [("platforms", VList [VStr "Android"; VStr "macOS"; VStr "Windows"]);
         ("downloads",
          VDict [("Android", VDict [("apk", VStr "https://x/b.apk")]);
                 ("Windows", VDict [("exe", VStr "https://x/b.exe")]);
                 ("macOS", VDict [("universal", VStr "https://x/b.zip")])])].

Definition catalog (slug : value) : list value :=
  if is_str_eq "good" slug then [full_version]
  else if is_str_eq "none" slug then [version_of []]
  else if is_str_eq "bad" slug then [unversioned]
  else if is_str_eq "broken" slug then [VStr "oops"]
  else [].

(** [urlparse(u).path] on the catalog's URLs, which have no query and
    no fragment: the path ends as the URL does. *)
Definition sample_urlparse_path (u : string) : result string := Ok u.

(** A file system that accepts every directory and every file, with
    the output directory "out". *)
Definition sample_output_dir : path :=
  {| path_root := ""; path_parts := ["out"] |}.
Definition sample_mkdir (p : path) : result unit := Ok tt.
Definition sample_write_file (p : path) : result unit := Ok tt.

(** [Path(p).suffix] on the macOS URLs of the catalog, whose last
    component has no dot. *)
Definition sample_path_suffix (p : string) : string := "".

(** [str] on the objects of the catalog that are not strings; the
    catalog formats none. *)
Definition sample_show (x : value) : string := "".

(** The components a name adds to a path: none when it is empty. *)
Definition present (s : string) : list string :=
  if s =? "" then [] else [s].

(** [r] is bound in the mapping [d], directly or one level down. *)
Definition bound_in (r : value) (d : list (string * value)) : Prop :=
  (exists k, In (k, r) d) \/
  (exists k inner k', In (k, VDict inner) d /\ In (k', r) inner).

(** [r] is what a package-type probe accepts under [package_type] in
    [d]: the string bound there, when [direct_ok] admits it, or a true
    object bound one level down under one of the two architectures. *)
Definition probed_under (direct_ok : string -> bool) (package_type : string)
    (d : list (string * value)) (r : value) : Prop :=
  (lookup package_type d = Some r /\
   exists s, r = VStr s /\ direct_ok s = true) \/
  (exists inner k,
      lookup package_type d = Some (VDict inner) /\
      In k ["x86_64"; "arm64"] /\ lookup k inner = Some r /\ truthy r = true).

(* ================================================================= *)
(** The download addresses found among the ten newest versions. *)
Definition resolved_ipa_urls (versions : list value) : list string :=
  flat_map (fun v => match AltStore.extract_ipa_url v with
                     | Some u => [u]
                     | None => []
                     end)
           (firstn 10 versions).

(** The entries of the applications that have a slug and a version with
    a download address, in the order of the catalogue. *)
Definition altstore_entries (build_app_entry : value -> value -> value)
    (apps : list value) : list value :=
  flat_map (fun app =>
              match app with
              | VDict a =>
                  match lookup "slug" a with
                  | Some slug =>
                      if truthy slug && truthy (build_app_entry app slug)
                      then [build_app_entry app slug] else []
                  | None => []
                  end
              | _ => []
              end)
           apps.

(** * Properties *)

(* ----------------------------------------------------------------- *)
(** ** Strings *)

Lemma str_forall_filter (p : ascii -> bool) (s : string) :
  str_forall p (str_filter p s) = true.
Proof.
  induction s as [|c r IH]; simpl; [reflexivity|].
  destruct (p c) eqn:Hc; simpl; [rewrite Hc|]; exact IH.
Qed.

Lemma str_forall_weaken (p q : ascii -> bool) (s : string) :
  (forall c, p c = true -> q c = true) ->
  str_forall p s = true -> str_forall q s = true.
Proof.
  intros Hpq; induction s as [|c r IH]; simpl; [reflexivity|].
  intros H; apply andb_true_iff in H as [Hc Hr].
  now rewrite (Hpq _ Hc), IH.
Qed.

Lemma str_forall_app (p : ascii -> bool) (a b : string) :
  str_forall p (a ++ b)%string = str_forall p a && str_forall p b.
Proof.
  induction a as [|c r IH]; simpl; [reflexivity|].
  now rewrite IH, andb_assoc.
Qed.

Lemma digits_value_nonneg (s : string) :
  forall acc n, (0 <= acc)%Z -> digits_value acc s = Some n -> (0 <= n)%Z.
Proof.
  induction s as [|c r IH]; simpl; intros acc n Hacc H.
  - now inversion H; subst.
  - destruct (is_digit c); [|discriminate].
    eapply IH; [|exact H]. lia.
Qed.

Lemma digits_value_total (s : string) :
  str_forall is_digit s = true -> forall acc, exists n, digits_value acc s = Some n.
Proof.
  induction s as [|c r IH]; simpl; intros H acc.
  - now exists acc.
  - apply andb_true_iff in H as [Hc Hr]. rewrite Hc. apply IH, Hr.
Qed.

(** Splitting text made of digits and separators leaves digit runs. *)
Lemma split_digit_runs (s : string) :
  str_forall (fun c => is_digit c || Ascii.eqb c ".") s = true ->
  Forall (fun p => str_forall is_digit p = true) (split "." s).
Proof.
  induction s as [|c r IH]; simpl; intros H.
  - repeat constructor.
  - apply andb_true_iff in H as [Hc Hr]. specialize (IH Hr).
    destruct (Ascii.eqb c ".") eqn:Hdot.
    + constructor; [reflexivity | exact IH].
    + rewrite orb_false_r in Hc.
      destruct (split "." r) as [|h t].
      * repeat constructor. simpl. now rewrite Hc.
      * inversion IH; subst.
        constructor; [simpl; now rewrite Hc | assumption].
Qed.

Lemma nth_digit_run (parts : list string) (i : nat) :
  Forall (fun p => str_forall is_digit p = true) parts ->
  str_forall is_digit (nth i parts "") = true.
Proof.
  intros H; revert i; induction H as [|p ps Hp _ IH]; intros [|i]; simpl; auto.
Qed.

Lemma component_nonneg (p : string) (n : Z) :
  Fdroid.component p = Ok n -> (0 <= n)%Z.
Proof.
  unfold Fdroid.component, int. destruct p as [|c r]; cbn [String.eqb].
  - intros H. inversion H. lia.
  - destruct (digits_value 0 (String c r)) as [m|] eqn:D; [|discriminate].
    destruct (max_str_digits <? _)%N; [discriminate|].
    intros H. inversion H; subst m.
    apply (digits_value_nonneg (String c r) 0%Z n); [lia | exact D].
Qed.

(** A component of at most 4300 digits is read as its value. *)
Lemma component_digit_run (p : string) :
  str_forall is_digit p = true ->
  (N.of_nat (String.length p) <= max_str_digits)%N ->
  exists n, Fdroid.component p = Ok n /\ (0 <= n)%Z.
Proof.
  intros H Hlen. unfold Fdroid.component, int.
  destruct p as [|c r]; cbn [String.eqb].
  - exists 0%Z; split; [reflexivity | lia].
  - destruct (digits_value_total _ H 0%Z) as [n Hn]. rewrite Hn.
    apply N.ltb_ge in Hlen. rewrite Hlen.
    exists n; split; [reflexivity|].
    apply (digits_value_nonneg (String c r) 0%Z n); [lia | exact Hn].
Qed.

(** The three components that the [try] block of [version_to_code]
    reads are never negative. *)
Lemma version_components_nonneg (s : string) (major minor patch : Z) :
  Fdroid.version_components s = Ok (major, minor, patch) ->
  (0 <= major)%Z /\ (0 <= minor)%Z /\ (0 <= patch)%Z.
Proof.
  unfold Fdroid.version_components. intros H.
  destruct (Fdroid.component (nth 0 _ "")) as [a|] eqn:Ha; [|discriminate].
  destruct (Fdroid.component (nth 1 _ "")) as [b|] eqn:Hb; [|discriminate].
  destruct (Fdroid.component (nth 2 _ "")) as [c|] eqn:Hc; [|discriminate].
  cbn [bind] in H. inversion H; subst.
  repeat split; eapply component_nonneg; eassumption.
Qed.

Lemma version_to_code_components (s : string) (major minor patch : Z) :
  Fdroid.version_components s = Ok (major, minor, patch) ->
  Fdroid.version_to_code (VStr s) = (major * 10000 + minor * 100 + patch)%Z.
Proof.
  intros H. unfold Fdroid.version_to_code, Fdroid.version_to_code_try.
  now rewrite H.
Qed.

(** C1, as amended.  [version_to_code] is total and never negative;
    "1.2.3" gives 10203 and "v2" gives 20000; the empty string and
    "garbage" give 0, because an empty component counts as 0 and the
    [except] branch is not entered; the sentinel 1 is what every
    argument that is not a string gives. *)
Theorem version_to_code_total_values :
  (forall v, (0 <= Fdroid.version_to_code v)%Z) /\
  Fdroid.version_to_code (VStr "1.2.3") = 10203%Z /\
  Fdroid.version_to_code (VStr "v2") = 20000%Z /\
  Fdroid.version_to_code (VStr "") = 0%Z /\
  Fdroid.version_to_code (VStr "garbage") = 0%Z /\
  Fdroid.version_to_code_try (VStr "") = Ok 0%Z /\
  Fdroid.version_to_code_try (VStr "garbage") = Ok 0%Z /\
  Fdroid.version_to_code VNone = 1%Z /\
  (forall b, Fdroid.version_to_code (VBool b) = 1%Z) /\
  (forall n, Fdroid.version_to_code (VInt n) = 1%Z) /\
  (forall l, Fdroid.version_to_code (VList l) = 1%Z) /\
  (forall d, Fdroid.version_to_code (VDict d) = 1%Z).
Proof.
  split; [|repeat split; reflexivity].
  intros [| | |s| |]; try (cbv; discriminate).
  destruct (Fdroid.version_components s) as [[[a b] c]|e] eqn:H.
  - destruct (version_components_nonneg _ _ _ _ H) as (? & ? & ?).
    rewrite (version_to_code_components _ _ _ _ H). lia.
  - unfold Fdroid.version_to_code, Fdroid.version_to_code_try.
    rewrite H. cbn. lia.
Qed.

(** C1, as stated, fails: the empty string and "garbage" do not give
    the sentinel 1. *)
Lemma version_to_code_empty_not_sentinel :
  Fdroid.version_to_code (VStr "") <> 1%Z /\
  Fdroid.version_to_code (VStr "garbage") <> 1%Z.
Proof. split; discriminate. Qed.

(** C8, as amended.  When the first three components of two version
    strings compare strictly in lexicographic order and the minor and
    patch components of the smaller one are below 100, the code of the
    smaller is strictly less than the code of the larger. *)
Theorem version_to_code_monotone_below_100 :
  forall (a b : string) (a1 a2 a3 b1 b2 b3 : Z),
    Fdroid.version_components a = Ok (a1, a2, a3) ->
    Fdroid.version_components b = Ok (b1, b2, b3) ->
    lex_lt (a1, a2, a3) (b1, b2, b3) ->
    (a2 < 100)%Z -> (a3 < 100)%Z ->
    (Fdroid.version_to_code (VStr a) < Fdroid.version_to_code (VStr b))%Z.
Proof.
  intros a b a1 a2 a3 b1 b2 b3 Ha Hb Hlt H2 H3.
  rewrite (version_to_code_components _ _ _ _ Ha).
  rewrite (version_to_code_components _ _ _ _ Hb).
  destruct (version_components_nonneg _ _ _ _ Ha) as (? & ? & ?).
  destruct (version_components_nonneg _ _ _ _ Hb) as (? & ? & ?).
  unfold lex_lt in Hlt. lia.
Qed.

Lemma version_to_code_monotone_below_100_witness :
  (Fdroid.version_to_code (VStr "1.9.3") < Fdroid.version_to_code (VStr "1.10.0"))%Z.
Proof.
  apply (version_to_code_monotone_below_100 "1.9.3" "1.10.0" 1 9 3 1 10 0);
    [reflexivity | reflexivity | | lia | lia].
  unfold lex_lt. lia.
Defined.

(** C8, as stated, fails: (0, 0, 100) is below (0, 1, 0) but both
    strings get the code 100. *)
Lemma version_to_code_not_monotone :
  ~ (forall (a b : string) (ca cb : Z * Z * Z),
        Fdroid.version_components a = Ok ca ->
        Fdroid.version_components b = Ok cb ->
        lex_lt ca cb ->
        (Fdroid.version_to_code (VStr a) < Fdroid.version_to_code (VStr b))%Z).
Proof.
  intros H.
  specialize (H "0.0.100" "0.1.0" (0, 0, 100)%Z (0, 1, 0)%Z eq_refl eq_refl).
  assert (Hlt : lex_lt (0, 0, 100)%Z (0, 1, 0)%Z) by (unfold lex_lt; lia).
  specialize (H Hlt). vm_compute in H. discriminate.
Qed.

(* ----------------------------------------------------------------- *)
(** ** Identifier sanitisers *)

Lemma cased_is_alnum (c : ascii) :
  is_lower c = true \/ is_upper c = true -> is_alnum c = true.
Proof.
  unfold is_alnum, is_alpha. intros [H|H]; rewrite H;
    [now rewrite orb_true_r | reflexivity].
Qed.

Lemma title_strips_to_empty (s : string) :
  str_forall (fun c => negb (is_alnum c)) s = true ->
  forall b, str_filter is_alnum (title_from b s) = "".
Proof.
  induction s as [|c r IH]; simpl; intros H b; [reflexivity|].
  apply andb_true_iff in H as [Hc Hr].
  apply negb_true_iff in Hc.
  destruct (is_lower c) eqn:Hl.
  { rewrite (cased_is_alnum c (or_introl Hl)) in Hc. discriminate. }
  destruct (is_upper c) eqn:Hu.
  { rewrite (cased_is_alnum c (or_intror Hu)) in Hc. discriminate. }
  simpl. rewrite Hc. apply IH, Hr.
Qed.

Lemma alnum_not_dot (c : ascii) : is_alnum c = true -> Ascii.eqb c "." = false.
Proof.
  intros H. destruct (Ascii.eqb c ".") eqn:E; [|reflexivity].
  apply Ascii.eqb_eq in E. subst. discriminate.
Qed.

Lemma split_no_sep (sep : ascii) (s : string) :
  str_forall (fun c => negb (Ascii.eqb c sep)) s = true -> split sep s = [s].
Proof.
  induction s as [|c r IH]; simpl; intros H; [reflexivity|].
  apply andb_true_iff in H as [Hc Hr]. apply negb_true_iff in Hc.
  now rewrite Hc, (IH Hr).
Qed.

(** C3, as amended.  [sanitize_name(name, 'class')] of [build.py] is
    total: it title-cases, strips what is outside [A-Za-z0-9] and
    prepends "App" when what is left is not empty and does not start
    with a letter; when nothing is left it returns the empty string.
    Its result is empty or a letter followed by letters and digits.
    On every name that leaves something after stripping,
    [sanitize_class_name] of [build_homebrew_tap.py] returns the same
    identifier. *)
Theorem sanitize_class_total :
  forall name : string,
    let stripped := str_filter is_alnum (title name) in
    let r := Build.sanitize_name name "class" in
    (stripped = "" -> r = "") /\
    (forall c rest, stripped = String c rest ->
       r = (if is_alpha c then stripped else "App" ++ stripped)%string /\
       Homebrew.sanitize_class_name name = Ok r) /\
    class_identifier r.
Proof.
  intros name stripped r.
  assert (Hall : str_forall is_alnum stripped = true) by apply str_forall_filter.
  unfold r, Build.sanitize_name, Homebrew.sanitize_class_name. simpl.
  fold stripped. destruct stripped as [|c rest] eqn:Hs.
  - split; [reflexivity|]. split; [discriminate | now left].
  - split; [discriminate|].
    simpl in Hall. apply andb_true_iff in Hall as [Hc Hrest].
    split.
    + intros c' rest' E. inversion E; subst c' rest'.
      destruct (is_alpha c); simpl; split; reflexivity.
    + right. destruct (is_alpha c) eqn:Ha; simpl.
      * exists c, rest. auto.
      * exists "A"%char, ("pp" ++ String c rest)%string.
        repeat split. simpl. now rewrite Hc, Hrest.
Qed.

Lemma sanitize_class_total_witness :
  Homebrew.sanitize_class_name "3d viewer" = Ok "App3DViewer".
Proof.
  destruct (sanitize_class_total "3d viewer") as [_ [H _]].
  destruct (H "3"%char "DViewer" eq_refl) as [_ H2].
  exact H2.
Defined.

(** C3, as stated, fails on a name that strips to nothing:
    [sanitize_class_name] raises and [sanitize_name] returns the empty
    string, with no prefix. *)
Lemma sanitize_class_empty_strip :
  Homebrew.sanitize_class_name "!!!" = Raise IndexError /\
  Build.sanitize_name "!!!" "class" = "".
Proof. split; reflexivity. Qed.

Lemma path_join_empty (p : path) : path_join p "" = p.
Proof.
  destruct p as [r parts]. unfold path_join. cbn. now rewrite app_nil_r.
Qed.

(** A name made of letters and digits is one component of a path, or
    none when it is empty. *)
Lemma path_join_name (p : path) (s : string) :
  str_forall is_alnum s = true ->
  path_join p s
  = {| path_root := path_root p; path_parts := path_parts p ++ present s |}.
Proof.
  intros H. destruct s as [|c r]; [now rewrite path_join_empty, app_nil_r; destruct p|].
  assert (Hsplit : split "/" (String c r) = [String c r]).
  { apply split_no_sep. eapply str_forall_weaken; [|exact H].
    intros x Hx. destruct (Ascii.eqb x "/") eqn:E; [|reflexivity].
    apply Ascii.eqb_eq in E. subst. discriminate. }
  cbn [str_forall] in H. apply andb_true_iff in H as [Hc _].
  assert (Hslash : Ascii.eqb "/" c = false).
  { destruct (Ascii.eqb "/" c) eqn:E; [|reflexivity].
    apply Ascii.eqb_eq in E. subst. discriminate. }
  assert (Hdot : (String c r =? ".") = false).
  { apply String.eqb_neq. intros E. inversion E; subst. discriminate. }
  unfold path_join, segment_root, segment_parts.
  cbn [startswith]. rewrite Hslash. cbn [andb]. rewrite Hsplit.
  cbn [filter]. rewrite Hdot. reflexivity.
Qed.

Lemma manifest_components_of_id (name publisher : string) :
  Winget.manifest_components (Winget.sanitize_package_id name publisher)
  = (str_filter is_alnum publisher, str_filter is_alnum (title name)).
Proof.
  unfold Winget.manifest_components, Winget.sanitize_package_id.
  assert (Hno : forall s, str_forall (fun c => negb (Ascii.eqb c "."))
                            (str_filter is_alnum s) = true).
  { intros s0. eapply str_forall_weaken; [|apply str_forall_filter].
    intros c Hc. now rewrite (alnum_not_dot c Hc). }
  assert (Hsplit : forall a b,
             str_forall (fun c => negb (Ascii.eqb c ".")) a = true ->
             str_forall (fun c => negb (Ascii.eqb c ".")) b = true ->
             split "." (a ++ "." ++ b) = [a; b]).
  { intros a b Ha Hb. induction a as [|c r IH]; cbn.
    - now rewrite (split_no_sep _ _ Hb).
    - cbn in Ha. apply andb_true_iff in Ha as [Hc Hr].
      apply negb_true_iff in Hc. rewrite Hc.
      cbn in IH. now rewrite (IH Hr). }
  rewrite (Hsplit _ _ (Hno publisher) (Hno (title name))). reflexivity.
Qed.

(** The manifest directory of an identifier built from a name and a
    publisher. *)
Lemma manifest_directory_path (output_dir : path) (mkdir : path -> result unit)
    (name publisher v : string) (dir : path) :
  Winget.create_manifest_directory output_dir mkdir
    (Winget.sanitize_package_id name publisher) (VStr v) = Ok dir ->
  mkdir dir = Ok tt /\
  dir = path_join
          {| path_root := path_root (Winget.manifests_dir output_dir);
             path_parts := path_parts (Winget.manifests_dir output_dir)
                           ++ present (str_filter is_alnum publisher)
                           ++ present (str_filter is_alnum (title name)) |}
          v.
Proof.
  unfold Winget.create_manifest_directory.
  rewrite manifest_components_of_id. cbn [path_join_value bind].
  rewrite (path_join_name _ (str_filter is_alnum publisher))
    by apply str_forall_filter.
  rewrite (path_join_name _ (str_filter is_alnum (title name)))
    by apply str_forall_filter.
  cbn [path_root path_parts]. rewrite <- app_assoc.
  set (d := path_join _ v).
  destruct (mkdir d) as [[]|e] eqn:M; cbn [bind]; [|discriminate].
  intros H. inversion H; subst dir. split; [exact M | reflexivity].
Qed.

(** C10, as amended.  With the default publisher the Winget package
    identifier starts with "OpenLyst." and holds only letters, digits
    and dots; [create_manifest_directory] splits it into the publisher
    "OpenLyst" and the cleaned name.  When the name is ASCII text
    without any letter or digit, the identifier is "OpenLyst.", the
    package name is empty, and the empty name adds no component to
    the path: the manifest directory is [manifests/OpenLyst/version]. *)
Theorem winget_package_id_shape :
  forall name : string,
    let package_id := Winget.sanitize_package_id name Winget.default_publisher in
    startswith "OpenLyst." package_id = true /\
    str_forall (fun c => is_alnum c || Ascii.eqb c ".") package_id = true /\
    Winget.manifest_components package_id
    = ("OpenLyst", str_filter is_alnum (title name)) /\
    (is_ascii_text name = true ->
     str_forall (fun c => negb (is_alnum c)) name = true ->
       package_id = "OpenLyst." /\
       Winget.manifest_components package_id = ("OpenLyst", "") /\
       forall output_dir mkdir v dir,
         Winget.create_manifest_directory output_dir mkdir package_id (VStr v)
         = Ok dir ->
         mkdir dir = Ok tt /\
         dir = path_join (path_join (Winget.manifests_dir output_dir) "OpenLyst") v).
Proof.
  intros name package_id.
  assert (Hid : package_id = ("OpenLyst." ++ str_filter is_alnum (title name))%string)
    by reflexivity.
  assert (Hclean : str_forall is_alnum (str_filter is_alnum (title name)) = true)
    by apply str_forall_filter.
  assert (Hparts : Winget.manifest_components package_id
                   = ("OpenLyst", str_filter is_alnum (title name)))
    by apply manifest_components_of_id.
  split; [now rewrite Hid|]. split; [|split; [exact Hparts|]].
  - rewrite Hid, str_forall_app. apply andb_true_iff; split; [reflexivity|].
    eapply str_forall_weaken; [|exact Hclean]. intros c Hc. now rewrite Hc.
  - intros _ Hname.
    assert (Hempty : str_filter is_alnum (title name) = "")
      by (apply title_strips_to_empty, Hname).
    rewrite Hempty in Hid, Hparts. split; [exact Hid|]. split; [exact Hparts|].
    intros output_dir mkdir v dir H.
    apply manifest_directory_path in H as [Hm Hd]. split; [exact Hm|].
    rewrite Hd, Hempty. cbn [present String.eqb app].
    rewrite (path_join_name _ "OpenLyst" eq_refl). reflexivity.
Qed.

Lemma winget_package_id_shape_witness :
  Winget.sanitize_package_id "!!!" Winget.default_publisher = "OpenLyst." /\
  {| path_root := ""; path_parts := ["out"; "manifests"; "OpenLyst"; "1.0"] |}
  = path_join (path_join (Winget.manifests_dir sample_output_dir) "OpenLyst") "1.0".
Proof.
  destruct (winget_package_id_shape "!!!") as (_ & _ & _ & Hshape).
  destruct (Hshape eq_refl eq_refl) as (Hid & _ & Hdir).
  split; [exact Hid|].
  exact (proj2 (Hdir sample_output_dir sample_mkdir "1.0" _ eq_refl)).
Defined.

(** C10, as stated, fails on the directory: for the name "!!!" the
    package name is empty, and the directory that is created has no
    empty component between the publisher and the version. *)
Lemma manifest_directory_drops_empty_name :
  Winget.manifest_components
    (Winget.sanitize_package_id "!!!" Winget.default_publisher)
  = ("OpenLyst", "") /\
  exists dir,
    Winget.create_manifest_directory sample_output_dir sample_mkdir
      (Winget.sanitize_package_id "!!!" Winget.default_publisher) (VStr "1.0")
    = Ok dir /\
    path_parts dir = ["out"; "manifests"; "OpenLyst"; "1.0"] /\
    path_parts dir <> ["out"; "manifests"; "OpenLyst"; ""; "1.0"].
Proof.
  split; [reflexivity|]. eexists. split; [reflexivity|].
  split; [reflexivity | discriminate].
Qed.

(* ----------------------------------------------------------------- *)
(** ** Screenshot processor *)

Lemma fold_add_shot (shots acc : list value) :
  fold_left AltStore.add_shot shots acc = acc ++ flat_map kept_shot shots.
Proof.
  revert acc; induction shots as [|shot shots IH]; intros acc; simpl.
  - now rewrite app_nil_r.
  - rewrite IH. destruct shot as [| | | |l|d]; simpl;
      try reflexivity; try (now rewrite <- app_assoc).
    destruct (lookup "imageURL" d); simpl; [now rewrite <- app_assoc | reflexivity].
Qed.

Lemma fold_add_shot_build (shots acc : list value) :
  fold_left Build.AltStoreBuilder.add_shot shots acc
  = acc ++ flat_map kept_shot shots.
Proof.
  revert acc; induction shots as [|shot shots IH]; intros acc; simpl.
  - now rewrite app_nil_r.
  - rewrite IH. destruct shot as [| | | |l|d]; simpl;
      try reflexivity; try (now rewrite <- app_assoc).
    destruct (lookup "imageURL" d); simpl; [now rewrite <- app_assoc | reflexivity].
Qed.

(** C9.  On every input the screenshot processor of
    [build_altstore_repo.py] and of [build.py] returns at most 10
    entries: nothing when the input is not a list, otherwise the
    entries that are strings, and the ['imageURL'] values of the
    mappings that have the key, in order, cut to the first 10. *)
Theorem process_screenshots_spec :
  forall screenshots : value,
    AltStore._process_screenshots screenshots = screenshots_spec screenshots /\
    Build.AltStoreBuilder._process_screenshots screenshots
    = screenshots_spec screenshots /\
    (List.length (AltStore._process_screenshots screenshots) <= 10)%nat /\
    (List.length (Build.AltStoreBuilder._process_screenshots screenshots) <= 10)%nat.
Proof.
  intros screenshots.
  assert (H1 : AltStore._process_screenshots screenshots
               = screenshots_spec screenshots).
  { destruct screenshots; try reflexivity.
    unfold AltStore._process_screenshots, screenshots_spec.
    now rewrite fold_add_shot. }
  assert (H2 : Build.AltStoreBuilder._process_screenshots screenshots
               = screenshots_spec screenshots).
  { destruct screenshots; try reflexivity.
    unfold Build.AltStoreBuilder._process_screenshots, screenshots_spec.
    now rewrite fold_add_shot_build. }
  rewrite H1, H2. repeat split.
  all: unfold screenshots_spec; destruct screenshots;
    first [apply firstn_le_length | simpl; lia].
Qed.

(* ----------------------------------------------------------------- *)
(** ** Download resolvers: what can be returned *)

Lemma bind_ok {A B : Type} (c : result A) (k : A -> result B) (b : B) :
  bind c k = Ok b -> exists a, c = Ok a /\ k a = Ok b.
Proof. destruct c as [a|e]; simpl; intros H; [now exists a | discriminate]. Qed.

Ltac bind_inv H :=
  let a := fresh "a" in
  let Ha := fresh "Ha" in
  apply bind_ok in H; destruct H as (a & Ha & H).

Ltac bind_as H x Hx := apply bind_ok in H; destruct H as (x & Hx & H).

Lemma nonempty_truthy (s : string) : nonempty s = true -> truthy (VStr s) = true.
Proof. trivial. Qed.

Lemma startswith_http_nonempty (s : string) :
  startswith "http" s = true -> nonempty s = true.
Proof. destruct s; [discriminate | reflexivity]. Qed.

Lemma truthy_str_nonempty (s : string) : truthy (VStr s) = true -> s <> "".
Proof. intros H E; subst; discriminate. Qed.

Lemma is_http_truthy (v : value) : is_http v = true -> truthy v = true.
Proof.
  destruct v; simpl; try discriminate.
  intros H. now apply startswith_http_nonempty in H.
Qed.

Lemma is_http_url (v : value) : is_http v = true -> url_or_absent v.
Proof.
  intros H. right. destruct v; try discriminate.
  eexists; split; [reflexivity|]. apply truthy_str_nonempty, is_http_truthy, H.
Qed.

Lemma usable_not_empty_string (r : value) : usable r -> r <> VStr "".
Proof. intros [H|H] E; subst; discriminate. Qed.

Lemma url_or_absent_usable (r : value) : url_or_absent r -> usable r.
Proof.
  intros [H|(s & H & Hs)]; [now left | right]. subst. simpl.
  destruct s; [congruence | reflexivity].
Qed.

Lemma probe_keys_usable (obj : value) (ks : list string) (r : value) :
  probe_keys obj ks = Ok r -> usable r.
Proof.
  induction ks as [|k rest IH]; simpl; intros H.
  - inversion H. now left.
  - bind_inv H. destruct a; [|now apply IH].
    bind_inv H. destruct (truthy a) eqn:T; [|now apply IH].
    inversion H; subst. now right.
Qed.

Lemma probe_packages_usable (direct_ok : string -> bool) (pd : value)
    (pts : list string) (r : value) :
  (forall s, direct_ok s = true -> nonempty s = true) ->
  probe_packages direct_ok pd pts = Ok r -> usable r.
Proof.
  intros Hok. induction pts as [|pt rest IH]; simpl; intros H.
  - inversion H. now left.
  - bind_inv H. destruct a; [|now apply IH].
    bind_inv H. destruct a; try (now apply IH).
    + destruct (direct_ok s) eqn:D; [|now apply IH].
      inversion H; subst. right. now apply nonempty_truthy, Hok.
    + bind_inv H. destruct (truthy a) eqn:T; [|now apply IH].
      inversion H; subst. now right.
Qed.

Lemma scan_leaves_http (entries : list (string * value)) :
  scan_leaves entries = VNone \/ is_http (scan_leaves entries) = true.
Proof.
  induction entries as [|[k v] rest IH]; simpl; [now left|].
  destruct (is_http v) eqn:H; [now right | exact IH].
Qed.

Lemma scan_items_http (entries : list (string * value)) :
  scan_items entries = VNone \/ is_http (scan_items entries) = true.
Proof.
  induction entries as [|[k v] rest IH]; [now left|].
  destruct v; cbn [scan_items]; try (cbn [is_http]; exact IH).
  - destruct (is_http (VStr s)) eqn:H; [right; exact H | exact IH].
  - destruct (scan_leaves_http d) as [E|E].
    + now rewrite E.
    + destruct (scan_leaves d); try discriminate. now right.
Qed.

Lemma scan_items_url (entries : list (string * value)) :
  url_or_absent (scan_items entries).
Proof.
  destruct (scan_items_http entries) as [H|H]; [now left | now apply is_http_url].
Qed.

(** Whatever the desktop resolver of [build_homebrew_tap.py] returns
    is nothing or a true object. *)
Lemma homebrew_result_usable (version : value) (platform : string) (r : value) :
  Homebrew.get_download_url_for_platform version platform = Ok r -> usable r.
Proof.
  unfold Homebrew.get_download_url_for_platform. intros H.
  bind_inv H. bind_inv H.
  destruct (truthy a0); cbn [negb] in H; [|inversion H; now left].
  bind_inv H. destruct (truthy a1) eqn:T.
  - inversion H; subst. now right.
  - bind_inv H. inversion H; subst.
    apply url_or_absent_usable, scan_items_url.
Qed.

Lemma build_homebrew_result_usable (version : value) (platform : string) (r : value) :
  Build.HomebrewBuilder.get_download_url_for_platform version platform = Ok r ->
  usable r.
Proof.
  unfold Build.HomebrewBuilder.get_download_url_for_platform. intros H.
  bind_inv H. bind_inv H.
  destruct (truthy a0); cbn [negb] in H; [|inversion H; now left].
  bind_inv H. destruct (truthy a1) eqn:T.
  - inversion H; subst. now right.
  - bind_inv H. inversion H; subst.
    apply url_or_absent_usable, scan_items_url.
Qed.

Lemma winget_result_usable (version : value) (r : value) :
  Winget.get_windows_download_url version = Ok r -> usable r.
Proof.
  unfold Winget.get_windows_download_url. intros H.
  bind_inv H. bind_inv H.
  destruct (truthy a0); cbn [negb] in H; [|inversion H; now left].
  eapply probe_packages_usable; [|exact H].
  apply startswith_http_nonempty.
Qed.

Lemma probe_dict_found (d : list (string * value)) (ks : list string) :
  probe_dict d ks = VNone \/
  (truthy (probe_dict d ks) = true /\
   exists k, In k ks /\ lookup k d = Some (probe_dict d ks)).
Proof.
  induction ks as [|k rest IH]; simpl; [now left|].
  assert (IH' : probe_dict d rest = VNone \/
                (truthy (probe_dict d rest) = true /\
                 exists k0, (k = k0 \/ In k0 rest) /\
                            lookup k0 d = Some (probe_dict d rest))).
  { destruct IH as [E|(T & k0 & Hin & L)]; [now left | right].
    split; [exact T | exists k0; auto]. }
  destruct (lookup k d) as [x|] eqn:L; [|exact IH'].
  destruct (truthy x) eqn:T; [|exact IH'].
  right. split; [exact T | exists k; auto].
Qed.

Lemma probe_keys_dict (d : list (string * value)) (ks : list string) :
  probe_keys (VDict d) ks = Ok (probe_dict d ks).
Proof.
  induction ks as [|k rest IH]; simpl; [reflexivity|].
  destruct (lookup k d) as [x|]; simpl; [|exact IH].
  destruct (truthy x); [reflexivity | exact IH].
Qed.

(** The mobile resolvers return a non-empty string or nothing. *)
Lemma extract_ipa_url_nonempty (version : value) (u : string) :
  AltStore.extract_ipa_url version = Some u -> u <> "".
Proof.
  unfold AltStore.extract_ipa_url.
  destruct version as [| | | | |v]; try discriminate.
  set (p1 := match lookup "downloads" v with Some (VDict _) => _ | _ => None end).
  set (p2 := match lookup "platformInstall" v with Some (VDict _) => _ | _ => None end).
  set (p3 := match lookup "downloadURL" v with Some (VStr _) => _ | _ => None end).
  assert (H1 : forall x, p1 = Some x -> x <> "").
  { unfold p1. intros x.
    destruct (lookup "downloads" v) as [[| | | | |dl]|]; try discriminate.
    destruct (lookup "iOS" dl) as [[| | |s| |]|]; try discriminate.
    destruct (nonempty (strip s)) eqn:N; [|discriminate].
    intros E; inversion E; subst. now apply truthy_str_nonempty. }
  assert (H2 : forall x, p2 = Some x -> x <> "").
  { unfold p2. intros x.
    destruct (lookup "platformInstall" v) as [[| | | | |dl]|]; try discriminate.
    destruct (lookup "iOS" dl) as [[| | |s| |]|]; try discriminate.
    destruct (nonempty (strip s)) eqn:N; cbn [andb]; [|discriminate].
    destruct (startswith "http" s); [|discriminate].
    intros E; inversion E; subst. now apply truthy_str_nonempty. }
  assert (H3 : forall x, p3 = Some x -> x <> "").
  { unfold p3. intros x.
    destruct (lookup "downloadURL" v) as [[| | |s| |]|]; try discriminate.
    destruct (nonempty s); cbn [andb]; [|discriminate].
    destruct (startswith "http" (strip s)) eqn:S; [|discriminate].
    intros E; inversion E; subst.
    apply truthy_str_nonempty, nonempty_truthy, startswith_http_nonempty, S. }
  destruct p1 as [x|]; simpl; [intros E; inversion E; subst; now apply H1|].
  destruct p2 as [x|]; simpl; [intros E; inversion E; subst; now apply H2|].
  apply H3.
Qed.

(* ----------------------------------------------------------------- *)
(** ** Download resolvers on a well-shaped download tree *)

Lemma lookup_In (k : string) (d : list (string * value)) (x : value) :
  lookup k d = Some x -> In (k, x) d.
Proof.
  induction d as [|[k' v] rest IH]; simpl; [discriminate|].
  destruct (k' =? k) eqn:E.
  - apply String.eqb_eq in E. intros H; inversion H; subst. now left.
  - intros H. right. now apply IH.
Qed.

Lemma lookup_forallb (f : string * value -> bool) (k : string)
    (d : list (string * value)) (x : value) :
  forallb f d = true -> lookup k d = Some x -> f (k, x) = true.
Proof.
  intros Hall L. apply lookup_In in L.
  rewrite forallb_forall in Hall. now apply Hall.
Qed.

Lemma truthy_url (v : value) : is_url v = true -> truthy v = true -> url_or_absent v.
Proof.
  destruct v; try discriminate. intros _ T. right.
  eexists; split; [reflexivity | now apply truthy_str_nonempty].
Qed.

Lemma probe_variant_url (a : list (string * value)) (ks : list string) :
  forallb (fun kv => is_url (snd kv)) a = true ->
  url_or_absent (probe_dict a ks).
Proof.
  intros Hall. destruct (probe_dict_found a ks) as [E|(T & k & _ & L)].
  - now left.
  - apply truthy_url; [|exact T].
    apply (lookup_forallb _ _ _ _ Hall L).
Qed.

Lemma probe_packages_url (direct_ok : string -> bool)
    (d : list (string * value)) (pts : list string) :
  (forall s, direct_ok s = true -> nonempty s = true) ->
  forallb (fun kv => is_variant (snd kv)) d = true ->
  exists r, probe_packages direct_ok (VDict d) pts = Ok r /\ url_or_absent r.
Proof.
  intros Hok Hall. induction pts as [|pt rest IH].
  - exists VNone. split; [reflexivity | now left].
  - cbn [probe_packages py_in getitem].
    destruct (lookup pt d) as [x|] eqn:L; cbn [bind]; [|exact IH].
    pose proof (lookup_forallb _ _ _ _ Hall L) as Hx. cbn [snd] in Hx.
    destruct x; try discriminate.
    + destruct (direct_ok s) eqn:D; [|exact IH].
      exists (VStr s). split; [reflexivity|]. right.
      eexists; split; [reflexivity|].
      now apply truthy_str_nonempty, nonempty_truthy, Hok.
    + rewrite probe_keys_dict. cbn [bind].
      destruct (truthy (probe_dict d0 ["x86_64"; "arm64"])) eqn:T; [|exact IH].
      eexists; split; [reflexivity|]. now apply probe_variant_url.
Qed.

Lemma macos_probe_url (d : list (string * value)) :
  platform_tree "macOS" (VDict d) = true ->
  url_or_absent (probe_dict d ["universal"; "arm64"; "x86_64"]).
Proof.
  intros Hall. unfold platform_tree in Hall.
  destruct (probe_dict_found d ["universal"; "arm64"; "x86_64"])
    as [E|(T & k & Hin & L)]; [now left|].
  apply truthy_url; [|exact T].
  pose proof (lookup_forallb _ _ _ _ Hall L) as Hx. cbn [fst snd] in Hx.
  assert (Hk : existsb (String.eqb k) ["universal"; "arm64"; "x86_64"] = true).
  { apply existsb_exists. exists k. split; [exact Hin | apply String.eqb_refl]. }
  rewrite Hk, String.eqb_refl in Hx. exact Hx.
Qed.

Lemma platform_tree_variants (platform : string) (d : list (string * value)) :
  (platform =? "macOS") = false ->
  platform_tree platform (VDict d) = true ->
  forallb (fun kv => is_variant (snd kv)) d = true.
Proof.
  intros Hp. unfold platform_tree. rewrite Hp. cbn [andb]. trivial.
Qed.

(** The part of the two Homebrew resolvers after the lookups, on a
    platform subtree that is a mapping. *)
Lemma homebrew_tree_url (platform : string) (d : list (string * value))
    (windows : bool) :
  platform_tree platform (VDict d) = true ->
  exists r,
    (r0 <- (if platform =? "macOS" then
              probe_keys (VDict d) ["universal"; "arm64"; "x86_64"]
            else if platform =? "Linux" then
              probe_packages nonempty (VDict d) ["appimage"; "zip"; "deb"; "rpm"]
            else if windows && (platform =? "Windows") then
              probe_packages nonempty (VDict d) ["zip"; "exe"; "msi"]
            else Ok VNone) ;;
     if truthy r0 then Ok r0
     else entries <- items (VDict d) ;; Ok (scan_items entries)) = Ok r /\
    url_or_absent r.
Proof.
  intros Hshape.
  assert (Hscan : exists r, (entries <- items (VDict d) ;; Ok (scan_items entries))
                            = Ok r /\ url_or_absent r).
  { eexists; split; [reflexivity | apply scan_items_url]. }
  destruct (platform =? "macOS") eqn:Hmac.
  - apply String.eqb_eq in Hmac; subst platform.
    rewrite probe_keys_dict. cbn [bind].
    destruct (truthy _) eqn:T; [|exact Hscan].
    eexists; split; [reflexivity | now apply macos_probe_url].
  - pose proof (platform_tree_variants _ _ Hmac Hshape) as Hall.
    assert (Hpk : forall pts,
               exists r,
                 (r0 <- probe_packages nonempty (VDict d) pts ;;
                  if truthy r0 then Ok r0
                  else entries <- items (VDict d) ;; Ok (scan_items entries))
                 = Ok r /\ url_or_absent r).
    { intros pts.
      destruct (probe_packages_url nonempty d pts (fun s H => H) Hall)
        as (r & Hr & Hu).
      rewrite Hr. cbn [bind]. destruct (truthy r); [|exact Hscan].
      now exists r. }
    destruct (platform =? "Linux"); [apply Hpk|].
    destruct (windows && (platform =? "Windows")); [apply Hpk|].
    exact Hscan.
Qed.

Lemma downloads_shape_inv (platform : string) (version : value) :
  downloads_shape platform version = true ->
  exists downloads,
    get version "downloads" (VDict []) = Ok (VDict downloads) /\
    exists pd,
      get (VDict downloads) platform (VDict []) = Ok pd /\
      (truthy pd = false \/ exists d, pd = VDict d /\
                                       platform_tree platform pd = true).
Proof.
  unfold downloads_shape.
  destruct version as [| | | | |v]; try discriminate. simpl.
  destruct (lookup "downloads" v) as [[| | | | |dl]|]; try discriminate.
  - intros H. exists dl. split; [reflexivity|].
    destruct (lookup platform dl) as [pd|].
    + exists pd. split; [reflexivity|].
      destruct (truthy pd) eqn:T; [right | now left].
      simpl in H. destruct pd; try discriminate. eauto.
    + exists (VDict []). split; [reflexivity | now left].
  - intros _. exists []. split; [reflexivity|].
    exists (VDict []). split; [reflexivity | now left].
Qed.

Lemma homebrew_shape_url (version : value) (platform : string) :
  downloads_shape platform version = true ->
  exists r, Homebrew.get_download_url_for_platform version platform = Ok r /\
            url_or_absent r.
Proof.
  intros H. apply downloads_shape_inv in H as (dl & Hdl & pd & Hpd & Hcase).
  unfold Homebrew.get_download_url_for_platform.
  rewrite Hdl. cbn [bind]. rewrite Hpd. cbn [bind].
  destruct Hcase as [T|(d & E & Hshape)].
  - rewrite T. exists VNone. split; [reflexivity | now left].
  - subst pd. destruct (truthy (VDict d)) eqn:T; cbn [negb].
    + pose proof (homebrew_tree_url platform d true Hshape) as Hr.
      cbn [andb] in Hr. exact Hr.
    + exists VNone. split; [reflexivity | now left].
Qed.

Lemma build_homebrew_shape_url (version : value) (platform : string) :
  downloads_shape platform version = true ->
  exists r,
    Build.HomebrewBuilder.get_download_url_for_platform version platform = Ok r /\
    url_or_absent r.
Proof.
  intros H. apply downloads_shape_inv in H as (dl & Hdl & pd & Hpd & Hcase).
  unfold Build.HomebrewBuilder.get_download_url_for_platform.
  rewrite Hdl. cbn [bind]. rewrite Hpd. cbn [bind].
  destruct Hcase as [T|(d & E & Hshape)].
  - rewrite T. exists VNone. split; [reflexivity | now left].
  - subst pd. destruct (truthy (VDict d)) eqn:T; cbn [negb].
    + pose proof (homebrew_tree_url platform d false Hshape) as Hr.
      cbn [andb] in Hr. exact Hr.
    + exists VNone. split; [reflexivity | now left].
Qed.

Lemma winget_shape_url (version : value) :
  downloads_shape "Windows" version = true ->
  exists r, Winget.get_windows_download_url version = Ok r /\ url_or_absent r.
Proof.
  intros H. apply downloads_shape_inv in H as (dl & Hdl & pd & Hpd & Hcase).
  unfold Winget.get_windows_download_url.
  rewrite Hdl. cbn [bind]. rewrite Hpd. cbn [bind].
  destruct Hcase as [T|(d & E & Hshape)].
  - rewrite T. exists VNone. split; [reflexivity | now left].
  - subst pd. destruct (truthy (VDict d)) eqn:T; cbn [negb].
    + apply probe_packages_url; [apply startswith_http_nonempty|].
      now apply (platform_tree_variants "Windows").
    + exists VNone. split; [reflexivity | now left].
Qed.

(* ----------------------------------------------------------------- *)
(** ** Download resolvers: the empty string counts as no binding *)

Lemma lookup_notin (k : string) (d : list (string * value)) :
  ~ In k (keys d) -> lookup k d = None.
Proof.
  induction d as [|[k' v] rest IH]; simpl; intros H; [reflexivity|].
  destruct (k' =? k) eqn:E.
  - apply String.eqb_eq in E. tauto.
  - apply IH. tauto.
Qed.

Lemma drop_empty_lookup_none (d d' : list (string * value)) (k : string) :
  drop_empty d d' -> lookup k d = None -> lookup k d' = None.
Proof.
  induction 1 as [|[k0 x] d d' _ IH|k0 d d' _ IH]; simpl; auto.
  - destruct (k0 =? k); [discriminate | exact IH].
  - destruct (k0 =? k); [discriminate | exact IH].
Qed.

Lemma drop_empty_lookup (d d' : list (string * value)) :
  drop_empty d d' -> NoDup (keys d) ->
  forall k, same_or_empty (lookup k d) (lookup k d').
Proof.
  induction 1 as [|[k0 x] d d' _ IH|k0 d d' Hd IH]; simpl; intros Hnd k.
  - now left.
  - inversion Hnd; subst. destruct (k0 =? k); [now left | now apply IH].
  - inversion Hnd as [|? ? Hnotin Hrest]; subst.
    destruct (k0 =? k) eqn:E; [|now apply IH].
    apply String.eqb_eq in E; subst k0. right. split; [reflexivity|].
    apply (drop_empty_lookup_none d d' k Hd), lookup_notin, Hnotin.
Qed.

Lemma probe_dict_same (d d' : list (string * value)) (ks : list string) :
  (forall k, same_or_empty (lookup k d) (lookup k d')) ->
  probe_dict d ks = probe_dict d' ks.
Proof.
  intros H. induction ks as [|k rest IH]; simpl; [reflexivity|].
  destruct (H k) as [E|[E1 E2]].
  - rewrite E. destruct (lookup k d') as [x|]; [|exact IH].
    destruct (truthy x); [reflexivity | exact IH].
  - rewrite E1, E2. exact IH.
Qed.

Lemma drop_empty_tree_lookup_none (d d' : list (string * value)) (k : string) :
  drop_empty_tree d d' -> lookup k d = None -> lookup k d' = None.
Proof.
  induction 1 as [|[k0 x] d d' _ IH|k0 d d' _ IH|k0 a a' d d' _ _ _ IH];
    simpl; auto; destruct (k0 =? k); try discriminate; exact IH.
Qed.

Lemma drop_empty_tree_lookup (d d' : list (string * value)) :
  drop_empty_tree d d' -> NoDup (keys d) ->
  forall k, same_entry (lookup k d) (lookup k d').
Proof.
  induction 1 as [|[k0 x] d d' _ IH|k0 d d' Hd IH|k0 a a' d d' Ha Haa _ IH];
    simpl; intros Hnd k.
  - left. now left.
  - inversion Hnd; subst. destruct (k0 =? k); [left; now left | now apply IH].
  - inversion Hnd as [|? ? Hnotin Hrest]; subst.
    destruct (k0 =? k) eqn:E; [|now apply IH].
    apply String.eqb_eq in E; subst k0. left. right. split; [reflexivity|].
    apply (drop_empty_tree_lookup_none d d' k Hd), lookup_notin, Hnotin.
  - inversion Hnd; subst. destruct (k0 =? k); [|now apply IH].
    right. exists a, a'. repeat split. now apply drop_empty_lookup.
Qed.

Lemma drop_empty_is_tree (d d' : list (string * value)) :
  drop_empty d d' -> drop_empty_tree d d'.
Proof. induction 1; now constructor. Qed.

Lemma probe_packages_same (direct_ok : string -> bool)
    (d d' : list (string * value)) (pts : list string) :
  direct_ok "" = false ->
  (forall k, same_entry (lookup k d) (lookup k d')) ->
  probe_packages direct_ok (VDict d) pts = probe_packages direct_ok (VDict d') pts.
Proof.
  intros Hok H. induction pts as [|pt rest IH]; [reflexivity|].
  cbn [probe_packages py_in getitem].
  destruct (H pt) as [[E|[E1 E2]]|(a & a' & E1 & E2 & Ha)].
  - rewrite E. destruct (lookup pt d') as [x|]; cbn [bind]; [|exact IH].
    destruct x; try exact IH.
    + destruct (direct_ok s); [reflexivity | exact IH].
    + destruct (probe_keys (VDict d0) ["x86_64"; "arm64"]) as [r|e];
        cbn [bind]; [|reflexivity].
      destruct (truthy r); [reflexivity | exact IH].
  - rewrite E1, E2. cbn [bind]. rewrite Hok. exact IH.
  - rewrite E1, E2. cbn [bind]. rewrite !probe_keys_dict. cbn [bind].
    rewrite (probe_dict_same a a' _ Ha).
    destruct (truthy _); [reflexivity | exact IH].
Qed.

Lemma probe_keys_same (d d' : list (string * value)) (ks : list string) :
  (forall k, same_or_empty (lookup k d) (lookup k d')) ->
  probe_keys (VDict d) ks = probe_keys (VDict d') ks.
Proof.
  intros H. rewrite !probe_keys_dict. f_equal. now apply probe_dict_same.
Qed.

Lemma scan_leaves_drop (a a' : list (string * value)) :
  drop_empty a a' -> scan_leaves a = scan_leaves a'.
Proof.
  induction 1 as [|[k0 x] d d' _ IH|k0 d d' _ IH]; simpl; auto.
  now rewrite IH.
Qed.

Lemma scan_items_drop (d d' : list (string * value)) :
  drop_empty_tree d d' -> scan_items d = scan_items d'.
Proof.
  induction 1 as [|[k0 x] d d' _ IH|k0 d d' _ IH|k0 a a' d d' _ Haa _ IH];
    cbn [scan_items]; auto.
  - now rewrite IH.
  - now rewrite IH, (scan_leaves_drop a a' Haa).
Qed.

Lemma probe_packages_empty (direct_ok : string -> bool) (pts : list string) :
  probe_packages direct_ok (VDict []) pts = Ok VNone.
Proof. induction pts as [|pt rest IH]; [reflexivity | exact IH]. Qed.

Lemma probe_keys_empty (ks : list string) : probe_keys (VDict []) ks = Ok VNone.
Proof. induction ks as [|k rest IH]; [reflexivity | exact IH]. Qed.

Lemma homebrew_probes_empty (windows : bool) (platform : string) :
  homebrew_probes windows platform (VDict []) = Ok VNone.
Proof.
  unfold homebrew_probes.
  destruct (platform =? "macOS"); [reflexivity|].
  destruct (platform =? "Linux"); [reflexivity|].
  destruct (windows && (platform =? "Windows")); reflexivity.
Qed.

Lemma homebrew_probes_drop (windows : bool) (platform : string)
    (pd pd' : list (string * value)) :
  NoDup (keys pd) ->
  drop_empty_tree pd pd' ->
  (platform = "macOS" -> drop_empty pd pd') ->
  homebrew_probes windows platform (VDict pd)
  = homebrew_probes windows platform (VDict pd').
Proof.
  intros Hnd Htree Hmac. unfold homebrew_probes.
  cbn [items bind]. rewrite (scan_items_drop pd pd' Htree).
  pose proof (drop_empty_tree_lookup pd pd' Htree Hnd) as Hrel.
  destruct (platform =? "macOS") eqn:E.
  - apply String.eqb_eq in E. specialize (Hmac E).
    rewrite (probe_keys_same pd pd'); [reflexivity|].
    now apply drop_empty_lookup.
  - destruct (platform =? "Linux");
      [now rewrite (probe_packages_same nonempty pd pd')|].
    destruct (windows && (platform =? "Windows"));
      [now rewrite (probe_packages_same nonempty pd pd') | reflexivity].
Qed.

Lemma homebrew_unfold (version : value) (platform : string) :
  Homebrew.get_download_url_for_platform version platform
  = (downloads <- get version "downloads" (VDict []) ;;
     platform_downloads <- get downloads platform (VDict []) ;;
     if negb (truthy platform_downloads) then Ok VNone
     else homebrew_probes true platform platform_downloads).
Proof. reflexivity. Qed.

Lemma build_homebrew_unfold (version : value) (platform : string) :
  Build.HomebrewBuilder.get_download_url_for_platform version platform
  = (downloads <- get version "downloads" (VDict []) ;;
     platform_downloads <- get downloads platform (VDict []) ;;
     if negb (truthy platform_downloads) then Ok VNone
     else homebrew_probes false platform platform_downloads).
Proof. reflexivity. Qed.

(** A platform subtree with or without its empty-string bindings gives
    the same outcome, also when dropping them leaves no binding. *)
Lemma guarded_probes_drop (probes : value -> result value)
    (pd pd' : list (string * value)) :
  probes (VDict []) = Ok VNone ->
  drop_empty_tree pd pd' ->
  probes (VDict pd) = probes (VDict pd') ->
  (if negb (truthy (VDict pd)) then Ok VNone else probes (VDict pd))
  = (if negb (truthy (VDict pd')) then Ok VNone else probes (VDict pd')).
Proof.
  intros Hempty Htree Hsame.
  destruct pd' as [|kv' pd'].
  - rewrite Hempty in Hsame. destruct pd; simpl; [reflexivity | exact Hsame].
  - destruct pd as [|kv pd]; [inversion Htree | exact Hsame].
Qed.

Lemma extract_ipa_url_probes (v : list (string * value)) :
  AltStore.extract_ipa_url (VDict v)
  = ipa_probes (lookup2 "downloads" "iOS" v) (lookup2 "platformInstall" "iOS" v)
      (lookup "downloadURL" v).
Proof.
  unfold AltStore.extract_ipa_url, ipa_probes, lookup2.
  f_equal; [|f_equal].
  - destruct (lookup "downloads" v) as [[| | | | |dl]|]; reflexivity.
  - destruct (lookup "platformInstall" v) as [[| | | | |dl]|]; reflexivity.
Qed.

Lemma ipa_probes_same (o1 o1' o2 o2' o3 o3' : option value) :
  same_or_empty o1 o1' -> same_or_empty o2 o2' -> same_or_empty o3 o3' ->
  ipa_probes o1 o2 o3 = ipa_probes o1' o2' o3'.
Proof.
  intros [E1|[E1 E1']] [E2|[E2 E2']] [E3|[E3 E3']]; subst; reflexivity.
Qed.

Lemma homebrew_platform_empty (v downloads : list (string * value))
    (platform : string) :
  lookup "downloads" v = Some (VDict downloads) ->
  same_or_empty (lookup platform downloads) None ->
  Homebrew.get_download_url_for_platform (VDict v) platform = Ok VNone.
Proof.
  intros Hd [E|[E _]]; unfold Homebrew.get_download_url_for_platform, get;
    rewrite Hd; cbn [bind]; rewrite E; reflexivity.
Qed.

Lemma winget_platform_empty (v downloads : list (string * value)) :
  lookup "downloads" v = Some (VDict downloads) ->
  same_or_empty (lookup "Windows" downloads) None ->
  Winget.get_windows_download_url (VDict v) = Ok VNone.
Proof.
  intros Hd [E|[E _]]; unfold Winget.get_windows_download_url, get;
    rewrite Hd; cbn [bind]; rewrite E; reflexivity.
Qed.

Lemma homebrew_subtree_drop (v v' downloads downloads' pd pd' : list (string * value))
    (platform : string) :
  lookup "downloads" v = Some (VDict downloads) ->
  lookup "downloads" v' = Some (VDict downloads') ->
  lookup platform downloads = Some (VDict pd) ->
  lookup platform downloads' = Some (VDict pd') ->
  NoDup (keys pd) -> drop_empty_tree pd pd' ->
  (platform = "macOS" -> drop_empty pd pd') ->
  Homebrew.get_download_url_for_platform (VDict v) platform
  = Homebrew.get_download_url_for_platform (VDict v') platform.
Proof.
  intros Hd Hd' Hp Hp' Hnd Htree Hmac.
  rewrite !homebrew_unfold. unfold get.
  rewrite Hd, Hd'. cbn [bind]. rewrite Hp, Hp'. cbn [bind].
  apply (guarded_probes_drop (homebrew_probes true platform));
    [apply homebrew_probes_empty | exact Htree |].
  now apply homebrew_probes_drop.
Qed.

Lemma winget_subtree_drop (v v' downloads downloads' pd pd' : list (string * value)) :
  lookup "downloads" v = Some (VDict downloads) ->
  lookup "downloads" v' = Some (VDict downloads') ->
  lookup "Windows" downloads = Some (VDict pd) ->
  lookup "Windows" downloads' = Some (VDict pd') ->
  NoDup (keys pd) -> drop_empty_tree pd pd' ->
  Winget.get_windows_download_url (VDict v)
  = Winget.get_windows_download_url (VDict v').
Proof.
  intros Hd Hd' Hp Hp' Hnd Htree.
  unfold Winget.get_windows_download_url, get.
  rewrite Hd, Hd'. cbn [bind]. rewrite Hp, Hp'. cbn [bind].
  apply (guarded_probes_drop
           (fun pd => probe_packages (startswith "http") pd
                        ["exe"; "msi"; "msix"; "zip"]));
    [apply probe_packages_empty | exact Htree |].
  apply probe_packages_same; [reflexivity|].
  now apply drop_empty_tree_lookup.
Qed.

(** C6, as amended.  No resolver returns the empty string.  An empty
    string bound to the platform key, or bound inside the platform
    subtree (under a package or architecture key), is treated as a
    missing key; so is an empty string on any of the three probes of
    the mobile chain.  The mobile resolver returns a non-empty string
    or nothing on every input; the desktop resolvers do so on every
    record whose download tree has the shape they read. *)
Theorem resolvers_never_return_empty :
  (forall version platform,
      Homebrew.get_download_url_for_platform version platform <> Ok (VStr "")) /\
  (forall version, Winget.get_windows_download_url version <> Ok (VStr "")) /\
  (forall version, AltStore.extract_ipa_url version <> Some "") /\
  (forall v downloads platform,
      lookup "downloads" v = Some (VDict downloads) ->
      same_or_empty (lookup platform downloads) None ->
      Homebrew.get_download_url_for_platform (VDict v) platform = Ok VNone /\
      (platform = "Windows" ->
       Winget.get_windows_download_url (VDict v) = Ok VNone)) /\
  (forall v v' downloads downloads' pd pd' platform,
      lookup "downloads" v = Some (VDict downloads) ->
      lookup "downloads" v' = Some (VDict downloads') ->
      lookup platform downloads = Some (VDict pd) ->
      lookup platform downloads' = Some (VDict pd') ->
      NoDup (keys pd) -> drop_empty_tree pd pd' ->
      (platform = "macOS" -> drop_empty pd pd') ->
      Homebrew.get_download_url_for_platform (VDict v) platform
      = Homebrew.get_download_url_for_platform (VDict v') platform /\
      (platform = "Windows" ->
       Winget.get_windows_download_url (VDict v)
       = Winget.get_windows_download_url (VDict v'))) /\
  (forall v v',
      same_or_empty (lookup2 "downloads" "iOS" v) (lookup2 "downloads" "iOS" v') ->
      same_or_empty (lookup2 "platformInstall" "iOS" v)
        (lookup2 "platformInstall" "iOS" v') ->
      same_or_empty (lookup "downloadURL" v) (lookup "downloadURL" v') ->
      AltStore.extract_ipa_url (VDict v) = AltStore.extract_ipa_url (VDict v')) /\
  (forall version,
      AltStore.extract_ipa_url version = None \/
      exists u, AltStore.extract_ipa_url version = Some u /\ u <> "") /\
  (forall version platform,
      downloads_shape platform version = true ->
      exists r, Homebrew.get_download_url_for_platform version platform = Ok r /\
                url_or_absent r) /\
  (forall version,
      downloads_shape "Windows" version = true ->
      exists r, Winget.get_windows_download_url version = Ok r /\
                url_or_absent r).
Proof.
  split.
  { intros version platform E. apply homebrew_result_usable in E.
    now apply (usable_not_empty_string _ E). }
  split.
  { intros version E. apply winget_result_usable in E.
    now apply (usable_not_empty_string _ E). }
  split.
  { intros version E. now apply extract_ipa_url_nonempty in E. }
  split.
  { intros v downloads platform Hd He. split.
    - now apply (homebrew_platform_empty v downloads).
    - intros ->. now apply (winget_platform_empty v downloads). }
  split.
  { intros v v' downloads downloads' pd pd' platform Hd Hd' Hp Hp' Hnd Ht Hm.
    split.
    - now apply (homebrew_subtree_drop v v' downloads downloads' pd pd').
    - intros ->.
      now apply (winget_subtree_drop v v' downloads downloads' pd pd'). }
  split.
  { intros v v' H1 H2 H3.
    rewrite !extract_ipa_url_probes. now apply ipa_probes_same. }
  split.
  { intros version.
    destruct (AltStore.extract_ipa_url version) as [u|] eqn:E; [right | now left].
    exists u. split; [reflexivity | now apply (extract_ipa_url_nonempty version)]. }
  split.
  { intros version platform H. now apply homebrew_shape_url. }
  intros version H. now apply winget_shape_url.
Qed.

Lemma resolvers_never_return_empty_witness :
  Winget.get_windows_download_url windows_exe
  = Winget.get_windows_download_url
      (version_of [("Windows", VDict (tl windows_subtree))]) /\
  exists r, Winget.get_windows_download_url windows_exe = Ok r /\ url_or_absent r.
Proof.
  destruct resolvers_never_return_empty
    as (_ & _ & _ & _ & Hdrop & _ & _ & _ & Hshape).
  split.
  - refine (proj2 (Hdrop (version_fields [("Windows", VDict windows_subtree)])
                     (version_fields [("Windows", VDict (tl windows_subtree))])
                     [("Windows", VDict windows_subtree)]
                     [("Windows", VDict (tl windows_subtree))]
                     windows_subtree (tl windows_subtree) "Windows"
                     eq_refl eq_refl eq_refl eq_refl _ _ _) eq_refl).
    + repeat constructor; simpl; intuition discriminate.
    + apply tree_here, tree_keep, tree_nil.
    + discriminate.
  - apply Hshape. reflexivity.
Defined.

(** C6, as stated, fails: the macOS probe hands back whatever true
    object is bound to an architecture key, here a mapping, and a
    platform bound directly to a URL makes the Windows resolver
    raise. *)
Lemma resolver_neither_url_nor_absent :
  (exists r, Homebrew.get_download_url_for_platform macos_nested "macOS" = Ok r /\
             ~ url_or_absent r) /\
  Winget.get_windows_download_url windows_direct = Raise TypeError.
Proof.
  split; [|reflexivity].
  eexists; split; [reflexivity|].
  intros [H|(s & H & _)]; discriminate.
Qed.

(* ----------------------------------------------------------------- *)
(** ** Probe order on macOS *)

Lemma lookup_some_nonempty (k : string) (d : list (string * value)) (x : value) :
  lookup k d = Some x -> truthy (VDict d) = true.
Proof. destruct d; [discriminate | reflexivity]. Qed.

Lemma macos_resolved (v downloads m : list (string * value)) (r : value) :
  lookup "downloads" v = Some (VDict downloads) ->
  lookup "macOS" downloads = Some (VDict m) ->
  truthy (VDict m) = true ->
  probe_dict m ["universal"; "arm64"; "x86_64"] = r ->
  truthy r = true ->
  Homebrew.get_download_url_for_platform (VDict v) "macOS" = Ok r /\
  Build.HomebrewBuilder.get_download_url_for_platform (VDict v) "macOS" = Ok r.
Proof.
  intros Hd Hm Hne Hr Ht.
  rewrite homebrew_unfold, build_homebrew_unfold. unfold get.
  rewrite Hd. cbn [bind]. rewrite Hm. cbn [bind]. rewrite Hne. cbn [negb].
  unfold homebrew_probes. cbn [String.eqb Ascii.eqb Bool.eqb].
  rewrite probe_keys_dict, Hr. cbn [bind]. rewrite Ht. split; reflexivity.
Qed.

(** C7.  When [downloads["macOS"]] is a mapping with a non-empty
    "universal" entry, both macOS resolvers return that entry, whatever
    else the mapping binds; without a usable "universal" entry a
    non-empty "arm64" entry is returned, and "x86_64" comes last.  In
    particular the record with arm64 = "https://x/a" and universal =
    "https://x/u" resolves to "https://x/u". *)
Theorem macos_prefers_universal :
  (forall (v downloads m : list (string * value)) (u : string),
      lookup "downloads" v = Some (VDict downloads) ->
      lookup "macOS" downloads = Some (VDict m) ->
      lookup "universal" m = Some (VStr u) -> u <> "" ->
      Homebrew.get_download_url_for_platform (VDict v) "macOS" = Ok (VStr u) /\
      Build.HomebrewBuilder.get_download_url_for_platform (VDict v) "macOS"
      = Ok (VStr u)) /\
  (forall (v downloads m : list (string * value)) (a : string),
      lookup "downloads" v = Some (VDict downloads) ->
      lookup "macOS" downloads = Some (VDict m) ->
      same_or_empty (lookup "universal" m) None ->
      lookup "arm64" m = Some (VStr a) -> a <> "" ->
      Homebrew.get_download_url_for_platform (VDict v) "macOS" = Ok (VStr a) /\
      Build.HomebrewBuilder.get_download_url_for_platform (VDict v) "macOS"
      = Ok (VStr a)) /\
  (forall (v downloads m : list (string * value)) (x : string),
      lookup "downloads" v = Some (VDict downloads) ->
      lookup "macOS" downloads = Some (VDict m) ->
      same_or_empty (lookup "universal" m) None ->
      same_or_empty (lookup "arm64" m) None ->
      lookup "x86_64" m = Some (VStr x) -> x <> "" ->
      Homebrew.get_download_url_for_platform (VDict v) "macOS" = Ok (VStr x) /\
      Build.HomebrewBuilder.get_download_url_for_platform (VDict v) "macOS"
      = Ok (VStr x)) /\
  Homebrew.get_download_url_for_platform macos_both "macOS"
  = Ok (VStr "https://x/u") /\
  Build.HomebrewBuilder.get_download_url_for_platform macos_both "macOS"
  = Ok (VStr "https://x/u").
Proof.
  assert (Hne : forall s, s <> "" -> truthy (VStr s) = true).
  { intros s Hs. destruct s; [congruence | reflexivity]. }
  split; [|split; [|split; [|split; reflexivity]]].
  - intros v downloads m u Hd Hm Hu Hnz.
    apply (macos_resolved v downloads m); auto.
    + now apply (lookup_some_nonempty "universal" m (VStr u)).
    + cbn [probe_dict]. now rewrite Hu, (Hne _ Hnz).
  - intros v downloads m a Hd Hm Hu Ha Hnz.
    apply (macos_resolved v downloads m); auto.
    + now apply (lookup_some_nonempty "arm64" m (VStr a)).
    + cbn [probe_dict].
      destruct Hu as [E|[E _]]; rewrite E; cbn [truthy String.eqb negb];
        now rewrite Ha, (Hne _ Hnz).
  - intros v downloads m x Hd Hm Hu Ha Hx Hnz.
    apply (macos_resolved v downloads m); auto.
    + now apply (lookup_some_nonempty "x86_64" m (VStr x)).
    + cbn [probe_dict].
      destruct Hu as [E|[E _]]; rewrite E; cbn [truthy String.eqb negb];
        destruct Ha as [E2|[E2 _]]; rewrite E2; cbn [truthy String.eqb negb];
        now rewrite Hx, (Hne _ Hnz).
Qed.

Lemma macos_prefers_universal_witness :
  Homebrew.get_download_url_for_platform macos_both "macOS" = Ok (VStr "https://x/u").
Proof.
  destruct macos_prefers_universal as (H & _).
  refine (proj1 (H (version_fields [("macOS", VDict macos_subtree)])
                   [("macOS", VDict macos_subtree)] macos_subtree "https://x/u"
                   eq_refl eq_refl eq_refl _)).
  discriminate.
Defined.

(* ----------------------------------------------------------------- *)
(** ** Mobile resolvers on a directly bound string *)

(** C4, as amended.  When [downloads["Android"]] is bound directly to
    a string that is not blank, [extract_apk_url] of [build.py] returns
    that string with surrounding white space removed, hence exactly
    that string when it has none, and asks for no URI scheme marker;
    [extract_ipa_url] does the same for "iOS". *)
Theorem direct_string_is_returned_stripped :
  (forall (v downloads : list (string * value)) (s : string),
      lookup "downloads" v = Some (VDict downloads) ->
      lookup "Android" downloads = Some (VStr s) ->
      strip s <> "" ->
      Build.FDroidBuilder.extract_apk_url (VDict v) = VStr (strip s) /\
      (strip s = s -> Build.FDroidBuilder.extract_apk_url (VDict v) = VStr s)) /\
  (forall (v downloads : list (string * value)) (s : string),
      lookup "downloads" v = Some (VDict downloads) ->
      lookup "iOS" downloads = Some (VStr s) ->
      strip s <> "" ->
      AltStore.extract_ipa_url (VDict v) = Some (strip s) /\
      Build.AltStoreBuilder.extract_ipa_url (VDict v) = Some (strip s)) /\
  Build.FDroidBuilder.extract_apk_url android_direct = VStr "https://x/app.apk".
Proof.
  assert (Hne : forall s, s <> "" -> nonempty s = true).
  { intros s Hs. destruct s; [congruence | reflexivity]. }
  split; [|split; [|reflexivity]].
  - intros v downloads s Hd Ha Hs.
    assert (E : Build.FDroidBuilder.extract_apk_url (VDict v) = VStr (strip s)).
    { unfold Build.FDroidBuilder.extract_apk_url.
      now rewrite Hd, Ha, (Hne _ Hs). }
    split; [exact E | intros Hfix; rewrite E; now rewrite Hfix].
  - intros v downloads s Hd Ha Hs.
    unfold Build.AltStoreBuilder.extract_ipa_url, AltStore.extract_ipa_url.
    rewrite Hd, Ha, (Hne _ Hs). split; reflexivity.
Qed.

Lemma direct_string_is_returned_stripped_witness :
  Build.FDroidBuilder.extract_apk_url android_padded = VStr "https://x/app.apk".
Proof.
  destruct direct_string_is_returned_stripped as (H & _).
  refine (proj1 (H (version_fields [("Android", VStr " https://x/app.apk")])
                   [("Android", VStr " https://x/app.apk")] " https://x/app.apk"
                   eq_refl eq_refl _)).
  discriminate.
Defined.

(** C4, as stated, fails: a padded string is not returned exactly, and
    a blank one is not returned at all. *)
Lemma direct_string_not_returned_exactly :
  Build.FDroidBuilder.extract_apk_url android_padded <> VStr " https://x/app.apk" /\
  Build.FDroidBuilder.extract_apk_url (version_of [("Android", VStr " ")]) = VNone.
Proof. split; [discriminate | reflexivity]. Qed.

(** [get_android_download_url] of [build_fdroid_repo.py] reads only the
    nested form: the same direct string makes ['apk' in ..] a substring
    test and the subscript a [TypeError]. *)
Lemma fdroid_direct_string_raises :
  Fdroid.get_android_download_url android_direct = Raise TypeError /\
  Fdroid.get_android_download_url android_nested = Ok (VStr "https://x/a.apk").
Proof. split; reflexivity. Qed.

(* ----------------------------------------------------------------- *)
(** ** Batch loop *)

Section BatchFacts.

Variable get_app_versions : value -> list value.
Variable emit : value -> list value -> result bool.

Lemma written_count_cons (app : value) (apps : list value) :
  written_count get_app_versions emit (app :: apps)
  = ((if written get_app_versions emit app then 1 else 0)
     + written_count get_app_versions emit apps)%nat.
Proof.
  unfold written_count. simpl.
  now destruct (written get_app_versions emit app).
Qed.

(** When no exception leaves the body of the loop, the two counters
    end as the number of written applications and the number of the
    others. *)
Lemma batch_loop_counts (apps : list value) :
  Forall (isolated get_app_versions emit) apps ->
  forall generated_count failed_count,
    batch_loop get_app_versions emit apps generated_count failed_count
    = Ok ((generated_count
           + Z.of_nat (written_count get_app_versions emit apps))%Z,
          (failed_count + Z.of_nat (List.length apps)
           - Z.of_nat (written_count get_app_versions emit apps))%Z).
Proof.
  induction 1 as [|app apps Hiso _ IH]; intros g f.
  - unfold written_count. simpl. f_equal. f_equal; lia.
  - destruct Hiso as (slug & Hslug & Hemit).
    rewrite written_count_cons. cbn [batch_loop].
    unfold written. rewrite Hslug. cbn [bind].
    destruct (truthy slug) eqn:T; cbn [negb andb].
    + destruct (Hemit eq_refl) as [ok Hok]. rewrite Hok. cbn [bind].
      destruct ok; rewrite IH; f_equal; f_equal; cbn [List.length]; lia.
    + rewrite IH. f_equal. f_equal; cbn [List.length]; lia.
Qed.

(** A loop that ends has met no exception. *)
Lemma batch_loop_ok_isolated (apps : list value) :
  forall generated_count failed_count counts,
    batch_loop get_app_versions emit apps generated_count failed_count
    = Ok counts ->
    Forall (isolated get_app_versions emit) apps.
Proof.
  induction apps as [|app apps IH]; intros g f counts H; [constructor|].
  cbn [batch_loop] in H. bind_inv H.
  destruct (truthy a) eqn:T; cbn [negb] in H.
  - bind_inv H. constructor.
    + exists a. split; [exact Ha | intros _; now exists a0].
    + destruct a0; exact (IH _ _ _ H).
  - constructor; [|exact (IH _ _ _ H)].
    exists a. split; [exact Ha | intros T'; congruence].
Qed.

(** The exit status of a stand-alone run is 0 exactly when the
    generator was constructed, no exception left the loop, the info
    file was written and at least one application was written. *)
Lemma batch_exit_zero_iff (setup publish : result unit) (apps : list value) :
  process_exit (batch_main get_app_versions emit setup publish apps) = 0%Z
  <-> setup = Ok tt /\
      Forall (isolated get_app_versions emit) apps /\
      publish = Ok tt /\
      (0 < written_count get_app_versions emit apps)%nat.
Proof.
  unfold batch_main. split.
  - intros H. destruct setup as [[]|e]; cbn [bind process_exit] in H; [|discriminate].
    destruct apps as [|app apps]; [discriminate|].
    destruct (batch_loop get_app_versions emit (app :: apps) 0 0)
      as [[g f]|e] eqn:L; cbn [bind process_exit] in H; [|discriminate].
    pose proof (batch_loop_ok_isolated _ _ _ _ L) as Hiso.
    rewrite (batch_loop_counts _ Hiso) in L. inversion L as [[Hg Hf]]; clear L.
    destruct publish as [[]|e]; cbn [bind process_exit fst snd] in H; [|discriminate].
    repeat split; auto. unfold exit_code in H.
    destruct (g =? 0)%Z eqn:E; [discriminate|].
    apply Z.eqb_neq in E. lia.
  - intros (-> & Hiso & -> & Hpos). cbn [bind].
    destruct apps as [|app apps].
    + unfold written_count in Hpos. simpl in Hpos. lia.
    + rewrite (batch_loop_counts _ Hiso).
      set (g := (0 + Z.of_nat _)%Z). set (f := (_ - _)%Z).
      cbn [bind process_exit fst snd]. unfold exit_code.
      destruct (g =? 0)%Z eqn:E.
      * apply Z.eqb_eq in E. subst g. lia.
      * now destruct (0 <? f)%Z.
Qed.

(** An exception that leaves the generator leaves the loop, whatever
    follows in the list. *)
Lemma batch_loop_aborts (app slug : value) (rest : list value) (e : exn) :
  get app "slug" VNone = Ok slug ->
  truthy slug = true ->
  emit app (get_app_versions slug) = Raise e ->
  forall generated_count failed_count,
    batch_loop get_app_versions emit (app :: rest) generated_count failed_count
    = Raise e.
Proof.
  intros Hslug T Hemit g f. cbn [batch_loop].
  rewrite Hslug. cbn [bind]. rewrite T. cbn [negb]. now rewrite Hemit.
Qed.

End BatchFacts.

(** The loop of [main] in [build_fdroid_repo.py] is left in the same
    way. *)
Lemma fdroid_loop_aborts (show : value -> string) (output_dir : path)
    (write_file : path -> result unit) (get_app_versions : value -> list value)
    (app slug : value) (rest : list value) (e : exn) :
  get app "slug" VNone = Ok slug ->
  truthy slug = true ->
  Fdroid.generate_metadata_for_app show output_dir write_file app
    (get_app_versions slug) = Raise e ->
  forall generated_count failed_count app_infos,
    Fdroid.main_loop show output_dir write_file get_app_versions (app :: rest)
      generated_count failed_count app_infos = Raise e.
Proof.
  intros Hslug T Hemit g f infos. cbn [Fdroid.main_loop].
  rewrite Hslug. cbn [bind]. rewrite T. cbn [negb]. now rewrite Hemit.
Qed.

(** The loop of [build_fdroid_repo.py] counts as the shared loop does
    and is left by the same exceptions. *)
Lemma fdroid_loop_batch (show : value -> string) (output_dir : path)
    (write_file : path -> result unit) (get_app_versions : value -> list value)
    (apps : list value) :
  forall generated_count failed_count app_infos,
    match Fdroid.main_loop show output_dir write_file get_app_versions apps
            generated_count failed_count app_infos with
    | Ok (g, f, _) =>
        batch_loop get_app_versions
          (Fdroid.generated show output_dir write_file) apps
          generated_count failed_count = Ok (g, f)
    | Raise e =>
        batch_loop get_app_versions
          (Fdroid.generated show output_dir write_file) apps
          generated_count failed_count = Raise e
    end.
Proof.
  induction apps as [|app rest IH]; intros g f infos; [reflexivity|].
  cbn [Fdroid.main_loop batch_loop].
  destruct (get app "slug" VNone) as [slug|e]; [|reflexivity]. cbn [bind].
  destruct (truthy slug); cbn [negb]; [|apply IH].
  unfold Fdroid.generated.
  destruct (Fdroid.generate_metadata_for_app show output_dir write_file app
              (get_app_versions slug)) as [app_info|e]; [|reflexivity].
  cbn [bind]. destruct (truthy app_info); apply IH.
Qed.

(** C5: the claim fails on the code.  In the catalog below the first
    application is written: alone it gives exit status 0.  The version
    list of the second starts with a string; [latest_version.get]
    raises before the [try] of the generator and nothing in [main]
    catches it, so the run that wrote one application ends with exit
    status 1, in [build_fdroid_repo.py] and in [build_homebrew_tap.py]
    alike. *)
Theorem written_application_exits_one :
  let good := app_of "good" "Good App" in
  let broken := app_of "broken" "Broken" in
  let fdroid :=
    Fdroid.main sample_show sample_output_dir sample_mkdir sample_write_file 0
      catalog in
  let homebrew :=
    Homebrew.main sample_urlparse_path sample_path_suffix sample_output_dir
      sample_mkdir sample_write_file catalog "macOS" in
  (written_count catalog
     (Fdroid.generated sample_show sample_output_dir sample_write_file)
     [good; broken] = 1%nat /\
   process_exit (fdroid [good]) = 0%Z /\
   fdroid [good; broken] = Raise AttributeError /\
   process_exit (fdroid [good; broken]) = 1%Z) /\
  (written_count catalog
     (fun app versions =>
        Homebrew.generate_formula sample_urlparse_path sample_path_suffix
          sample_output_dir sample_write_file app versions "macOS")
     [good; broken] = 1%nat /\
   process_exit (homebrew [good]) = 0%Z /\
   homebrew [good; broken] = Raise AttributeError /\
   process_exit (homebrew [good; broken]) = 1%Z).
Proof. repeat split; reflexivity. Qed.

(** C2: the claim fails on the code.  The version list of "broken"
    starts with a string; [latest_version.get] raises before the [try]
    of [generate_manifests], nothing in [main] catches it, and the
    application after it is never processed although it would have
    been written. *)
Theorem winget_batch_aborts :
  Winget.generate_manifests sample_urlparse_path sample_output_dir sample_mkdir
    sample_write_file (app_of "broken" "Broken")
    (catalog (VStr "broken")) = Raise AttributeError /\
  Winget.main sample_urlparse_path sample_output_dir sample_mkdir
    sample_write_file catalog
    [app_of "broken" "Broken"; app_of "good" "Good App"] = Raise AttributeError /\
  Winget.main sample_urlparse_path sample_output_dir sample_mkdir
    sample_write_file catalog [app_of "good" "Good App"] = Ok 0%Z /\
  process_exit (Winget.main sample_urlparse_path sample_output_dir sample_mkdir
                  sample_write_file catalog
                  [app_of "good" "Good App"; app_of "broken" "Broken"]) = 1%Z.
Proof. repeat split; reflexivity. Qed.

(** The same abort in the three stand-alone scripts, for every catalog
    and every file system: a newest version that is not a mapping ends
    the run at that application, with exit status 1. *)
Lemma malformed_version_aborts (get_app_versions : value -> list value)
    (output_dir : path) (mkdir write_file : path -> result unit)
    (a : list (string * value)) (slug latest_version : value)
    (versions rest : list value) :
  lookup "slug" a = Some slug -> truthy slug = true ->
  get_app_versions slug = latest_version :: versions ->
  (forall v, latest_version <> VDict v) ->
  (forall urlparse_path,
      process_exit
        (Winget.main urlparse_path output_dir mkdir write_file get_app_versions
           (VDict a :: rest)) = 1%Z) /\
  (forall urlparse_path path_suffix platform,
      process_exit
        (Homebrew.main urlparse_path path_suffix output_dir mkdir write_file
           get_app_versions platform (VDict a :: rest)) = 1%Z) /\
  (forall show timestamp,
      process_exit
        (Fdroid.main show output_dir mkdir write_file timestamp get_app_versions
           (VDict a :: rest)) = 1%Z).
Proof.
  intros Hslug T Hv Hnd.
  assert (Hget : get latest_version "platforms" (VList []) = Raise AttributeError).
  { destruct latest_version; try reflexivity. now destruct (Hnd d). }
  assert (Hs : get (VDict a) "slug" VNone = Ok slug) by (simpl; now rewrite Hslug).
  assert (Hmain : forall emit setup publish,
             emit (VDict a) (latest_version :: versions) = Raise AttributeError ->
             process_exit
               (batch_main get_app_versions emit setup publish (VDict a :: rest))
             = 1%Z).
  { intros emit setup publish Hemit. unfold batch_main.
    destruct setup as [[]|e]; [|reflexivity]. cbn [bind].
    rewrite (batch_loop_aborts get_app_versions emit (VDict a) slug rest
               AttributeError Hs T); [reflexivity|].
    now rewrite Hv. }
  split; [|split]; intros.
  - apply Hmain. unfold Winget.generate_manifests. now rewrite Hget.
  - apply Hmain. unfold Homebrew.generate_formula. now rewrite Hget.
  - unfold Fdroid.main.
    destruct (mkdir _) as [[]|e]; [|reflexivity]. cbn [bind].
    destruct (mkdir _) as [[]|e]; [|reflexivity]. cbn [bind].
    rewrite (fdroid_loop_aborts show output_dir write_file get_app_versions
               (VDict a) slug rest AttributeError Hs T); [reflexivity|].
    rewrite Hv. unfold Fdroid.generate_metadata_for_app. now rewrite Hget.
Qed.

(** A package identifier that cannot be a key ends the run of
    [build_fdroid_repo.py] after the loop, when the index is built:
    the metadata file of the application has been written and the exit
    status is 1. *)
Lemma fdroid_unhashable_package_aborts :
  let app := VDict [("slug", VStr "good"); ("name", VStr "Good App");
                    ("bundleIdentifier", VList [VStr "a"])] in
  Fdroid.generated sample_show sample_output_dir sample_write_file app
    (catalog (VStr "good")) = Ok true /\
  Fdroid.main sample_show sample_output_dir sample_mkdir sample_write_file 0
    catalog [app] = Raise TypeError.
Proof. split; reflexivity. Qed.

(* ----------------------------------------------------------------- *)
(** ** Category mappers *)

Lemma in_valid_categories (c : string) :
  existsb (String.eqb c) AltStore.valid_categories = true ->
  In c AltStore.valid_categories.
Proof.
  intros H. apply existsb_exists in H as (x & Hin & E).
  apply String.eqb_eq in E. now subst.
Qed.

Lemma map_category_in_vocabulary (show : value -> string) (category : value) :
  In (AltStore._map_category show category) AltStore.valid_categories.
Proof.
  unfold AltStore._map_category.
  destruct (existsb _ AltStore.valid_categories) eqn:E.
  - now apply in_valid_categories.
  - simpl. tauto.
Qed.

(** X1.  Whatever the label, and whatever it prints as when it is not
    a string, [_map_category] answers with one of the eight categories
    of its vocabulary. *)
Theorem map_category_closed :
  forall (show : value -> string) (category : value),
    In (AltStore._map_category show category) AltStore.valid_categories /\
    In (Build.AltStoreBuilder._map_category show category)
       AltStore.valid_categories.
Proof.
  intros show category.
  split; exact (map_category_in_vocabulary show category).
Qed.

(** X2.  [_map_category] is idempotent: a label it has produced is
    mapped to itself, so mapping twice is mapping once. *)
Theorem map_category_idempotent :
  forall (show : value -> string) (category : value),
    AltStore._map_category show (VStr (AltStore._map_category show category))
    = AltStore._map_category show category.
Proof.
  intros show category.
  pose proof (map_category_in_vocabulary show category) as H.
  simpl in H.
  repeat (destruct H as [H|H]; [rewrite <- H; reflexivity|]).
  contradiction.
Qed.

Lemma assoc_category_map (c : string) :
  existsb (String.eqb c) AltStore.valid_categories = false ->
  Build.FDroidBuilder.assoc c Build.FDroidBuilder.category_map = None.
Proof.
  unfold AltStore.valid_categories, Build.FDroidBuilder.category_map.
  cbn [existsb Build.FDroidBuilder.assoc]. intros H.
  repeat (apply orb_false_iff in H; destruct H as [? H]).
  repeat match goal with
         | E : (c =? ?k) = false |- context [?k =? c] =>
             rewrite (String.eqb_sym k c), E; clear E
         end.
  reflexivity.
Qed.

(** X3.  [_map_fdroid_category] answers with one of five F-Droid
    categories, and it gives the same answer on a label and on what
    [_map_category] makes of that label. *)
Theorem map_fdroid_category_closed :
  forall (show : value -> string) (category : value),
    In (Build.FDroidBuilder._map_fdroid_category show category)
       ["Multimedia"; "Games"; "System"; "Internet"; "Development"] /\
    Build.FDroidBuilder._map_fdroid_category show
      (VStr (AltStore._map_category show category))
    = Build.FDroidBuilder._map_fdroid_category show category.
Proof.
  intros show category.
  unfold Build.FDroidBuilder._map_fdroid_category, AltStore._map_category.
  set (c := replace_char " " "-" (lower (py_str show category))).
  destruct (existsb (String.eqb c) AltStore.valid_categories) eqn:E.
  - apply in_valid_categories in E. simpl in E.
    repeat (destruct E as [E|E];
            [rewrite <- E; split; [simpl; tauto | reflexivity]|]).
    contradiction.
  - rewrite (assoc_category_map c E). split; [simpl; tauto | reflexivity].
Qed.

(* ----------------------------------------------------------------- *)
(** ** Identifier sanitisers: the other styles *)

Ltac ascii_cases c := destruct c as [[] [] [] [] [] [] [] []].

Lemma to_lower_not_upper (c : ascii) : is_upper (to_lower c) = false.
Proof. ascii_cases c; reflexivity. Qed.

Lemma to_upper_alnum (c : ascii) : is_lower c = true -> is_alnum (to_upper c) = true.
Proof. ascii_cases c; (reflexivity || discriminate). Qed.

Lemma str_forall_map (p : ascii -> bool) (f : ascii -> ascii) (s : string) :
  (forall c, p (f c) = true) -> str_forall p (str_map f s) = true.
Proof.
  intros H. induction s as [|c r IH]; simpl; [reflexivity|].
  now rewrite H, IH.
Qed.

Lemma str_forall_map_keep (p : ascii -> bool) (f : ascii -> ascii) (s : string) :
  (forall c, p c = true -> p (f c) = true) ->
  str_forall p s = true -> str_forall p (str_map f s) = true.
Proof.
  intros H. induction s as [|c r IH]; simpl; [reflexivity|].
  intros E. apply andb_true_iff in E as [Hc Hr]. now rewrite (H _ Hc), IH.
Qed.

Lemma str_forall_filter_keep (p q : ascii -> bool) (s : string) :
  str_forall q s = true -> str_forall q (str_filter p s) = true.
Proof.
  induction s as [|c r IH]; simpl; [reflexivity|].
  intros E. apply andb_true_iff in E as [Hc Hr].
  destruct (p c); simpl; [rewrite Hc|]; now apply IH.
Qed.

Lemma str_filter_all (p : ascii -> bool) (s : string) :
  str_forall p s = true -> str_filter p s = s.
Proof.
  induction s as [|c r IH]; simpl; [reflexivity|].
  intros E. apply andb_true_iff in E as [Hc Hr]. now rewrite Hc, IH.
Qed.

Lemma str_map_fixed (f : ascii -> ascii) (s : string) :
  str_forall (fun c => Ascii.eqb (f c) c) s = true -> str_map f s = s.
Proof.
  induction s as [|c r IH]; simpl; [reflexivity|].
  intros E. apply andb_true_iff in E as [Hc Hr].
  apply Ascii.eqb_eq in Hc. now rewrite Hc, IH.
Qed.

Lemma str_forall_and (p q : ascii -> bool) (s : string) :
  str_forall p s = true -> str_forall q s = true ->
  str_forall (fun c => p c && q c) s = true.
Proof.
  induction s as [|c r IH]; simpl; [reflexivity|].
  intros E1 E2. apply andb_true_iff in E1 as [Hp Hr1].
  apply andb_true_iff in E2 as [Hq Hr2]. now rewrite Hp, Hq, IH.
Qed.

Lemma lower_no_upper (s : string) :
  str_forall (fun c => negb (is_upper c)) (lower s) = true.
Proof.
  apply str_forall_map. intros c. now rewrite to_lower_not_upper.
Qed.

Lemma lower_fixed (s : string) :
  str_forall (fun c => negb (is_upper c)) s = true -> lower s = s.
Proof.
  intros H. apply str_map_fixed.
  eapply str_forall_weaken; [|exact H].
  intros c Hc. unfold to_lower. apply negb_true_iff in Hc. rewrite Hc.
  apply Ascii.eqb_refl.
Qed.

(** X4.  In the 'package' style [sanitize_name] yields only lower-case
    letters, digits and dots, and sanitising its result again changes
    nothing. *)
Theorem sanitize_package_style :
  forall name : string,
    let r := Build.sanitize_name name "package" in
    str_forall (fun c => is_lower c || is_digit c || Ascii.eqb c ".") r = true /\
    Build.sanitize_name r "package" = r.
Proof.
  intros name r.
  set (keep := fun c => is_alnum c || Ascii.eqb c ".").
  assert (Hr : r = str_filter keep (lower name)) by reflexivity.
  assert (Hkeep : str_forall keep r = true)
    by (rewrite Hr; apply str_forall_filter).
  assert (Hlow : str_forall (fun c => negb (is_upper c)) r = true)
    by (rewrite Hr; apply str_forall_filter_keep, lower_no_upper).
  split.
  - eapply str_forall_weaken; [|exact (str_forall_and _ _ _ Hkeep Hlow)].
    intros c. unfold keep, is_alnum, is_alpha.
    destruct (is_upper c), (is_lower c), (is_digit c), (Ascii.eqb c ".");
      simpl; congruence.
  - change (str_filter keep (lower r) = r).
    now rewrite (lower_fixed r Hlow), (str_filter_all keep r Hkeep).
Qed.

(** X5.  In the 'filename' style [sanitize_name] yields only lower-case
    letters, digits, underscores and hyphens (no space is left), and
    sanitising its result again changes nothing. *)
Theorem sanitize_filename_style :
  forall name : string,
    let r := Build.sanitize_name name "filename" in
    str_forall (fun c => is_lower c || is_digit c
                         || Ascii.eqb c "_" || Ascii.eqb c "-") r = true /\
    Build.sanitize_name r "filename" = r.
Proof.
  intros name r.
  set (keep := fun c => is_alnum c || Ascii.eqb c "_" || Ascii.eqb c "-").
  assert (Hr : r = str_filter keep (replace_char " " "-" (lower name)))
    by reflexivity.
  assert (Hkeep : str_forall keep r = true)
    by (rewrite Hr; apply str_forall_filter).
  assert (Hlow : str_forall (fun c => negb (is_upper c)) r = true).
  { rewrite Hr. apply str_forall_filter_keep. unfold replace_char.
    apply str_forall_map_keep; [|apply lower_no_upper].
    intros c Hc. now destruct (Ascii.eqb c " "). }
  split.
  - eapply str_forall_weaken; [|exact (str_forall_and _ _ _ Hkeep Hlow)].
    intros c. unfold keep, is_alnum, is_alpha.
    destruct (is_upper c), (is_lower c), (is_digit c),
      (Ascii.eqb c "_"), (Ascii.eqb c "-"); simpl; congruence.
  - change (str_filter keep (replace_char " " "-" (lower r)) = r).
    rewrite (lower_fixed r Hlow).
    assert (Hsp : replace_char " " "-" r = r).
    { apply str_map_fixed. eapply str_forall_weaken; [|exact Hkeep].
      intros c Hc. destruct (Ascii.eqb c " ") eqn:E; [|apply Ascii.eqb_refl].
      apply Ascii.eqb_eq in E. subst c. discriminate. }
    now rewrite Hsp, (str_filter_all keep r Hkeep).
Qed.

Lemma title_strips_nonempty (s : string) :
  forall b, str_filter is_alnum (title_from b s) = "" ->
            str_forall (fun c => negb (is_alnum c)) s = true.
Proof.
  induction s as [|c r IH]; simpl; intros b H; [reflexivity|].
  destruct (is_lower c) eqn:Hl.
  { exfalso. simpl in H.
    destruct b; [rewrite (cased_is_alnum c (or_introl Hl)) in H
                |rewrite (to_upper_alnum c Hl) in H]; discriminate. }
  destruct (is_upper c) eqn:Hu.
  { exfalso. simpl in H.
    assert (Hlow : is_alnum (to_lower c) = true)
      by (clear H IH; ascii_cases c; (reflexivity || discriminate)).
    destruct b; [rewrite Hlow in H
                |rewrite (cased_is_alnum c (or_intror Hu)) in H]; discriminate. }
  simpl in H. destruct (is_alnum c) eqn:Ha; [discriminate|].
  simpl. now apply (IH false).
Qed.

(** X6.  [sanitize_class_name] of [build_homebrew_tap.py] raises
    nothing but [IndexError], and only on a name without any ASCII
    letter or digit; on a name that is ASCII text it raises on every
    such name.  When it returns, the result is a non-empty identifier
    that starts with a letter and holds only letters and digits. *)
Theorem sanitize_class_name_fails_iff :
  forall name : string,
    (Homebrew.sanitize_class_name name = Raise IndexError ->
     str_forall (fun c => negb (is_alnum c)) name = true) /\
    (is_ascii_text name = true ->
     str_forall (fun c => negb (is_alnum c)) name = true ->
     Homebrew.sanitize_class_name name = Raise IndexError) /\
    (forall r, Homebrew.sanitize_class_name name = Ok r ->
               r <> "" /\ class_identifier r) /\
    (forall e, Homebrew.sanitize_class_name name = Raise e -> e = IndexError).
Proof.
  intros name. unfold Homebrew.sanitize_class_name.
  pose proof (str_forall_filter is_alnum (title name)) as Hall.
  destruct (str_filter is_alnum (title name)) as [|c rest] eqn:Hs.
  - split; [|split; [|split]].
    + intros _. now apply (title_strips_nonempty name false).
    + reflexivity.
    + intros r H. discriminate.
    + intros e H. now inversion H.
  - simpl in Hall. apply andb_true_iff in Hall as [Hc Hrest].
    split; [|split; [|split]].
    + destruct (is_alpha c); discriminate.
    + intros _ H. apply title_strips_to_empty with (b := false) in H.
      unfold title in Hs. congruence.
    + intros r H. destruct (is_alpha c) eqn:Ha; simpl in H; inversion H; subst.
      * split; [discriminate|]. right. exists c, rest. auto.
      * split; [discriminate|]. right.
        exists "A"%char, ("pp" ++ String c rest)%string.
        repeat split. simpl. now rewrite Hc, Hrest.
    + intros e H. destruct (is_alpha c); discriminate.
Qed.

Lemma sanitize_class_name_fails_iff_witness :
  Homebrew.sanitize_class_name "--" = Raise IndexError /\
  class_identifier "App2Go".
Proof.
  destruct (sanitize_class_name_fails_iff "--") as (_ & H & _).
  destruct (sanitize_class_name_fails_iff "2 go") as (_ & _ & H2 & _).
  split; [exact (H eq_refl eq_refl) | exact (proj2 (H2 "App2Go" eq_refl))].
Defined.

(** X7.  [sanitize_package_id] of [build_fdroid_repo.py] hands back a
    usable bundle identifier untouched; when the identifier is missing,
    false or 'unknown' it builds "ink.openlyst." followed by the
    lower-case letters and digits of the name, and raises when the
    name is not a string. *)
Theorem fdroid_package_id :
  (forall bundle_id name,
      truthy bundle_id = true -> bundle_id <> VStr "unknown" ->
      Fdroid.sanitize_package_id bundle_id name = Ok bundle_id) /\
  (forall bundle_id name,
      truthy bundle_id = false \/ bundle_id = VStr "unknown" ->
      (forall n, name = VStr n ->
         exists clean,
           Fdroid.sanitize_package_id bundle_id name
           = Ok (VStr ("ink.openlyst." ++ clean)) /\
           str_forall (fun c => is_lower c || is_digit c) clean = true) /\
      ((forall n, name <> VStr n) ->
       Fdroid.sanitize_package_id bundle_id name = Raise AttributeError)).
Proof.
  split.
  - intros bundle_id name T Hne. unfold Fdroid.sanitize_package_id.
    rewrite T. destruct bundle_id; try reflexivity.
    simpl. destruct (s =? "unknown") eqn:E; [|reflexivity].
    apply String.eqb_eq in E. congruence.
  - intros bundle_id name Hb.
    assert (Hguard : truthy bundle_id && negb (is_str_eq "unknown" bundle_id)
                     = false).
    { destruct Hb as [T| ->]; [now rewrite T | reflexivity]. }
    unfold Fdroid.sanitize_package_id. rewrite Hguard. split.
    + intros n ->. eexists; split; [reflexivity|].
      pose proof (str_forall_filter is_alnum (lower n)) as Hkeep.
      pose proof (str_forall_filter_keep is_alnum _ _ (lower_no_upper n)) as Hlow.
      eapply str_forall_weaken; [|exact (str_forall_and _ _ _ Hkeep Hlow)].
      intros c. unfold is_alnum, is_alpha.
      destruct (is_upper c), (is_lower c), (is_digit c); simpl; congruence.
    + intros Hn. destruct name; try reflexivity. now destruct (Hn s).
Qed.

Lemma fdroid_package_id_witness :
  (exists clean,
      Fdroid.sanitize_package_id (VStr "unknown") (VStr "My App 2")
      = Ok (VStr ("ink.openlyst." ++ clean)) /\
      str_forall (fun c => is_lower c || is_digit c) clean = true) /\
  Fdroid.sanitize_package_id (VStr "ink.x.app") VNone = Ok (VStr "ink.x.app").
Proof.
  destruct fdroid_package_id as (H1 & H2).
  split.
  - destruct (H2 (VStr "unknown") (VStr "My App 2") (or_intror eq_refl))
      as (H & _).
    exact (H "My App 2" eq_refl).
  - apply H1; [reflexivity | discriminate].
Defined.

(* ----------------------------------------------------------------- *)
(** ** Version code: decoding and what is ignored *)

(** X8.  When the minor and patch components are below 100 the version
    code can be decoded: its quotient by 10000 is the major component
    and its two pairs of low decimal digits are the minor and the
    patch; hence two such version strings with the same code have the
    same three components. *)
Theorem version_code_decodes :
  (forall (s : string) (major minor patch : Z),
      Fdroid.version_components s = Ok (major, minor, patch) ->
      (minor < 100)%Z -> (patch < 100)%Z ->
      let c := Fdroid.version_to_code (VStr s) in
      (c / 10000 = major /\ (c / 100) mod 100 = minor /\ c mod 100 = patch)%Z) /\
  (forall (a b : string) (a1 a2 a3 b1 b2 b3 : Z),
      Fdroid.version_components a = Ok (a1, a2, a3) ->
      Fdroid.version_components b = Ok (b1, b2, b3) ->
      (a2 < 100)%Z -> (a3 < 100)%Z -> (b2 < 100)%Z -> (b3 < 100)%Z ->
      Fdroid.version_to_code (VStr a) = Fdroid.version_to_code (VStr b) ->
      (a1, a2, a3) = (b1, b2, b3)).
Proof.
  assert (Hdec : forall (s : string) (major minor patch : Z),
             Fdroid.version_components s = Ok (major, minor, patch) ->
             (minor < 100)%Z -> (patch < 100)%Z ->
             let c := Fdroid.version_to_code (VStr s) in
             (c / 10000 = major /\ (c / 100) mod 100 = minor
              /\ c mod 100 = patch)%Z).
  { intros s major minor patch H Hm Hp c. unfold c.
    rewrite (version_to_code_components _ _ _ _ H).
    destruct (version_components_nonneg _ _ _ _ H) as (? & ? & ?).
    repeat split; Z.div_mod_to_equations; lia. }
  split; [exact Hdec|].
  intros a b a1 a2 a3 b1 b2 b3 Ha Hb Ha2 Ha3 Hb2 Hb3 E.
  destruct (Hdec a _ _ _ Ha Ha2 Ha3) as (A1 & A2 & A3).
  destruct (Hdec b _ _ _ Hb Hb2 Hb3) as (B1 & B2 & B3).
  cbv zeta in A1, A2, A3, B1, B2, B3. rewrite E in A1, A2, A3. congruence.
Qed.

Lemma version_code_decodes_witness :
  (Fdroid.version_to_code (VStr "v3.14.7-beta") / 10000 = 3)%Z.
Proof.
  destruct version_code_decodes as (H & _).
  refine (proj1 (H "v3.14.7-beta" 3 14 7 eq_refl _ _))%Z; lia.
Defined.

Lemma str_filter_idem (p : ascii -> bool) (s : string) :
  str_filter p (str_filter p s) = str_filter p s.
Proof. apply str_filter_all, str_forall_filter. Qed.

Lemma str_filter_app (p : ascii -> bool) (a b : string) :
  str_filter p (a ++ b)%string = (str_filter p a ++ str_filter p b)%string.
Proof.
  induction a as [|c r IH]; simpl; [reflexivity|].
  destruct (p c); simpl; now rewrite IH.
Qed.

Lemma split_nonempty (sep : ascii) (s : string) : split sep s <> [].
Proof.
  destruct s as [|c r]; simpl; [discriminate|].
  destruct (Ascii.eqb c sep); [discriminate|].
  destruct (split sep r); discriminate.
Qed.

Lemma split_app_sep (sep : ascii) (a b : string) :
  split sep (a ++ String sep b)%string = split sep a ++ split sep b.
Proof.
  induction a as [|c r IH]; simpl.
  - now rewrite Ascii.eqb_refl.
  - destruct (Ascii.eqb c sep); [now rewrite IH|].
    rewrite IH. pose proof (split_nonempty sep r) as Hne.
    destruct (split sep r) as [|h t]; [contradiction | reflexivity].
Qed.

Lemma nth_app_pad (parts more : list string) (i : nat) :
  (3 <= List.length parts)%nat -> (i < 3)%nat ->
  nth i (Fdroid.pad_parts (parts ++ more)) "" = nth i (Fdroid.pad_parts parts) "".
Proof.
  intros Hlen Hi. unfold Fdroid.pad_parts.
  rewrite (app_nth1 (parts ++ more)) by (rewrite length_app; lia).
  rewrite (app_nth1 parts more) by lia.
  symmetry. apply app_nth1. lia.
Qed.

(** A component of more than 4300 digits is refused by [int]; the
    [except] branch then gives the sentinel. *)
Lemma long_component_gives_sentinel (p : string) :
  str_forall is_digit p = true ->
  (max_str_digits < N.of_nat (String.length p))%N ->
  Fdroid.version_to_code (VStr p) = 1%Z.
Proof.
  intros Hd Hlen.
  assert (Hclean : Fdroid.clean_version p = p).
  { apply str_filter_all. eapply str_forall_weaken; [|exact Hd].
    intros c Hc. now rewrite Hc. }
  assert (Hsplit : split "." p = [p]).
  { apply split_no_sep. eapply str_forall_weaken; [|exact Hd].
    intros c Hc. destruct (Ascii.eqb c ".") eqn:E; [|reflexivity].
    apply Ascii.eqb_eq in E. subst. discriminate. }
  unfold Fdroid.version_to_code, Fdroid.version_to_code_try,
    Fdroid.version_components.
  rewrite Hclean, Hsplit. cbn [Fdroid.pad_parts List.length app repeat Nat.sub nth].
  unfold Fdroid.component, int.
  destruct p as [|c r]; [cbn in Hlen; lia|]. cbn [String.eqb].
  destruct (digits_value_total _ Hd 0%Z) as [n Hn]. rewrite Hn.
  apply N.ltb_lt in Hlen. rewrite Hlen. reflexivity.
Qed.

(** X9.  The version code reads digits and dots only, and only the
    first three components: removing every other character leaves the
    code unchanged, and so does appending further components to a
    version that already has three. *)
Theorem version_code_ignores :
  (forall s : string,
      Fdroid.version_to_code (VStr (Fdroid.clean_version s))
      = Fdroid.version_to_code (VStr s)) /\
  (forall s t : string,
      (3 <= List.length (split "." (Fdroid.clean_version s)))%nat ->
      Fdroid.version_to_code (VStr (s ++ "." ++ t))
      = Fdroid.version_to_code (VStr s)).
Proof.
  split.
  - intros s.
    unfold Fdroid.version_to_code, Fdroid.version_to_code_try,
      Fdroid.version_components, Fdroid.clean_version.
    now rewrite str_filter_idem.
  - intros s t Hlen.
    unfold Fdroid.version_to_code, Fdroid.version_to_code_try,
      Fdroid.version_components.
    assert (E : split "." (Fdroid.clean_version (s ++ "." ++ t))
                = split "." (Fdroid.clean_version s)
                  ++ split "." (Fdroid.clean_version t)).
    { unfold Fdroid.clean_version. rewrite str_filter_app. simpl.
      apply split_app_sep. }
    rewrite E, !nth_app_pad by (assumption || lia). reflexivity.
Qed.

Lemma version_code_ignores_witness :
  Fdroid.version_to_code (VStr ("1.2.3" ++ "." ++ "99"))
  = Fdroid.version_to_code (VStr "1.2.3").
Proof.
  destruct version_code_ignores as (_ & H).
  apply (H "1.2.3" "99"). vm_compute. lia.
Defined.

(* ----------------------------------------------------------------- *)
(** ** Download resolvers: where a result comes from *)

Lemma probe_keys_source (obj : value) (ks : list string) (r : value) :
  probe_keys obj ks = Ok r -> r <> VNone ->
  exists d k, obj = VDict d /\ In k ks /\ lookup k d = Some r /\ truthy r = true.
Proof.
  induction ks as [|k rest IH]; simpl; intros H Hr.
  - inversion H. congruence.
  - assert (Hrest : probe_keys obj rest = Ok r ->
                    exists d k0, obj = VDict d /\ (k = k0 \/ In k0 rest) /\
                                 lookup k0 d = Some r /\ truthy r = true).
    { intros H'. destruct (IH H' Hr) as (d & k0 & ? & ? & ? & ?).
      exists d, k0. auto. }
    bind_inv H. destruct a; [|now apply Hrest].
    bind_inv H. destruct (truthy a) eqn:T; [|now apply Hrest].
    inversion H; subst a. destruct obj; try discriminate.
    simpl in Ha0. destruct (lookup k d) as [x|] eqn:L; [|discriminate].
    inversion Ha0; subst x. exists d, k. auto.
Qed.

Lemma probe_packages_source (direct_ok : string -> bool) (obj : value)
    (pts : list string) (r : value) :
  probe_packages direct_ok obj pts = Ok r -> r <> VNone ->
  exists d pt, obj = VDict d /\ In pt pts /\ probed_under direct_ok pt d r.
Proof.
  induction pts as [|pt rest IH]; cbn [probe_packages]; intros H Hr.
  - inversion H. congruence.
  - assert (Hrest : probe_packages direct_ok obj rest = Ok r ->
                    exists d pt0, obj = VDict d /\ In pt0 (pt :: rest) /\
                                  probed_under direct_ok pt0 d r).
    { intros H'. destruct (IH H' Hr) as (d & pt0 & ? & ? & ?).
      exists d, pt0. simpl. auto. }
    bind_inv H. destruct a; [|now apply Hrest].
    bind_inv H. destruct obj; try discriminate.
    simpl in Ha0. destruct (lookup pt d) as [x|] eqn:L; [|discriminate].
    inversion Ha0; subst x. clear Ha0.
    destruct a; try (now apply Hrest).
    + destruct (direct_ok s) eqn:D; [|now apply Hrest].
      inversion H; subst r. exists d, pt. split; [reflexivity|].
      split; [now left|]. left. split; [exact L | now exists s].
    + bind_inv H. destruct (truthy a) eqn:T; [|now apply Hrest].
      inversion H; subst a.
      destruct (probe_keys_source _ _ _ Ha0 Hr) as (inner & k & E & Hk & Lk & _).
      inversion E; subst inner.
      exists d, pt. split; [reflexivity|]. split; [now left|].
      right. exists d0, k. auto.
Qed.

Lemma scan_leaves_source (a : list (string * value)) :
  scan_leaves a <> VNone -> exists k, In (k, scan_leaves a) a.
Proof.
  induction a as [|[k v] rest IH]; simpl; [congruence|].
  destruct (is_http v); [intros _; exists k; now left|].
  intros H. destruct (IH H) as [k0 Hk0]. exists k0. now right.
Qed.

Lemma bound_in_cons (r : value) (kv : string * value) (d : list (string * value)) :
  bound_in r d -> bound_in r (kv :: d).
Proof.
  intros [(k & H)|(k & inner & k' & H & H')].
  - left. exists k. now right.
  - right. exists k, inner, k'. split; [now right | exact H'].
Qed.

Lemma scan_items_source (d : list (string * value)) :
  scan_items d <> VNone -> bound_in (scan_items d) d.
Proof.
  induction d as [|[k v] rest IH]; [simpl; congruence|].
  destruct v; cbn [scan_items is_http];
    try (intros H; apply bound_in_cons; now apply IH).
  - destruct (startswith "http" s).
    + intros _. left. exists k. now left.
    + intros H. apply bound_in_cons. now apply IH.
  - destruct (scan_leaves d) eqn:E;
      try (intros _; right;
           assert (Hne : scan_leaves d <> VNone) by (rewrite E; discriminate);
           destruct (scan_leaves_source d Hne) as [k' Hk'];
           rewrite E in Hk'; exists k, d, k'; split; [now left | exact Hk']).
    intros H. apply bound_in_cons. now apply IH.
Qed.

Lemma probed_under_bound (direct_ok : string -> bool) (pt : string)
    (d : list (string * value)) (r : value) :
  probed_under direct_ok pt d r -> bound_in r d.
Proof.
  intros [(L & _)|(inner & k & L & _ & Lk & _)].
  - left. exists pt. now apply lookup_In.
  - right. exists pt, inner, k. split; now apply lookup_In.
Qed.

Lemma get_found (obj : value) (k : string) (x : value) :
  get obj k (VDict []) = Ok x -> truthy x = true ->
  exists d, obj = VDict d /\ lookup k d = Some x.
Proof.
  destruct obj; try discriminate. simpl.
  destruct (lookup k d) as [y|] eqn:L; intros H T; inversion H; subst.
  - now exists d.
  - discriminate.
Qed.

Lemma homebrew_probes_source (windows : bool) (platform : string) (pd r : value) :
  homebrew_probes windows platform pd = Ok r -> r <> VNone ->
  exists d, pd = VDict d /\ bound_in r d.
Proof.
  unfold homebrew_probes. intros H Hr. bind_inv H.
  destruct (truthy a) eqn:T.
  - inversion H; subst a.
    destruct (platform =? "macOS").
    { destruct (probe_keys_source _ _ _ Ha Hr) as (d & k & E & _ & L & _).
      exists d. split; [exact E|]. left. exists k. now apply lookup_In. }
    destruct (platform =? "Linux").
    { destruct (probe_packages_source _ _ _ _ Ha Hr) as (d & pt & E & _ & P).
      exists d. split; [exact E | now apply (probed_under_bound nonempty pt)]. }
    destruct (windows && (platform =? "Windows")).
    { destruct (probe_packages_source _ _ _ _ Ha Hr) as (d & pt & E & _ & P).
      exists d. split; [exact E | now apply (probed_under_bound nonempty pt)]. }
    inversion Ha. congruence.
  - bind_inv H. inversion H; subst r.
    destruct pd; try discriminate. inversion Ha0; subst a0.
    exists d. split; [reflexivity | now apply scan_items_source].
Qed.

(** X10.  A URL returned by the desktop resolver of
    [build_homebrew_tap.py] or of [build.py] is never made up: the
    record is a mapping, its ['downloads'] is a mapping, the platform
    is bound there to a mapping, and the result is bound in that
    mapping, directly or one level down. *)
Theorem homebrew_result_is_bound :
  forall (version : value) (platform : string) (r : value),
    r <> VNone ->
    (Homebrew.get_download_url_for_platform version platform = Ok r \/
     Build.HomebrewBuilder.get_download_url_for_platform version platform = Ok r) ->
    exists v downloads pd,
      version = VDict v /\
      lookup "downloads" v = Some (VDict downloads) /\
      lookup platform downloads = Some (VDict pd) /\
      bound_in r pd.
Proof.
  intros version platform r Hr H.
  assert (Hcore : exists windows,
             (downloads <- get version "downloads" (VDict []) ;;
              platform_downloads <- get downloads platform (VDict []) ;;
              if negb (truthy platform_downloads) then Ok VNone
              else homebrew_probes windows platform platform_downloads) = Ok r).
  { destruct H as [H|H]; [exists true | exists false]; exact H. }
  destruct Hcore as [windows Hc]. clear H.
  bind_inv Hc. bind_inv Hc.
  destruct (truthy a0) eqn:T; cbn [negb] in Hc; [|inversion Hc; congruence].
  destruct (homebrew_probes_source _ _ _ _ Hc Hr) as (pd & E & Hb). subst a0.
  destruct (get_found _ _ _ Ha0 T) as (dl & E & Lp). subst a.
  assert (Tdl : truthy (VDict dl) = true) by (destruct dl; [discriminate | reflexivity]).
  destruct (get_found _ _ _ Ha Tdl) as (v & E & Ld). subst version.
  exists v, dl, pd. auto.
Qed.

Lemma homebrew_result_is_bound_witness :
  exists v downloads pd,
    macos_both = VDict v /\
    lookup "downloads" v = Some (VDict downloads) /\
    lookup "macOS" downloads = Some (VDict pd) /\
    bound_in (VStr "https://x/u") pd.
Proof.
  apply (homebrew_result_is_bound macos_both "macOS" (VStr "https://x/u"));
    [discriminate | left; reflexivity].
Defined.

(** X11.  [get_windows_download_url] only ever returns what stands
    under "exe", "msi", "msix" or "zip": a string bound there that
    starts with "http", or a true object bound one level down under
    "x86_64" or "arm64"; there is no scan of the other keys.  And a
    string starting with "http" under "exe" is returned whatever else
    the subtree holds. *)
Theorem winget_result_source :
  (forall (version r : value),
      Winget.get_windows_download_url version = Ok r -> r <> VNone ->
      exists v downloads pd pt,
        version = VDict v /\
        lookup "downloads" v = Some (VDict downloads) /\
        lookup "Windows" downloads = Some (VDict pd) /\
        In pt ["exe"; "msi"; "msix"; "zip"] /\
        probed_under (startswith "http") pt pd r) /\
  (forall (v downloads pd : list (string * value)) (u : string),
      lookup "downloads" v = Some (VDict downloads) ->
      lookup "Windows" downloads = Some (VDict pd) ->
      lookup "exe" pd = Some (VStr u) -> startswith "http" u = true ->
      Winget.get_windows_download_url (VDict v) = Ok (VStr u)).
Proof.
  split.
  - intros version r H Hr. unfold Winget.get_windows_download_url in H.
    bind_inv H. bind_inv H.
    destruct (truthy a0) eqn:T; cbn [negb] in H; [|inversion H; congruence].
    destruct (probe_packages_source _ _ _ _ H Hr) as (pd & pt & E & Hpt & P).
    subst a0.
    destruct (get_found _ _ _ Ha0 T) as (dl & E & Lp). subst a.
    assert (Tdl : truthy (VDict dl) = true)
      by (destruct dl; [discriminate | reflexivity]).
    destruct (get_found _ _ _ Ha Tdl) as (v & E & Ld). subst version.
    exists v, dl, pd, pt. auto.
  - intros v downloads pd u Hd Hp He Hu.
    unfold Winget.get_windows_download_url, get.
    rewrite Hd. cbn [bind]. rewrite Hp. cbn [bind].
    rewrite (lookup_some_nonempty _ _ _ He). cbn [negb probe_packages py_in getitem].
    rewrite He. cbn [bind]. now rewrite Hu.
Qed.

Lemma winget_result_source_witness :
  Winget.get_windows_download_url
    (version_of [("Windows", VDict [("zip", VStr "https://x/a.zip");
                                    ("exe", VStr "https://x/a.exe")])])
  = Ok (VStr "https://x/a.exe").
Proof.
  destruct winget_result_source as (_ & H).
  exact (H (version_fields [("Windows", VDict [("zip", VStr "https://x/a.zip");
                                               ("exe", VStr "https://x/a.exe")])])
           [("Windows", VDict [("zip", VStr "https://x/a.zip");
                               ("exe", VStr "https://x/a.exe")])]
           [("zip", VStr "https://x/a.zip"); ("exe", VStr "https://x/a.exe")]
           "https://x/a.exe" eq_refl eq_refl eq_refl eq_refl).
Defined.

(** X12.  For every platform other than "Windows" the resolver of
    [build_homebrew_tap.py] and the one of [build.py] give the same
    outcome on every record, exceptions included. *)
Theorem homebrew_resolvers_agree :
  forall (version : value) (platform : string),
    platform <> "Windows" ->
    Homebrew.get_download_url_for_platform version platform
    = Build.HomebrewBuilder.get_download_url_for_platform version platform.
Proof.
  intros version platform Hp.
  rewrite homebrew_unfold, build_homebrew_unfold. unfold homebrew_probes.
  apply String.eqb_neq in Hp. now rewrite Hp, !andb_false_r.
Qed.

Lemma homebrew_resolvers_agree_witness :
  Homebrew.get_download_url_for_platform macos_nested "Linux"
  = Build.HomebrewBuilder.get_download_url_for_platform macos_nested "Linux".
Proof. apply homebrew_resolvers_agree. discriminate. Defined.

(** X13.  Whatever APK the resolver of [build_fdroid_repo.py] finds,
    the resolver of [build.py] finds the same on the same record. *)
Theorem unified_apk_resolver_extends :
  forall (version r : value),
    Fdroid.get_android_download_url version = Ok r -> r <> VNone ->
    Build.FDroidBuilder.extract_apk_url version = r.
Proof.
  intros version r H Hr. unfold Fdroid.get_android_download_url in H.
  bind_inv H. bind_inv H.
  destruct (truthy a0) eqn:T; cbn [negb] in H; [|inversion H; congruence].
  bind_inv H. destruct a1; [|inversion H; congruence].
  bind_inv H. destruct (truthy a1) eqn:Tapk; [|inversion H; congruence].
  inversion H; subst a1. clear H.
  destruct a0; try discriminate.
  simpl in Ha2. destruct (lookup "apk" d) as [x|] eqn:L; [|discriminate].
  inversion Ha2; subst x.
  destruct (get_found _ _ _ Ha0 T) as (dl & E & Lp). subst a.
  assert (Tdl : truthy (VDict dl) = true)
    by (destruct dl; [discriminate | reflexivity]).
  destruct (get_found _ _ _ Ha Tdl) as (v & E & Ld). subst version.
  unfold Build.FDroidBuilder.extract_apk_url.
  rewrite Ld, Lp. cbn [probe_dict]. rewrite L, Tapk.
  destruct r; try reflexivity. discriminate.
Qed.

Lemma unified_apk_resolver_extends_witness :
  Build.FDroidBuilder.extract_apk_url android_nested = VStr "https://x/a.apk".
Proof.
  apply unified_apk_resolver_extends; [reflexivity | discriminate].
Defined.

(* ----------------------------------------------------------------- *)
(** ** Mobile resolver: shape of the result and order of the probes *)

Lemma lstrip_head (s : string) :
  lstrip s = "" \/ exists c r, lstrip s = String c r /\ is_space c = false.
Proof.
  induction s as [|c r IH]; simpl; [now left|].
  destruct (is_space c) eqn:E; [exact IH | right; now exists c, r].
Qed.

Lemma rstrip_idem (s : string) : rstrip (rstrip s) = rstrip s.
Proof.
  induction s as [|c r IH]; simpl; [reflexivity|].
  destruct (rstrip r) as [|c' r'] eqn:E.
  - destruct (is_space c) eqn:Sp; simpl; [reflexivity | now rewrite Sp].
  - cbn [rstrip]. cbn [rstrip] in IH. rewrite IH. reflexivity.
Qed.

Lemma rstrip_head (c : ascii) (r : string) :
  is_space c = false -> exists r', rstrip (String c r) = String c r'.
Proof.
  intros Sp. simpl. destruct (rstrip r) as [|c' r'].
  - rewrite Sp. now exists "".
  - now exists (String c' r').
Qed.

Lemma strip_idem (s : string) : strip (strip s) = strip s.
Proof.
  unfold strip. destruct (lstrip_head s) as [E|(c & r & E & Sp)]; rewrite E.
  - reflexivity.
  - destruct (rstrip_head c r Sp) as [r' Hr]. rewrite Hr.
    cbn [lstrip]. rewrite Sp, <- Hr. apply rstrip_idem.
Qed.

Lemma rstrip_keeps_prefix (p s : string) :
  str_forall (fun c => negb (is_space c)) p = true ->
  startswith p s = true -> startswith p (rstrip s) = true.
Proof.
  revert s. induction p as [|a p' IH]; intros s Hp H; [reflexivity|].
  destruct s as [|b s']; [discriminate|].
  simpl in H, Hp. apply andb_true_iff in H as [Hab Hrest].
  apply andb_true_iff in Hp as [Ha Hp'].
  apply Ascii.eqb_eq in Hab. subst b. apply negb_true_iff in Ha.
  specialize (IH s' Hp' Hrest). cbn [rstrip].
  destruct (rstrip s') as [|c' r'] eqn:E.
  - rewrite Ha. simpl. rewrite Ascii.eqb_refl.
    destruct p'; [reflexivity | discriminate].
  - simpl. now rewrite Ascii.eqb_refl.
Qed.

Lemma strip_keeps_http (s : string) :
  startswith "http" s = true -> startswith "http" (strip s) = true.
Proof.
  intros H. unfold strip.
  assert (E : lstrip s = s).
  { destruct s as [|c r]; [discriminate|]. cbn [startswith] in H.
    apply andb_true_iff in H as [Hc _]. apply Ascii.eqb_eq in Hc. now subst c. }
  rewrite E. now apply rstrip_keeps_prefix.
Qed.

Lemma nonempty_ne (s : string) : nonempty s = true <-> s <> "".
Proof.
  destruct s; simpl; split; intros H; try congruence; try reflexivity.
  discriminate.
Qed.

Lemma or_else_some {A : Type} (a b : option A) (u : A) :
  or_else a b = Some u -> a = Some u \/ b = Some u.
Proof. destruct a; simpl; auto. Qed.

Lemma install_probe_shape (o : option value) (u : string) :
  match o with
  | Some (VStr s) =>
      if nonempty (strip s) && startswith "http" s then Some (strip s) else None
  | _ => None
  end = Some u ->
  strip u = u /\ startswith "http" u = true.
Proof.
  destruct o as [[| | |s| |]|]; try discriminate.
  destruct (nonempty (strip s)); cbn [andb]; [|discriminate].
  destruct (startswith "http" s) eqn:S; [|discriminate].
  intros H; inversion H; subst u.
  split; [apply strip_idem | now apply strip_keeps_http].
Qed.

Lemma download_url_probe_shape (o : option value) (u : string) :
  match o with
  | Some (VStr s) =>
      if nonempty s && startswith "http" (strip s) then Some (strip s) else None
  | _ => None
  end = Some u ->
  strip u = u /\ startswith "http" u = true.
Proof.
  destruct o as [[| | |s| |]|]; try discriminate.
  destruct (nonempty s); cbn [andb]; [|discriminate].
  destruct (startswith "http" (strip s)) eqn:S; [|discriminate].
  intros H; inversion H; subst u.
  split; [apply strip_idem | exact S].
Qed.

(** X14.  What [extract_ipa_url] returns carries no white space at
    either end, and it is either the stripped string bound directly
    to [downloads['iOS']] or a string that starts with "http".  When
    [downloads['iOS']] gives nothing, a non-blank [platformInstall['iOS']]
    that starts with "http" is what is returned. *)
Theorem ipa_url_shape :
  (forall (version : value) (u : string),
      AltStore.extract_ipa_url version = Some u ->
      strip u = u /\
      ((exists v s, version = VDict v /\
                    lookup2 "downloads" "iOS" v = Some (VStr s) /\ u = strip s) \/
       startswith "http" u = true)) /\
  (forall (v : list (string * value)) (s : string),
      (forall t, lookup2 "downloads" "iOS" v = Some (VStr t) -> strip t = "") ->
      lookup2 "platformInstall" "iOS" v = Some (VStr s) ->
      strip s <> "" -> startswith "http" s = true ->
      AltStore.extract_ipa_url (VDict v) = Some (strip s)).
Proof.
  split.
  - intros version u H.
    destruct version as [| | | | |v]; try discriminate.
    rewrite extract_ipa_url_probes in H. unfold ipa_probes in H.
    apply or_else_some in H as [H|H].
    + destruct (lookup2 "downloads" "iOS" v) as [[| | |s| |]|] eqn:L1;
        try discriminate.
      destruct (nonempty (strip s)); [|discriminate].
      inversion H; subst u. split; [apply strip_idem|].
      left. now exists v, s.
    + apply or_else_some in H as [H|H];
        [apply install_probe_shape in H | apply download_url_probe_shape in H];
        destruct H as [A B]; auto.
  - intros v s Hprim Hinst Hne Hhttp.
    rewrite extract_ipa_url_probes. unfold ipa_probes. rewrite Hinst.
    apply nonempty_ne in Hne. rewrite Hne, Hhttp. cbn [andb].
    destruct (lookup2 "downloads" "iOS" v) as [[| | |t| |]|] eqn:L1;
      try reflexivity.
    rewrite (Hprim t eq_refl). reflexivity.
Qed.

Lemma ipa_url_shape_witness :
  AltStore.extract_ipa_url
    (VDict [("downloads", VDict [("iOS", VStr " ")]);
            ("platformInstall", VDict [("iOS", VStr "https://x/a.ipa ")])])
  = Some "https://x/a.ipa".
Proof.
  destruct ipa_url_shape as (_ & H).
  refine (H [("downloads", VDict [("iOS", VStr " ")]);
             ("platformInstall", VDict [("iOS", VStr "https://x/a.ipa ")])]
            "https://x/a.ipa " _ eq_refl _ eq_refl).
  - intros t E. inversion E. reflexivity.
  - discriminate.
Defined.

(* ----------------------------------------------------------------- *)
(** ** Winget: identifier, directory and manifests *)

Lemma alnum_no_dot (s : string) :
  str_forall (fun c => negb (Ascii.eqb c ".")) (str_filter is_alnum s) = true.
Proof.
  eapply str_forall_weaken; [|apply str_forall_filter].
  intros c Hc. now rewrite (alnum_not_dot c Hc).
Qed.

Lemma segment_root_relative (v : string) :
  startswith "/" v = false -> segment_root v = "".
Proof.
  intros H. unfold segment_root. rewrite H.
  destruct v as [|c r]; [reflexivity|].
  cbn [startswith] in *. apply andb_false_iff in H as [H|H]; [|discriminate].
  now rewrite H.
Qed.

Lemma segment_root_absolute (v : string) :
  startswith "/" v = true -> (segment_root v =? "") = false.
Proof.
  intros H. unfold segment_root. rewrite H.
  now destruct (startswith "//" v && negb (startswith "///" v)).
Qed.

(** X15.  The manifest directory of an identifier built by
    [sanitize_package_id] is, below [manifests], the cleaned publisher,
    the cleaned title-cased name and the components of the version
    string; an empty publisher or name adds no component, and a
    version string that starts with "/" replaces the whole path.  An
    identifier without any dot is filed under the publisher "OpenLyst"
    with the whole identifier as package name. *)
Theorem manifest_directory_of_identifier :
  (forall (output_dir : path) (mkdir : path -> result unit)
          (name publisher v : string) (dir : path),
      Winget.create_manifest_directory output_dir mkdir
        (Winget.sanitize_package_id name publisher) (VStr v) = Ok dir ->
      mkdir dir = Ok tt /\
      (startswith "/" v = false ->
       path_root dir = path_root (Winget.manifests_dir output_dir) /\
       path_parts dir
       = path_parts (Winget.manifests_dir output_dir)
         ++ present (str_filter is_alnum publisher)
         ++ present (str_filter is_alnum (title name))
         ++ segment_parts v) /\
      (startswith "/" v = true ->
       path_root dir = segment_root v /\ path_parts dir = segment_parts v)) /\
  (forall (output_dir : path) (mkdir : path -> result unit)
          (package_id v : string) (dir : path),
      str_forall (fun c => negb (Ascii.eqb c ".")) package_id = true ->
      Winget.create_manifest_directory output_dir mkdir package_id (VStr v)
      = Ok dir ->
      dir = path_join
              (path_join (path_join (Winget.manifests_dir output_dir) "OpenLyst")
                 package_id) v).
Proof.
  split.
  - intros output_dir mkdir name publisher v dir H.
    apply manifest_directory_path in H as [Hm Hd]. split; [exact Hm|].
    subst dir. unfold path_join. split; intros Hv.
    + rewrite (segment_root_relative v Hv). cbn [String.eqb path_root path_parts].
      split; [reflexivity | now rewrite <- !app_assoc].
    + rewrite (segment_root_absolute v Hv). cbn [path_root path_parts]. auto.
  - intros output_dir mkdir package_id v dir Hdot H.
    unfold Winget.create_manifest_directory, Winget.manifest_components in H.
    rewrite (split_no_sep _ _ Hdot) in H. cbn in H.
    destruct (mkdir _) as [[]|e]; cbn in H; [|discriminate].
    now inversion H.
Qed.

Lemma manifest_directory_of_identifier_witness :
  path_parts
    {| path_root := "";
       path_parts := ["out"; "manifests"; "OpenLyst"; "MyApp"; "2"; "1.0"] |}
  = path_parts (Winget.manifests_dir sample_output_dir)
    ++ present "OpenLyst" ++ present "MyApp" ++ segment_parts "2//./1.0".
Proof.
  destruct manifest_directory_of_identifier as (H & _).
  destruct (H sample_output_dir sample_mkdir "my app" "Open-Lyst" "2//./1.0"
              {| path_root := "";
                 path_parts := ["out"; "manifests"; "OpenLyst"; "MyApp"; "2"; "1.0"] |}
              eq_refl) as (_ & Hrel & _).
  exact (proj2 (Hrel eq_refl)).
Defined.

Lemma lookup_set_version (d : list (string * value)) (v : value) :
  lookup "version"
    (map (fun kv => if fst kv =? "version" then (fst kv, v) else kv) d)
  = match lookup "version" d with Some _ => Some v | None => None end.
Proof.
  induction d as [|[k x] rest IH]; simpl; [reflexivity|].
  destruct (k =? "version") eqn:E; simpl; rewrite E; [reflexivity | exact IH].
Qed.

Lemma lookup_set_version_other (d : list (string * value)) (v : value) (k : string) :
  k <> "version" ->
  lookup k (map (fun kv => if fst kv =? "version" then (fst kv, v) else kv) d)
  = lookup k d.
Proof.
  intros Hk. induction d as [|[k' x] rest IH]; simpl; [reflexivity|].
  destruct (k' =? "version") eqn:E; simpl.
  - apply String.eqb_eq in E. subst k'.
    assert (("version" =? k) = false) as -> by (apply String.eqb_neq; congruence).
    exact IH.
  - destruct (k' =? k); [reflexivity | exact IH].
Qed.

Lemma lookup_app_none (k : string) (d1 d2 : list (string * value)) :
  lookup k d1 = None -> lookup k (d1 ++ d2) = lookup k d2.
Proof.
  induction d1 as [|[k' x] rest IH]; simpl; [reflexivity|].
  destruct (k' =? k); [discriminate | exact IH].
Qed.

Lemma lookup_app_other (k k' : string) (d : list (string * value)) (v : value) :
  k <> k' -> lookup k (d ++ [(k', v)]) = lookup k d.
Proof.
  intros Hk. induction d as [|[k0 x] rest IH]; simpl.
  - assert ((k' =? k) = false) as -> by (apply String.eqb_neq; congruence).
    reflexivity.
  - destruct (k0 =? k); [reflexivity | exact IH].
Qed.

Lemma with_version_lookup (app version_str a' : value) :
  Winget.with_version app version_str = Ok a' ->
  exists d d', app = VDict d /\ a' = VDict d' /\
               lookup "version" d' = Some version_str /\
               forall k, k <> "version" -> lookup k d' = lookup k d.
Proof.
  unfold Winget.with_version. destruct app; try discriminate.
  intros H; inversion H; subst a'. clear H.
  exists d. eexists. split; [reflexivity|]. split; [reflexivity|].
  destruct (lookup "version" d) eqn:L.
  - split; [now rewrite lookup_set_version, L|].
    intros k Hk. now apply lookup_set_version_other.
  - split.
    + rewrite (lookup_app_none _ _ _ L). reflexivity.
    + intros k Hk. now apply lookup_app_other.
Qed.

(** X16.  [{**app, 'version': version_str}] binds 'version' to the
    newest version string and leaves every other key as it was, so
    the installer manifest built from it carries that version string
    even when the application record has a 'version' of its own. *)
Theorem with_version_overrides :
  forall (app version_str a' : value) (package_id : string),
    Winget.with_version app version_str = Ok a' ->
    get a' "version" (VStr "1.0.0") = Ok version_str /\
    (forall k default, k <> "version" -> get a' k default = get app k default) /\
    Winget.generate_installer_manifest a' package_id
    = Ok (VDict [("PackageIdentifier", VStr package_id);
                 ("PackageVersion", version_str);
                 ("ManifestType", VStr "installer");
                 ("ManifestVersion", VStr "1.4.0")]).
Proof.
  intros app version_str a' package_id H.
  destruct (with_version_lookup _ _ _ H) as (d & d' & -> & -> & Lv & Lo).
  assert (Hget : get (VDict d') "version" (VStr "1.0.0") = Ok version_str)
    by (simpl; now rewrite Lv).
  split; [exact Hget|]. split.
  - intros k default Hk. simpl. now rewrite (Lo k Hk).
  - unfold Winget.generate_installer_manifest. now rewrite Hget.
Qed.

Lemma with_version_overrides_witness :
  get (VDict [("version", VStr "2.0"); ("name", VStr "A")]) "version"
    (VStr "1.0.0") = Ok (VStr "2.0").
Proof.
  exact (proj1 (with_version_overrides
                  (VDict [("version", VStr "0.1"); ("name", VStr "A")])
                  (VStr "2.0")
                  (VDict [("version", VStr "2.0"); ("name", VStr "A")])
                  "OpenLyst.A" eq_refl)).
Defined.

Lemma installer_type_returns (urlparse_path : string -> result string)
    (u p : string) :
  urlparse_path u = Ok p ->
  exists t, Winget.determine_installer_type urlparse_path (VStr u) = Ok t /\
            In t ["msi"; "msix"; "exe"; "zip"].
Proof.
  intros H. unfold Winget.determine_installer_type. cbn [as_str bind].
  rewrite H. cbn [bind].
  destruct (Winget.endswith ".msi" (lower p)); [eexists; split; [reflexivity | simpl; tauto]|].
  destruct (Winget.endswith ".msix" (lower p)); [eexists; split; [reflexivity | simpl; tauto]|].
  destruct (Winget.endswith ".exe" (lower p)); [eexists; split; [reflexivity | simpl; tauto]|].
  destruct (Winget.endswith ".zip" (lower p)); eexists; split;
    try reflexivity; simpl; tauto.
Qed.

Lemma locale_manifest_returns (d : list (string * value)) (name : value)
    (package_id : string) :
  lookup "name" d = Some name ->
  exists m, Winget.generate_default_locale_manifest (VDict d) package_id = Ok m.
Proof.
  intros H. unfold Winget.generate_default_locale_manifest, get, getitem, get_with.
  rewrite H. cbn [bind]. eexists. reflexivity.
Qed.

(** X17.  [generate_manifests] reports success on a non-empty version
    list exactly when the application and its newest version are
    mappings, 'platforms' of that version contains "Windows", the
    application's 'name' and the version's 'version' are strings, the
    Windows resolver returns a non-empty string, that string parses
    as a URL, the manifest directory (which holds the version string)
    can be created and the three manifest files can be written in
    it.  In every other case it returns False or lets an exception of
    the statements before its [try] through. *)
Theorem winget_written_iff :
  forall (urlparse_path : string -> result string) (output_dir : path)
         (mkdir write_file : path -> result unit)
         (app latest_version : value) (rest : list value),
    Winget.generate_manifests urlparse_path output_dir mkdir write_file
      app (latest_version :: rest) = Ok true
    <->
    exists (a lv : list (string * value)) (platforms : value)
           (n ver u p : string) (dir : path),
      app = VDict a /\ latest_version = VDict lv /\
      get latest_version "platforms" (VList []) = Ok platforms /\
      py_in "Windows" platforms = Ok true /\
      lookup "name" a = Some (VStr n) /\
      lookup "version" lv = Some (VStr ver) /\
      Winget.get_windows_download_url latest_version = Ok (VStr u) /\
      u <> "" /\ urlparse_path u = Ok p /\
      Winget.create_manifest_directory output_dir mkdir
        (Winget.sanitize_package_id n Winget.default_publisher) (VStr ver)
      = Ok dir /\
      write_file
        (path_join dir
           (Winget.sanitize_package_id n Winget.default_publisher
            ++ ".installer.yaml")) = Ok tt /\
      write_file
        (path_join dir
           (Winget.sanitize_package_id n Winget.default_publisher
            ++ ".locale.en-US.yaml")) = Ok tt /\
      write_file
        (path_join dir
           (Winget.sanitize_package_id n Winget.default_publisher ++ ".yaml"))
      = Ok tt.
Proof.
  intros urlparse_path output_dir mkdir write_file app latest_version rest. split.
  - unfold Winget.generate_manifests. intros H.
    bind_as H platforms Hps. bind_as H supported Hin.
    destruct supported; cbn [negb] in H; [|bind_inv H; discriminate].
    destruct (_ <- getitem app "name" ;; _) as [b|e] eqn:Body;
      cbn [try_catch] in H; [|bind_inv H; discriminate].
    inversion H; subst b. clear H.
    bind_as Body name Hname. bind_as Body n Hn.
    bind_as Body version_str Hver. bind_as Body dir Hdir.
    bind_as Body manifest Hman. bind_as Body app_with_version Hwith.
    bind_as Body locale Hlocale. bind_as Body installer Hinstaller.
    bind_as Body w1 Hw1. bind_as Body w2 Hw2. bind_as Body w3 Hw3. clear Body.
    destruct w1, w2, w3.
    destruct app as [| | | | |d]; try discriminate.
    simpl in Hname. destruct (lookup "name" d) as [nm|] eqn:Ln; [|discriminate].
    inversion Hname; subst nm. destruct name; try discriminate.
    inversion Hn; subst n.
    destruct latest_version as [| | | | |lv]; try discriminate.
    simpl in Hver. destruct (lookup "version" lv) as [vv|] eqn:Lv; [|discriminate].
    inversion Hver; subst vv.
    assert (Hstr : exists ver, version_str = VStr ver).
    { unfold Winget.create_manifest_directory in Hdir.
      destruct (Winget.manifest_components _) as [pub pkg].
      destruct version_str as [| | |ver| |]; try discriminate. now exists ver. }
    destruct Hstr as [ver ->].
    unfold Winget.generate_version_manifest in Hman.
    bind_as Hman download_url Hurl.
    destruct (truthy download_url) eqn:T; cbn [negb] in Hman;
      [|bind_inv Hman; discriminate].
    bind_as Hman installer_type Htype.
    unfold Winget.determine_installer_type in Htype.
    bind_as Htype u Hu. destruct download_url; try discriminate.
    inversion Hu; subst u.
    bind_as Htype url_path Hpath.
    exists d, lv, platforms, s, ver, s0, url_path, dir.
    repeat split; auto. now apply truthy_str_nonempty.
  - intros (a & lv & platforms & n & ver & u & p & dir & -> & -> & Hps & Hin & Ln
            & Lv & Hurl & Hu & Hparse & Hdir & Hw1 & Hw2 & Hw3).
    unfold Winget.generate_manifests.
    rewrite Hps. cbn [bind]. rewrite Hin. cbn [bind negb].
    match goal with
    | |- try_catch ?c _ = _ => assert (Body : c = Ok true)
    end.
    { cbn [getitem]. rewrite Ln, Lv. cbn [bind as_str].
      rewrite Hdir. cbn [bind].
      unfold Winget.generate_version_manifest. rewrite Hurl. cbn [bind].
      assert (T : truthy (VStr u) = true)
        by (destruct u; [congruence | reflexivity]).
      rewrite T. cbn [negb].
      destruct (installer_type_returns urlparse_path u p Hparse) as (t & Ht & _).
      rewrite Ht. cbn [bind getitem]. rewrite Lv. cbn [bind].
      destruct (Winget.with_version (VDict a) (VStr ver)) as [a'|e] eqn:W;
        [|discriminate].
      destruct (with_version_lookup _ _ _ W) as (d & d' & E & -> & Lver & Lo).
      inversion E; subst d. cbn [bind].
      assert (Ln' : lookup "name" d' = Some (VStr n))
        by (rewrite Lo; [exact Ln | discriminate]).
      destruct (locale_manifest_returns d' _
                  (Winget.sanitize_package_id n Winget.default_publisher) Ln')
        as [m Hm].
      rewrite Hm. cbn [bind].
      unfold Winget.generate_installer_manifest, get. cbn [bind].
      rewrite Hw1. cbn [bind]. rewrite Hw2. cbn [bind]. rewrite Hw3.
      reflexivity. }
    rewrite Body. reflexivity.
Qed.

Lemma winget_written_iff_witness :
  Winget.generate_manifests sample_urlparse_path sample_output_dir sample_mkdir
    sample_write_file (app_of "good" "Good App") [full_version] = Ok true.
Proof.
  apply (proj2 (winget_written_iff sample_urlparse_path sample_output_dir
                  sample_mkdir sample_write_file (app_of "good" "Good App")
                  full_version [])).
  exists [("slug", VStr "good"); ("name", VStr "Good App")],
    (version_fields [("Android", VDict [("apk", VStr "https://x/a.apk")]);
                     ("Windows", VDict windows_subtree);
                     ("macOS", VDict macos_subtree)]),
    (VList [VStr "Android"; VStr "macOS"; VStr "Windows"]),
    "Good App", "1.0", "https://x/a.exe", "https://x/a.exe",
    {| path_root := "";
       path_parts := ["out"; "manifests"; "OpenLyst"; "GoodApp"; "1.0"] |}.
  repeat split; discriminate.
Defined.

(* ----------------------------------------------------------------- *)
(** ** F-Droid: when an application is written *)



(* ----------------------------------------------------------------- *)
(** *** build.py: the Homebrew target and the exit code *)


(** X20. [main] of build.py exits with 0 exactly when every selected
    target succeeded, the homebrew target succeeding when the build of
    at least one requested platform did.  In particular a [--target]
    that names none of the three targets builds nothing and exits
    with 0. *)
Theorem unified_main_exit_zero_iff (target platform : string)
    (altstore_build fdroid_build : bool) (homebrew_build : string -> bool) :
  let targets := Build.parse_targets target in
  Build.main target platform altstore_build fdroid_build homebrew_build = 0%Z
  <-> (Build.selected "altstore" targets = true -> altstore_build = true) /\
      (Build.selected "fdroid" targets = true -> fdroid_build = true) /\
      (Build.selected "homebrew" targets = true ->
       ((platform = "macOS" \/ platform = "both") /\
        homebrew_build "macOS" = true) \/
       ((platform = "Linux" \/ platform = "both") /\
        homebrew_build "Linux" = true)).
Proof.
  intros targets. unfold Build.main. fold targets.
  unfold Build.homebrew_results.
  cbn [existsb]. rewrite !orb_false_r.
  destruct (Build.selected "altstore" targets);
    destruct (Build.selected "fdroid" targets);
    destruct (Build.selected "homebrew" targets);
    destruct altstore_build; destruct fdroid_build;
    destruct (String.eqb_spec platform "macOS") as [Pm|Pm];
    destruct (String.eqb_spec platform "Linux") as [Pl|Pl];
    destruct (String.eqb_spec platform "both") as [Pb|Pb];
    try (exfalso; congruence);
    destruct (homebrew_build "macOS"); destruct (homebrew_build "Linux");
    cbn; split; intros H;
    try discriminate; try reflexivity;
    try (repeat split; intros; try reflexivity; try discriminate; tauto);
    try (exfalso; destruct H as (Ha & Hf & Hh);
         try (specialize (Ha eq_refl); discriminate);
         try (specialize (Hf eq_refl); discriminate);
         destruct (Hh eq_refl) as [[[?|?] ?]|[[?|?] ?]];
         congruence).
Qed.

(* ----------------------------------------------------------------- *)
(** ** AltStore: the application entry and the repository document *)

Lemma extract_ipa_url_mapping (version : value) (u : string) :
  AltStore.extract_ipa_url version = Some u -> exists d, version = VDict d.
Proof. destruct version; try discriminate. intros _. now eexists. Qed.

Lemma traverse_forall2 {A B : Type} (f : A -> result B) (l : list A)
    (ys : list B) :
  AltStore.traverse f l = Ok ys -> Forall2 (fun x y => f x = Ok y) l ys.
Proof.
  revert ys. induction l as [|x rest IH]; intros ys H; cbn [AltStore.traverse] in H.
  - inversion H. constructor.
  - bind_as H y Hy. bind_as H zs Hzs. inversion H; subst ys.
    constructor; [exact Hy | now apply IH].
Qed.

Section AltStoreFacts.

Variable show : value -> string.
Variable get_app_versions : value -> result (list value).
Variable get_file_size : string -> value.
Variable now : nat -> string.

Lemma add_version_app (acc : list value) (turn : nat * value) :
  AltStore.add_version show get_file_size now acc turn
  = acc ++ AltStore.add_version show get_file_size now [] turn.
Proof.
  destruct turn as [i v]. unfold AltStore.add_version.
  destruct v; try (now rewrite app_nil_r).
  destruct (AltStore.extract_ipa_url _); [|now rewrite app_nil_r].
  destruct (nonempty s); [reflexivity | now rewrite app_nil_r].
Qed.

Lemma fold_add_version (turns : list (nat * value)) (acc : list value) :
  fold_left (AltStore.add_version show get_file_size now) turns acc
  = acc ++ flat_map (AltStore.add_version show get_file_size now []) turns.
Proof.
  revert acc. induction turns as [|t rest IH]; intros acc; cbn [fold_left flat_map].
  - now rewrite app_nil_r.
  - rewrite IH, add_version_app, <- app_assoc. reflexivity.
Qed.

Lemma download_url_of (i : nat) (d : list (string * value)) (u : string) :
  get (AltStore.altstore_version show get_file_size now i d u) "downloadURL" VNone
  = Ok (VStr u).
Proof.
  unfold AltStore.altstore_version.
  destruct (truthy (get_file_size u));
    destruct (AltStore.get_or d "localizedDescription" VNone) as [| | |s| |];
    try destruct (nonempty s); reflexivity.
Qed.

Lemma urls_of_turns (vs : list value) (n : nat) :
  map (fun v => get v "downloadURL" VNone)
      (flat_map (AltStore.add_version show get_file_size now [])
                (combine (seq n (List.length vs)) vs))
  = map (fun u => Ok (VStr u))
        (flat_map (fun v => match AltStore.extract_ipa_url v with
                            | Some u => [u]
                            | None => []
                            end) vs).
Proof.
  revert n. induction vs as [|v rest IH]; intros n; [reflexivity|].
  cbn [List.length seq combine flat_map]. rewrite !map_app, IH. f_equal.
  unfold AltStore.add_version.
  destruct (AltStore.extract_ipa_url v) as [u|] eqn:E.
  - destruct (extract_ipa_url_mapping _ _ E) as [d ->].
    rewrite (proj2 (nonempty_ne u) (extract_ipa_url_nonempty _ _ E)).
    cbn [app map]. now rewrite download_url_of.
  - destruct v; reflexivity.
Qed.

Lemma length_flat_add (turns : list (nat * value)) :
  (List.length (flat_map (AltStore.add_version show get_file_size now []) turns)
   <= List.length turns)%nat.
Proof.
  induction turns as [|[i v] rest IH]; [simpl; lia|].
  cbn [flat_map]. rewrite length_app. cbn [List.length].
  assert (List.length (AltStore.add_version show get_file_size now [] (i, v)) <= 1)%nat.
  { unfold AltStore.add_version.
    destruct v as [| | | | |d]; try (simpl; lia).
    destruct (AltStore.extract_ipa_url (VDict d)) as [u|]; [|simpl; lia].
    destruct (nonempty u); [rewrite length_app|]; simpl; lia. }
  lia.
Qed.

Lemma app_loop_entries (apps : list value) :
  forall acc r,
    AltStore.app_loop show get_app_versions get_file_size now apps acc = Ok r ->
    r = acc ++ altstore_entries
                 (AltStore.build_app_entry show get_app_versions get_file_size now)
                 apps.
Proof.
  induction apps as [|app rest IH]; intros acc r H; cbn [AltStore.app_loop] in H.
  - inversion H. unfold altstore_entries. simpl. now rewrite app_nil_r.
  - bind_as H acc' Hacc. apply IH in H. subst r.
    unfold altstore_entries. cbn [flat_map]. fold (altstore_entries
      (AltStore.build_app_entry show get_app_versions get_file_size now) rest).
    rewrite app_assoc. f_equal.
    unfold AltStore.add_app in Hacc.
    destruct app as [| | | | |a]; try discriminate.
    cbn [get bind] in Hacc.
    destruct (lookup "slug" a) as [s|].
    + destruct (truthy s); cbn [negb andb] in *.
      * destruct (truthy (AltStore.build_app_entry show get_app_versions
                            get_file_size now (VDict a) s));
          inversion Hacc; subst acc'; rewrite ?app_nil_r; reflexivity.
      * inversion Hacc. now rewrite app_nil_r.
    + cbn [truthy negb] in Hacc. inversion Hacc. now rewrite app_nil_r.
Qed.

Lemma app_loop_raises (app : value) (apps : list value) :
  In app apps -> (forall d, app <> VDict d) ->
  forall acc, exists e,
    AltStore.app_loop show get_app_versions get_file_size now apps acc = Raise e.
Proof.
  intros Hin Hnd. induction apps as [|x rest IH]; [contradiction|].
  intros acc. cbn [AltStore.app_loop].
  destruct (AltStore.add_app show get_app_versions get_file_size now acc x)
    as [acc'|e] eqn:A.
  - cbn [bind]. destruct Hin as [->|Hin]; [|now apply IH].
    exfalso. unfold AltStore.add_app in A.
    destruct app as [| | | | |d]; try discriminate. exact (Hnd d eq_refl).
  - exists e. reflexivity.
Qed.

End AltStoreFacts.

(** X21. [build_app_entry] of build_altstore_repo.py, for an
    application that is a mapping and whose versions were fetched:
    it returns [None] when none of the ten newest versions has a
    download address; otherwise the entry lists between one and ten
    versions, whose [downloadURL]s are exactly the addresses that
    [extract_ipa_url] finds among the ten newest versions, in order. *)
Theorem altstore_entry_versions
    (show : value -> string) (get_app_versions : value -> result (list value))
    (get_file_size : string -> value) (now : nat -> string)
    (a : list (string * value)) (slug : value) (versions : list value) :
  get_app_versions slug = Ok versions ->
  let entry :=
    AltStore.build_app_entry show get_app_versions get_file_size now
      (VDict a) slug in
  (resolved_ipa_urls versions = [] -> entry = VNone) /\
  (resolved_ipa_urls versions <> [] ->
   exists e vs,
     entry = VDict e /\
     lookup "versions" e = Some (VList vs) /\
     map (fun v => get v "downloadURL" VNone) vs
     = map (fun u => Ok (VStr u)) (resolved_ipa_urls versions) /\
     (1 <= List.length vs <= 10)%nat).
Proof.
  intros Hv entry. subst entry. unfold AltStore.build_app_entry.
  rewrite Hv. cbn [bind]. rewrite fold_add_version. cbn [app].
  unfold AltStore.enumerate.
  pose proof (urls_of_turns show get_file_size now (firstn 10 versions) 0) as U.
  pose proof (length_flat_add show get_file_size now
                (combine (seq 0 (List.length (firstn 10 versions)))
                         (firstn 10 versions))) as Len.
  rewrite length_combine, length_seq, Nat.min_id in Len.
  pose proof (firstn_le_length 10 versions) as Len10.
  fold (resolved_ipa_urls versions) in U.
  set (L := flat_map _ _) in *.
  destruct versions as [|v0 vs0].
  { split; [reflexivity|]. intros N. now elim N. }
  set (versions := v0 :: vs0) in *.
  destruct L as [|x xs] eqn:EL.
  - split; [reflexivity|]. intros N.
    destruct (resolved_ipa_urls versions); [now elim N | discriminate].
  - split.
    + intros R. rewrite R in U. discriminate.
    + intros _. cbn [get get_with bind].
      destruct (lookup "screenshots" a) as [shots|] eqn:S.
      * destruct (truthy shots).
        -- cbn [getitem]. rewrite S. cbn [bind try_except].
           eexists _, (x :: xs). split; [reflexivity|].
           split; [reflexivity|]. split; [exact U|].
           cbn [List.length] in *. lia.
        -- cbn [try_except].
           eexists _, (x :: xs). split; [reflexivity|].
           split; [reflexivity|]. split; [exact U|].
           cbn [List.length] in *. lia.
      * cbn [truthy try_except].
        eexists _, (x :: xs). split; [reflexivity|].
        split; [reflexivity|]. split; [exact U|].
        cbn [List.length] in *. lia.
Qed.

Lemma altstore_entry_versions_witness :
  exists e vs,
    AltStore.build_app_entry (fun _ => "1") (fun _ => Ok
        [VDict [("version", VStr "2.0");
                ("downloads", VDict [("iOS", VStr " https://x/b.ipa")])];
         VStr "draft";
         VDict [("version", VStr "1.0"); ("downloadURL", VStr "https://x/a.ipa")]])
      (fun _ => VInt 7) (fun _ => "2026-01-01T00:00:00")
      (VDict [("name", VStr "Docs")]) (VStr "docs") = VDict e /\
    lookup "versions" e = Some (VList vs) /\
    map (fun v => get v "downloadURL" VNone) vs
    = [Ok (VStr "https://x/b.ipa"); Ok (VStr "https://x/a.ipa")] /\
    (1 <= List.length vs <= 10)%nat.
Proof.
  refine (proj2 (altstore_entry_versions (fun _ => "1") (fun _ => Ok
        [VDict [("version", VStr "2.0");
                ("downloads", VDict [("iOS", VStr " https://x/b.ipa")])];
         VStr "draft";
         VDict [("version", VStr "1.0"); ("downloadURL", VStr "https://x/a.ipa")]])
      (fun _ => VInt 7) (fun _ => "2026-01-01T00:00:00")
      [("name", VStr "Docs")] (VStr "docs") _ eq_refl) _).
  vm_compute. discriminate.
Defined.

(** X22. When [build_repository] of build_altstore_repo.py succeeds,
    the document it writes lists under [apps] the entries of exactly
    the applications that have a slug and an entry, in the order of
    the catalogue, and there is at least one; [featuredApps] holds the
    bundle identifiers of the first five of them; and the repository
    is named after the last application of the catalogue, the fixed
    title being used only when that application has no name. *)
Theorem altstore_repository_document
    (show : value -> string) (get_app_versions : value -> result (list value))
    (get_file_size : string -> value) (now : nat -> string)
    (urljoin : string -> string -> result string) (base_repo_url : string)
    (apps : list value) (doc : value) :
  AltStore.build_repository show get_app_versions get_file_size now urljoin
    base_repo_url apps = Some doc ->
  let entries :=
    altstore_entries
      (AltStore.build_app_entry show get_app_versions get_file_size now) apps in
  entries <> [] /\
  get doc "apps" VNone = Ok (VList entries) /\
  (exists featured,
      get doc "featuredApps" VNone = Ok (VList featured) /\
      Forall2 (fun entry b => getitem entry "bundleIdentifier" = Ok b)
              (firstn 5 entries) featured) /\
  get doc "name" VNone
  = get (last apps VNone) "name" (VStr "OpenLyst iOS Apps").
Proof.
  intros H entries. unfold AltStore.build_repository in H.
  destruct apps as [|app0 rest]; [discriminate|].
  set (apps := app0 :: rest) in *.
  destruct (AltStore.app_loop show get_app_versions get_file_size now apps [])
    as [r|e] eqn:L; [|discriminate].
  apply app_loop_entries in L. cbn [app] in L. fold entries in L. subst r.
  cbn [bind] in H.
  destruct entries as [|e0 es] eqn:E; [discriminate|].
  destruct (get (last apps VNone) "name" (VStr "OpenLyst iOS Apps"))
    as [name|] eqn:N; [|discriminate].
  cbn [bind] in H.
  destruct (urljoin base_repo_url "icon.png") as [icon|]; [|discriminate].
  cbn [bind] in H.
  destruct (urljoin base_repo_url "header.png") as [header|]; [|discriminate].
  cbn [bind] in H.
  destruct (AltStore.traverse _ _) as [featured|] eqn:T; [|discriminate].
  cbn [bind] in H.
  destruct (urljoin base_repo_url "apps.json") as [index|]; [|discriminate].
  cbn [bind try_except] in H. inversion H; subst doc; clear H.
  split; [discriminate|]. split; [reflexivity|]. split; [|reflexivity].
  exists featured. split; [reflexivity|]. now apply traverse_forall2.
Qed.

Lemma altstore_repository_document_witness :
  get (VDict [("name", VStr "Notes");
              ("subtitle", VStr "Free and open source iOS applications");
              ("description",
               VStr "A curated collection of free and open source iOS applications from OpenLyst.");
              ("iconURL", VStr "https://r/icon.png");
              ("headerURL", VStr "https://r/header.png");
              ("website", VStr "https://openlyst.ink");
              ("tintColor", VStr "#dc2626");
              ("featuredApps", VList [VStr "docs"]);
              ("apps",
               VList [VDict [("name", VStr "Docs");
                             ("bundleIdentifier", VStr "docs");
                             ("developerName", VStr "OpenLyst Developer");
                             ("subtitle", VStr "An app from OpenLyst");
                             ("localizedDescription",
                              VStr "A free and open source app");
                             ("iconURL", VStr "");
                             ("tintColor", VStr "#dc2626");
                             ("category", VStr "other");
                             ("versions",
                              VList [VDict [("version", VStr "1.0");
                                            ("buildVersion", VStr "1");
                                            ("date", VStr "2026-01-01T00:00:00");
                                            ("downloadURL",
                                             VStr "https://x/a.ipa")]])]]);
              ("news", VList [])]) "name" VNone
  = Ok (VStr "Notes").
Proof.
  refine (proj2 (proj2 (proj2 (altstore_repository_document
    (fun _ => "1")
    (fun slug => match slug with
                 | VStr "docs" =>
                     Ok [VDict [("version", VStr "1.0");
                                ("downloadURL", VStr "https://x/a.ipa")]]
                 | _ => Ok []
                 end)
    (fun _ => VNone) (fun _ => "2026-01-01T00:00:00")
    (fun base file => Ok (base ++ file)%string) "https://r/"
    [VDict [("slug", VStr "docs"); ("name", VStr "Docs")];
     VDict [("slug", VStr "notes"); ("name", VStr "Notes")]]
    _ eq_refl)))).
Defined.

(** X23. [build_repository] of build_altstore_repo.py fails as soon
    as the catalogue holds one entry that is not a mapping, whatever
    the other applications are: nothing isolates the loop from it. *)
Theorem altstore_repository_needs_mappings
    (show : value -> string) (get_app_versions : value -> result (list value))
    (get_file_size : string -> value) (now : nat -> string)
    (urljoin : string -> string -> result string) (base_repo_url : string)
    (app : value) (apps : list value) :
  In app apps -> (forall d, app <> VDict d) ->
  AltStore.build_repository show get_app_versions get_file_size now urljoin
    base_repo_url apps = None.
Proof.
  intros Hin Hnd. unfold AltStore.build_repository.
  destruct (app_loop_raises show get_app_versions get_file_size now
              app apps Hin Hnd []) as [e He].
  destruct apps as [|x rest]; [reflexivity|].
  rewrite He. reflexivity.
Qed.

Lemma altstore_repository_needs_mappings_witness :
  AltStore.build_repository (fun _ => "1")
    (fun _ => Ok [VDict [("downloadURL", VStr "https://x/a.ipa")]])
    (fun _ => VNone) (fun _ => "2026-01-01T00:00:00")
    (fun base file => Ok (base ++ file)%string) "https://r/"
    [VDict [("slug", VStr "docs")]; VStr "notes"] = None.
Proof.
  apply (altstore_repository_needs_mappings _ _ _ _ _ _ (VStr "notes")).
  - right. left. reflexivity.
  - intros d. discriminate.
Defined.

(* ----------------------------------------------------------------- *)
(** ** Homebrew: the generator of build.py against the stand-alone one *)

Lemma homebrew_resolvers_same (version : value) (platform : string) :
  platform <> "Windows" ->
  Homebrew.get_download_url_for_platform version platform
  = Build.HomebrewBuilder.get_download_url_for_platform version platform.
Proof.
  intros Hp. rewrite homebrew_unfold, build_homebrew_unfold.
  unfold homebrew_probes.
  apply String.eqb_neq in Hp. now rewrite Hp, !andb_false_r.
Qed.

(** X24. Every formula that [generate_formula] of
    build_homebrew_tap.py writes, [HomebrewBuilder.generate_formula]
    of build.py writes too, for a platform other than "Windows" and
    provided its own formula file (named after the class, with the
    suffix "-linux" for the platform "Linux") can be written: the
    unified generator asks for nothing more of an application and its
    newest version. *)
Theorem unified_formula_extends
    (urlparse_path : string -> result string) (path_suffix : string -> string)
    (tap_output_dir output_dir : path)
    (tap_write_file write_file : path -> result unit)
    (app : value) (versions : list value) (platform : string) :
  platform <> "Windows" ->
  Homebrew.generate_formula urlparse_path path_suffix tap_output_dir
    tap_write_file app versions platform = Ok true ->
  (forall n, getitem app "name" = Ok (VStr n) ->
     write_file
       (Build.HomebrewBuilder.formula_path output_dir
          (Build.sanitize_name n "class") platform) = Ok tt) ->
  Build.HomebrewBuilder.generate_formula urlparse_path output_dir write_file
    app versions platform = Ok true.
Proof.
  intros Hp H Hwrite. unfold Homebrew.generate_formula in H.
  unfold Build.HomebrewBuilder.generate_formula.
  destruct versions as [|latest_version rest]; [bind_inv H; discriminate|].
  bind_as H platforms Hps. bind_as H supported Hin.
  rewrite Hps. cbn [bind]. rewrite Hin. cbn [bind].
  destruct supported; cbn [negb] in *; [|bind_inv H; discriminate].
  destruct (_ <- Homebrew.generate_formula_content _ _ _ _ _ ;; _)
    as [b|e] eqn:Body; cbn [try_catch] in H; [|bind_inv H; discriminate].
  clear H. bind_as Body content Hc. clear Body.
  unfold Homebrew.generate_formula_content in Hc.
  bind_as Hc name Hname. bind_as Hc n Hn. bind_as Hc class_name Hclass.
  bind_as Hc download_url Hurl.
  destruct (truthy download_url) eqn:T; cbn [negb] in Hc; [|discriminate].
  bind_as Hc u Hu. bind_as Hc url_path Hpath. bind_as Hc formula_type Hft.
  bind_as Hc website Hweb. bind_as Hc subtitle Hsub. bind_as Hc desc Hdesc.
  bind_as Hc ver Hver. clear Hc.
  assert (Hstr : name = VStr n) by (destruct name; now inversion Hn).
  subst name.
  unfold Build.HomebrewBuilder.generate_formula_content.
  rewrite Hname. cbn [bind]. rewrite Hn. cbn [bind].
  rewrite <- (homebrew_resolvers_same _ _ Hp), Hurl. cbn [bind].
  rewrite T. cbn [negb]. rewrite Hu. cbn [bind]. rewrite Hpath. cbn [bind].
  rewrite Hweb. cbn [bind]. rewrite Hsub. cbn [bind]. rewrite Hdesc.
  cbn [bind]. rewrite Hver. cbn [bind].
  rewrite (Hwrite n Hname). reflexivity.
Qed.

Lemma unified_formula_extends_witness :
  Build.HomebrewBuilder.generate_formula sample_urlparse_path sample_output_dir
    sample_write_file
    (VDict [("name", VStr "Docs")])
    [VDict [("version", VStr "1.0"); ("platforms", VList [VStr "Linux"]);
            ("downloads", VDict [("Linux", VDict [("zip", VStr "https://x/a.zip")])])]]
    "Linux" = Ok true.
Proof.
  apply (unified_formula_extends sample_urlparse_path (fun _ => ".zip")
           sample_output_dir sample_output_dir sample_write_file sample_write_file);
    [discriminate | reflexivity | intros n _; reflexivity].
Defined.
